(** * AutoSystemSim: the anti-lock braking controller (ecu_safety_systems/abs_control)

    A shallow embedding of [ABSControl] and of the two data types it reads
    from [common/datatypes.h], followed by the properties of the controller.

    Conventions of the embedding.
    - A C++ [double] is a primitive binary64 float ([PrimFloat.float]); the
      comparison and arithmetic operators are the IEEE 754 ones, so NaN,
      infinities and rounding behave as in the compiled program.
    - A C++ [int] is a [Z].  The only arithmetic on integers is the cycle
      counter's increment (reset as soon as it exceeds 10) and small sums
      for fault codes, all far from the limits of [int].
    - [std::vector] is a [list]; a range-for or an index loop is a [map] or a
      structural recursion in the order of the loop.
    - A member function is a function from the object before the call to the
      object after it.  Logging and [sleep_for] do not touch the object and
      are left out.
    - [rand()] reads an entropy tape that is threaded through the calls. *)

From Stdlib Require Import ZArith List Bool Lia String.
From Stdlib Require Import Floats.
Import ListNotations.

(* Decimal constants such as 0.85 are read as the nearest binary64 value,
   as a C++ compiler reads them. *)
Set Warnings "-inexact-float".

(* ------------------------------------------------------------------ *)
(** * C++ operations on [double] *)

Module cpp.

(** [std::max(a, b)] is [(a < b) ? b : a]. *)
Definition std_max (a b : float) : float := if (a <? b)%float then b else a.

(** [std::min(a, b)] is [(b < a) ? b : a]. *)
Definition std_min (a b : float) : float := if (b <? a)%float then b else a.

Definition fabs (a : float) : float := PrimFloat.abs a.

(** The implicit conversion of a (non-negative) [int] to [double]. *)
Definition double_of_int (n : Z) : float := PrimFloat.of_uint63 (Uint63.of_Z n).

(** [a % b] on [int]: the remainder of the division truncated towards zero. *)
Definition int_mod (a b : Z) : Z := Z.rem a b.

End cpp.

(* ------------------------------------------------------------------ *)
(** * common/datatypes.h *)

Module datatypes.

Record SensorData := {
  id : Z;
  value : float;
  unit : string;
  timestamp_ms : Z
}.

Record VehicleState := {
  speed_kmh : float;
  engine_rpm : Z;
  current_gear : Z;
  lights_on : bool;
  battery_voltage : float;
  status_message : string
}.

End datatypes.

(* ------------------------------------------------------------------ *)
(** * The source of [rand()] *)

Module entropy.

(** The values [rand()] will return, and how many have been drawn. *)
Record tape := { draws : nat -> Z; cursor : nat }.

Definition Rand (A : Type) : Type := tape -> A * tape.

Definition ret {A} (a : A) : Rand A := fun t => (a, t).

Definition bind {A B} (m : Rand A) (k : A -> Rand B) : Rand B :=
  fun t => let (a, t') := m t in k a t'.

Definition rand : Rand Z :=
  fun t => (draws t (cursor t), {| draws := draws t; cursor := S (cursor t) |}).

End entropy.

Notation "x <- m ;; k" := (entropy.bind m (fun x => k))
  (at level 61, m at next level, right associativity).

(* ------------------------------------------------------------------ *)
(** * ecu_safety_systems/abs_control.h, abs_control.cpp *)

Module ecu_safety_systems.
Import cpp datatypes entropy.

Inductive ABSState :=
  | INACTIVE
  | MONITORING
  | INTERVENING
  | FAULT_DETECTED
  | INITIALIZING.

Definition ABSState_eqb (a b : ABSState) : bool :=
  match a, b with
  | INACTIVE, INACTIVE
  | MONITORING, MONITORING
  | INTERVENING, INTERVENING
  | FAULT_DETECTED, FAULT_DETECTED
  | INITIALIZING, INITIALIZING => true
  | _, _ => false
  end.

Record WheelSensorData := {
  wheel_id : Z;
  speed_kmh : float;
  is_locking : bool;
  applied_brake_pressure_bar : float
}.

Definition set_speed_kmh (w : WheelSensorData) (v : float) : WheelSensorData :=
  {| wheel_id := wheel_id w; speed_kmh := v; is_locking := is_locking w;
     applied_brake_pressure_bar := applied_brake_pressure_bar w |}.

Definition set_is_locking (w : WheelSensorData) (b : bool) : WheelSensorData :=
  {| wheel_id := wheel_id w; speed_kmh := speed_kmh w; is_locking := b;
     applied_brake_pressure_bar := applied_brake_pressure_bar w |}.

Definition set_applied_brake_pressure_bar (w : WheelSensorData) (p : float)
  : WheelSensorData :=
  {| wheel_id := wheel_id w; speed_kmh := speed_kmh w; is_locking := is_locking w;
     applied_brake_pressure_bar := p |}.

Record ABSControl := {
  current_abs_state_ : ABSState;
  wheel_data_ : list WheelSensorData;
  vehicle_reference_speed_kmh_ : float;
  cycles_since_last_intervention_ : Z;
  fault_code_ : Z
}.

Definition set_state (self : ABSControl) (s : ABSState) : ABSControl :=
  {| current_abs_state_ := s; wheel_data_ := wheel_data_ self;
     vehicle_reference_speed_kmh_ := vehicle_reference_speed_kmh_ self;
     cycles_since_last_intervention_ := cycles_since_last_intervention_ self;
     fault_code_ := fault_code_ self |}.

Definition set_wheel_data (self : ABSControl) (ws : list WheelSensorData) : ABSControl :=
  {| current_abs_state_ := current_abs_state_ self; wheel_data_ := ws;
     vehicle_reference_speed_kmh_ := vehicle_reference_speed_kmh_ self;
     cycles_since_last_intervention_ := cycles_since_last_intervention_ self;
     fault_code_ := fault_code_ self |}.

Definition set_reference_speed (self : ABSControl) (v : float) : ABSControl :=
  {| current_abs_state_ := current_abs_state_ self; wheel_data_ := wheel_data_ self;
     vehicle_reference_speed_kmh_ := v;
     cycles_since_last_intervention_ := cycles_since_last_intervention_ self;
     fault_code_ := fault_code_ self |}.

Definition set_cycles (self : ABSControl) (n : Z) : ABSControl :=
  {| current_abs_state_ := current_abs_state_ self; wheel_data_ := wheel_data_ self;
     vehicle_reference_speed_kmh_ := vehicle_reference_speed_kmh_ self;
     cycles_since_last_intervention_ := n;
     fault_code_ := fault_code_ self |}.

Definition set_fault_code (self : ABSControl) (c : Z) : ABSControl :=
  {| current_abs_state_ := current_abs_state_ self; wheel_data_ := wheel_data_ self;
     vehicle_reference_speed_kmh_ := vehicle_reference_speed_kmh_ self;
     cycles_since_last_intervention_ := cycles_since_last_intervention_ self;
     fault_code_ := c |}.

(** ** updateVehicleReferenceSpeed *)

(** The three locals of the loop: [sum_speeds], [valid_sensors],
    [max_wheel_speed]. *)
Record speed_scan := {
  sum_speeds : float;
  valid_sensors : Z;
  max_wheel_speed : float
}.

(** The body of the loop for one reading [v = wheel_speed_sensors[i].value]. *)
Definition scan_reading (acc : speed_scan) (v : float) : speed_scan :=
  if (0 <=? v)%float then
    {| sum_speeds := (sum_speeds acc + v)%float;
       valid_sensors := valid_sensors acc + 1;
       max_wheel_speed :=
         if (max_wheel_speed acc <? v)%float then v else max_wheel_speed acc |}
  else acc.

(** The loop [for (i = 0; i < sensors.size() && i < wheel_data_.size(); ++i)]:
    it stops at the end of the shorter vector. *)
Fixpoint read_wheel_speeds (sensors : list SensorData)
  (wheels : list WheelSensorData) (acc : speed_scan)
  : list WheelSensorData * speed_scan :=
  match sensors, wheels with
  | s :: sensors', w :: wheels' =>
      let (ws, acc') :=
        read_wheel_speeds sensors' wheels' (scan_reading acc (value s)) in
      (set_speed_kmh w (value s) :: ws, acc')
  | _, _ => (wheels, acc)
  end.

(** The estimate computed after the loop, before the final [std::min]. *)
Definition estimate_reference_speed (acc : speed_scan)
  (current_vehicle_speed_from_state : float) : float :=
  if (0 <? valid_sensors acc)%Z then
    let avg_wheel_speed := (sum_speeds acc / double_of_int (valid_sensors acc))%float in
    let blended :=
      if (0 <? current_vehicle_speed_from_state)%float
         && (fabs (current_vehicle_speed_from_state - avg_wheel_speed) <? 20)%float
      then ((current_vehicle_speed_from_state + avg_wheel_speed) / 2)%float
      else avg_wheel_speed in
    if (blended <? max_wheel_speed acc)%float && (5 <? blended)%float
    then ((blended + max_wheel_speed acc) / 2)%float
    else blended
  else 0%float.

Definition updateVehicleReferenceSpeed (self : ABSControl)
  (wheel_speed_sensors : list SensorData)
  (current_vehicle_speed_from_state : float) : ABSControl :=
  let (ws, acc) :=
    read_wheel_speeds wheel_speed_sensors (wheel_data_ self)
      {| sum_speeds := 0; valid_sensors := 0; max_wheel_speed := 0 |} in
  set_reference_speed (set_wheel_data self ws)
    (std_min (estimate_reference_speed acc current_vehicle_speed_from_state) 300).

(** ** detectWheelLockup *)

Definition detectWheelLockup (self : ABSControl) (wheel : WheelSensorData)
  (deceleration_threshold_g : float) : bool :=
  let ref := vehicle_reference_speed_kmh_ self in
  if (ref <? 5)%float then false
  else
    let slip_ratio :=
      if (1 <? ref)%float then ((ref - speed_kmh wheel) / ref)%float else 0%float in
    (0.20 <? slip_ratio)%float && (speed_kmh wheel <? ref * 0.85)%float.

(** ** releasePressure, holdPressure, reapplyPressure *)

Definition releasePressure (wheel : WheelSensorData) : WheelSensorData :=
  let p := std_max 0 (applied_brake_pressure_bar wheel - 50)%float in
  set_applied_brake_pressure_bar wheel (if (p <? 0)%float then 0%float else p).

Definition holdPressure (wheel : WheelSensorData) : WheelSensorData := wheel.

Definition reapplyPressure (wheel : WheelSensorData) : WheelSensorData :=
  set_applied_brake_pressure_bar wheel (applied_brake_pressure_bar wheel + 20)%float.

(** [std::max(0.0, std::min(p, 200.0))], the actuator limits. *)
Definition clamp_pressure (p : float) : float := std_max 0 (std_min p 200).

Definition limit_pressure (wheel : WheelSensorData) : WheelSensorData :=
  set_applied_brake_pressure_bar wheel
    (clamp_pressure (applied_brake_pressure_bar wheel)).

(** ** modulateBrakePressure *)

Definition modulateBrakePressure (self : ABSControl)
  (wheel_to_modulate : WheelSensorData) : WheelSensorData :=
  limit_pressure
    (if is_locking wheel_to_modulate then releasePressure wheel_to_modulate
     else if (speed_kmh wheel_to_modulate
                <? vehicle_reference_speed_kmh_ self * 0.95)%float
          then holdPressure wheel_to_modulate
          else reapplyPressure wheel_to_modulate).

(** ** checkForSystemFaults *)

Inductive sensor_scan :=
  | Fault (code : Z)
  | Scanned (valid_sensor_count : Z).

(** The loop over the sensor batch; [i] is the index of the head of
    [sensors].  A fault returns from the function at once. *)
Fixpoint scan_sensors (i : Z) (sensors : list SensorData)
  (valid_sensor_count : Z) : sensor_scan :=
  match sensors with
  | [] => Scanned valid_sensor_count
  | s :: rest =>
      if negb (id s =? i)%Z then Fault (10 + i)
      else if (value s <? -10)%float || (350 <? value s)%float then Fault (20 + i)
      else scan_sensors (i + 1) rest
             (if (-1 <=? value s)%float then valid_sensor_count + 1
              else valid_sensor_count)
  end.

Definition raise_fault (self : ABSControl) (code : Z) : ABSControl :=
  set_fault_code (set_state self FAULT_DETECTED) code.

Definition checkForSystemFaults (self : ABSControl)
  (wheel_speed_sensors : list SensorData) : ABSControl :=
  let size := Z.of_nat (List.length wheel_speed_sensors) in
  match scan_sensors 0 wheel_speed_sensors 0 with
  | Fault code => raise_fault self code
  | Scanned valid_sensor_count =>
      if (valid_sensor_count <? size)%Z
         && (10 <? vehicle_reference_speed_kmh_ self)%float
      then
        if (valid_sensor_count =? 0)%Z && (0 <? size)%Z
        then raise_fault self 30
        else self
      else self
  end.

(** ** processBraking *)

(** The body of the first loop of step 4 for one wheel: follow the pedal
    unless the controller is already intervening on this wheel (its flag from
    the previous evaluation is still set), then evaluate the lockup detector. *)
Definition analyze_wheel (self : ABSControl) (brake_pedal_pressure_input : float)
  (w : WheelSensorData) : WheelSensorData :=
  let w :=
    if negb (ABSState_eqb (current_abs_state_ self) INTERVENING)
       || negb (is_locking w)
    then set_applied_brake_pressure_bar w brake_pedal_pressure_input
    else w in
  set_is_locking w (detectWheelLockup self w 1).

(** The first loop of step 4, over the wheels in order; [any_wheel_locking]
    is set as soon as a wheel is flagged. *)
Fixpoint analyze_wheels (self : ABSControl) (brake_pedal_pressure_input : float)
  (wheels : list WheelSensorData) (any_wheel_locking : bool)
  : list WheelSensorData * bool :=
  match wheels with
  | [] => ([], any_wheel_locking)
  | w :: rest =>
      let w' := analyze_wheel self brake_pedal_pressure_input w in
      let (rest', any') :=
        analyze_wheels self brake_pedal_pressure_input rest
          (if is_locking w' then true else any_wheel_locking) in
      (w' :: rest', any')
  end.

(** The body of the loop run when some wheel is locking. *)
Definition intervene_on_wheel (self : ABSControl)
  (brake_pedal_pressure_input : float) (wd : WheelSensorData) : WheelSensorData :=
  if is_locking wd
     || (vehicle_reference_speed_kmh_ self * 0.15
           <? vehicle_reference_speed_kmh_ self - speed_kmh wd)%float
  then modulateBrakePressure self wd
  else set_applied_brake_pressure_bar wd brake_pedal_pressure_input.

(** The body of the loop run when no wheel is locking while INTERVENING. *)
Definition recover_wheel (brake_pedal_pressure_input : float)
  (wd : WheelSensorData) : WheelSensorData :=
  if (applied_brake_pressure_bar wd <? brake_pedal_pressure_input)%float then
    let wd' := reapplyPressure wd in
    set_applied_brake_pressure_bar wd'
      (std_min (applied_brake_pressure_bar wd') brake_pedal_pressure_input)
  else set_applied_brake_pressure_bar wd brake_pedal_pressure_input.

Definition pass_through (brake_pedal_pressure_input : float)
  (wheels : list WheelSensorData) : list WheelSensorData :=
  map (fun wd => set_applied_brake_pressure_bar wd brake_pedal_pressure_input) wheels.

(** [potential_intervention_needed] of step 3. *)
Definition potential_intervention_needed (self : ABSControl)
  (brake_pedal_pressure_input : float) : bool :=
  (10 <? vehicle_reference_speed_kmh_ self)%float
  && (20 <? brake_pedal_pressure_input)%float.

(** Step 3: the transitions taken before the wheels are analysed. *)
Definition evaluate_entry_condition (self : ABSControl) (potential : bool)
  : ABSControl :=
  if negb potential && ABSState_eqb (current_abs_state_ self) INTERVENING
  then set_cycles (set_state self INACTIVE) 0
  else if potential && ABSState_eqb (current_abs_state_ self) INACTIVE
       then set_state self MONITORING
       else self.

Definition settled_state (potential : bool) : ABSState :=
  if potential then MONITORING else INACTIVE.

(** Step 4: lockup detection and pressure modulation. *)
Definition main_abs_logic (self : ABSControl) (potential : bool)
  (brake_pedal_pressure_input : float) : ABSControl :=
  if ABSState_eqb (current_abs_state_ self) MONITORING
     || ABSState_eqb (current_abs_state_ self) INTERVENING
  then
    let (ws, any_wheel_locking) :=
      analyze_wheels self brake_pedal_pressure_input (wheel_data_ self) false in
    let self := set_wheel_data self ws in
    if any_wheel_locking then
      let self :=
        if negb (ABSState_eqb (current_abs_state_ self) INTERVENING)
        then set_state self INTERVENING else self in
      let self := set_cycles self 0 in
      set_wheel_data self
        (map (intervene_on_wheel self brake_pedal_pressure_input) (wheel_data_ self))
    else if ABSState_eqb (current_abs_state_ self) INTERVENING then
      let self := set_cycles self (cycles_since_last_intervention_ self + 1) in
      let self :=
        set_wheel_data self
          (map (recover_wheel brake_pedal_pressure_input) (wheel_data_ self)) in
      if (10 <? cycles_since_last_intervention_ self)%Z
      then set_cycles (set_state self (settled_state potential)) 0
      else self
    else
      let self := set_state self (settled_state potential) in
      set_wheel_data self (pass_through brake_pedal_pressure_input (wheel_data_ self))
  else
    set_wheel_data self (pass_through brake_pedal_pressure_input (wheel_data_ self)).

Definition processBraking (self : ABSControl) (vehicle_state : VehicleState)
  (wheel_speed_sensors : list SensorData) (brake_pedal_pressure_input : float)
  : ABSControl :=
  if ABSState_eqb (current_abs_state_ self) FAULT_DETECTED then
    set_wheel_data self (pass_through brake_pedal_pressure_input (wheel_data_ self))
  else if ABSState_eqb (current_abs_state_ self) INITIALIZING then self
  else
    let self :=
      updateVehicleReferenceSpeed self wheel_speed_sensors
        (datatypes.speed_kmh vehicle_state) in
    let self := checkForSystemFaults self wheel_speed_sensors in
    if ABSState_eqb (current_abs_state_ self) FAULT_DETECTED then self
    else
      let potential :=
        potential_intervention_needed self brake_pedal_pressure_input in
      let self := evaluate_entry_condition self potential in
      let self := main_abs_logic self potential brake_pedal_pressure_input in
      set_wheel_data self (map limit_pressure (wheel_data_ self)).

(** ** getCurrentState, isABSInterventionActive *)

Definition getCurrentState (self : ABSControl) : ABSState := current_abs_state_ self.

Definition isABSInterventionActive (self : ABSControl) : bool :=
  ABSState_eqb (current_abs_state_ self) INTERVENING.

(** ** runDiagnostics *)

(** The sensor connectivity check.  A failure draws twice more: once for the
    sensor id in the log line, once for the fault code. *)
Definition check_sensor_connectivity (self : ABSControl) : Rand ABSControl :=
  r <- rand ;;
  let sensor_conn_ok := (2 <? int_mod r 100)%Z in
  if negb sensor_conn_ok then
    _logged_sensor_id <- rand ;;
    r' <- rand ;;
    ret (set_fault_code (set_state self FAULT_DETECTED) (50 + int_mod r' 4))
  else ret self.

Definition check_actuators (self : ABSControl) : Rand ABSControl :=
  r <- rand ;;
  let actuator_ok := (3 <? int_mod r 100)%Z in
  if negb actuator_ok
     && negb (ABSState_eqb (current_abs_state_ self) FAULT_DETECTED)
  then ret (set_fault_code (set_state self FAULT_DETECTED) 70)
  else ret self.

Definition runDiagnostics (self : ABSControl) : Rand ABSControl :=
  let self := set_fault_code (set_state self INITIALIZING) 0 in
  self <- check_sensor_connectivity self ;;
  self <- check_actuators self ;;
  if ABSState_eqb (current_abs_state_ self) FAULT_DETECTED then ret self
  else ret (set_state self INACTIVE).

(** ** initialize and the constructor *)

Definition fresh_wheel (i : Z) : WheelSensorData :=
  {| wheel_id := i; speed_kmh := 0; is_locking := false;
     applied_brake_pressure_bar := 0 |}.

Definition initialize (self : ABSControl) : Rand ABSControl :=
  let self := set_state self INITIALIZING in
  let self := set_wheel_data self (map fresh_wheel [0; 1; 2; 3]%Z) in
  self <- runDiagnostics self ;;
  if negb (ABSState_eqb (current_abs_state_ self) FAULT_DETECTED)
  then ret (set_state self INACTIVE)
  else ret self.

Definition construct : Rand ABSControl :=
  initialize
    {| current_abs_state_ := INITIALIZING; wheel_data_ := [];
       vehicle_reference_speed_kmh_ := 0; cycles_since_last_intervention_ := 0;
       fault_code_ := 0 |}.

End ecu_safety_systems.

Import cpp datatypes ecu_safety_systems.

(* ------------------------------------------------------------------ *)
(** * Vocabulary of the properties *)

(** The applied pressures of the four channels, in wheel order. *)
Definition pressures (self : ABSControl) : list float :=
  map applied_brake_pressure_bar (wheel_data_ self).

(** The lockup flags of the four channels, in wheel order. *)
Definition lockup_flags (self : ABSControl) : list bool :=
  map is_locking (wheel_data_ self).

(** [p] lies in [[0, 200]] bar: both comparisons hold, so [p] is not NaN. *)
Definition within_limits (p : float) : bool := (0 <=? p)%float && (p <=? 200)%float.

(** What one call of [processBraking] receives. *)
Record cycle_input := {
  vehicle_state : VehicleState;
  wheel_speed_sensors : list SensorData;
  brake_pedal_pressure_input : float
}.

Definition cycle (self : ABSControl) (i : cycle_input) : ABSControl :=
  processBraking self (vehicle_state i) (wheel_speed_sensors i)
    (brake_pedal_pressure_input i).

(** Consecutive calls of [processBraking], first input first. *)
Definition run_cycles (self : ABSControl) (inputs : list cycle_input) : ABSControl :=
  fold_left cycle inputs self.

(** Steps 1 and 2 of [processBraking]: the controller after the reference
    speed update and the fault check. *)
Definition sensed (self : ABSControl) (i : cycle_input) : ABSControl :=
  checkForSystemFaults
    (updateVehicleReferenceSpeed self (wheel_speed_sensors i)
       (datatypes.speed_kmh (vehicle_state i)))
    (wheel_speed_sensors i).

(** Step 3 on top of [sensed]: the controller on which the wheels are analysed. *)
Definition armed (self : ABSControl) (i : cycle_input) : ABSControl :=
  evaluate_entry_condition (sensed self i)
    (potential_intervention_needed (sensed self i) (brake_pedal_pressure_input i)).

(** The wheels and [any_wheel_locking] as the first loop of step 4 leaves them. *)
Definition analyzed (self : ABSControl) (i : cycle_input)
  : list WheelSensorData * bool :=
  analyze_wheels (armed self i) (brake_pedal_pressure_input i)
    (wheel_data_ (armed self i)) false.

(** The call reaches the first loop of step 4: it is entered neither in
    FAULT_DETECTED nor in INITIALIZING, no fault is raised, and step 3 leaves
    the controller in MONITORING or INTERVENING. *)
Definition analysis_runs (self : ABSControl) (i : cycle_input) : bool :=
  negb (ABSState_eqb (current_abs_state_ self) FAULT_DETECTED)
  && negb (ABSState_eqb (current_abs_state_ self) INITIALIZING)
  && negb (ABSState_eqb (current_abs_state_ (sensed self i)) FAULT_DETECTED)
  && (ABSState_eqb (current_abs_state_ (armed self i)) MONITORING
      || ABSState_eqb (current_abs_state_ (armed self i)) INTERVENING).

(** The outcome of the two checks of [runDiagnostics] read off the tape: the
    first draw decides the sensor check; the actuator check draws next, after
    the two extra draws of a failed sensor check. *)
Definition sensor_conn_ok (t : entropy.tape) : bool :=
  (2 <? int_mod (entropy.draws t (entropy.cursor t)) 100)%Z.

Definition actuator_ok (t : entropy.tape) : bool :=
  let drawn := if sensor_conn_ok t then 1%nat else 3%nat in
  (3 <? int_mod (entropy.draws t (entropy.cursor t + drawn)%nat) 100)%Z.

(** The controller is in one of the three states in which a cycle is processed. *)
Definition operational (self : ABSControl) : Prop :=
  current_abs_state_ self <> FAULT_DETECTED /\ current_abs_state_ self <> INITIALIZING.

(** The sign test [0 <= x] read on the IEEE 754 representation. *)
Definition sf_nonneg (f : spec_float) : bool :=
  match f with
  | S754_zero _ => true
  | S754_infinity s => negb s
  | S754_nan => false
  | S754_finite s _ _ => negb s
  end.

(** ** Test fixtures *)

Module fixtures.

Definition sensor (i : Z) (v : float) : SensorData :=
  {| id := i; value := v; unit := "km/h"; timestamp_ms := 0 |}.

(** A well-ordered batch FL, FR, RL, RR. *)
Definition batch (fl fr rl rr : float) : list SensorData :=
  [sensor 0 fl; sensor 1 fr; sensor 2 rl; sensor 3 rr].

Definition vehicle (v : float) : VehicleState :=
  {| datatypes.speed_kmh := v; engine_rpm := 2000; current_gear := 3;
     lights_on := false; battery_voltage := 12.5; status_message := "" |}.

Definition input (hint : float) (sensors : list SensorData) (pedal : float)
  : cycle_input :=
  {| vehicle_state := vehicle hint; wheel_speed_sensors := sensors;
     brake_pedal_pressure_input := pedal |}.

Definition wheel (i : Z) (v : float) (locking : bool) (p : float) : WheelSensorData :=
  {| wheel_id := i; speed_kmh := v; is_locking := locking;
     applied_brake_pressure_bar := p |}.

(** A controller in state [s] whose four channels all hold pressure [p]. *)
Definition controller (s : ABSState) (ref : float) (p : float) (code : Z) : ABSControl :=
  {| current_abs_state_ := s;
     wheel_data_ := map (fun i => wheel i ref false p) [0; 1; 2; 3]%Z;
     vehicle_reference_speed_kmh_ := ref;
     cycles_since_last_intervention_ := 0;
     fault_code_ := code |}.

(** An entropy tape that always yields [r]. *)
Definition constant_tape (r : Z) : entropy.tape :=
  {| entropy.draws := fun _ => r; entropy.cursor := 0 |}.

End fixtures.

(** ** The estimator as section 4.1 words it *)

Module estimator_spec.

(** A reading is valid when it is not negative. *)
Definition valid_reading (v : float) : bool := (0 <=? v)%float.

(** The arithmetic mean: the readings summed in order, over their number. *)
Definition arithmetic_mean (vs : list float) : float :=
  (fold_left PrimFloat.add vs 0 / double_of_int (Z.of_nat (List.length vs)))%float.

(** The largest reading (0 bounds the non-negative readings from below). *)
Definition maximum (vs : list float) : float := fold_left std_max vs 0%float.

(** The hint is present (positive) and within 20 km/h of the mean. *)
Definition hint_usable (hint mean : float) : bool :=
  (0 <? hint)%float && (fabs (hint - mean) <? 20)%float.

(** Mean of the valid readings; blend with the hint; bias towards the
    maximum; cap at 300. *)
Definition reference_speed (readings : list float) (hint : float) : float :=
  let valid := filter valid_reading readings in
  let mean := arithmetic_mean valid in
  let estimate :=
    if hint_usable hint mean then ((hint + mean) / 2)%float else mean in
  let estimate :=
    if (estimate <? maximum valid)%float && (5 <? estimate)%float
    then ((estimate + maximum valid) / 2)%float
    else estimate in
  std_min estimate 300.

End estimator_spec.

(** The readings the update loop visits: one per wheel channel, in order. *)
Definition readings_used (self : ABSControl) (sensors : list SensorData) : list float :=
  map value (firstn (List.length (wheel_data_ self)) sensors).

(** ** Clean cycles and the pressure of an intervention *)

(** A cycle that raises no fault, in which the entry condition of step 3 holds
    and the analysis flags no wheel. *)
Definition clean_cycle (self : ABSControl) (i : cycle_input) : bool :=
  negb (ABSState_eqb (current_abs_state_ (sensed self i)) FAULT_DETECTED)
  && potential_intervention_needed (sensed self i) (brake_pedal_pressure_input i)
  && negb (snd (analyzed self i)).

(** Every cycle of the run is clean for the controller that receives it. *)
Fixpoint clean_run (self : ABSControl) (inputs : list cycle_input) : Prop :=
  match inputs with
  | [] => True
  | i :: rest => clean_cycle self i = true /\ clean_run (cycle self i) rest
  end.

(** The wheel is more than 15% slower than the reference speed. *)
Definition significant_slip (ref : float) (w : WheelSensorData) : bool :=
  (ref * 0.15 <? ref - speed_kmh w)%float.

(** The pressure a cycle with a locking wheel leaves on channel [w], where [w]
    is the wheel as the analysis left it. *)
Definition intervention_pressure (ref pedal : float) (w : WheelSensorData) : float :=
  if is_locking w then
    clamp_pressure (std_max 0 (applied_brake_pressure_bar w - 50)%float)
  else if significant_slip ref w then
    if (speed_kmh w <? ref * 0.95)%float
    then clamp_pressure (applied_brake_pressure_bar w)
    else clamp_pressure (applied_brake_pressure_bar w + 20)%float
  else clamp_pressure pedal.

(** The pressure on which the analysis lets the modulation act: the pedal
    input, unless the controller is intervening on a wheel still flagged. *)
Definition base_pressure (state : ABSState) (pedal : float) (w : WheelSensorData)
  : float :=
  if negb (ABSState_eqb state INTERVENING) || negb (is_locking w)
  then pedal else applied_brake_pressure_bar w.

(* ------------------------------------------------------------------ *)
(** * main_application/main_vehicle_controller.cpp: the wheel speed sensors

    The part of the vehicle controller that builds the sensor batch handed to
    [processBraking]; the draws of the noise generator and the clock readings
    are inputs. *)

Module main_application.

(** The constructor, lines 46-49: four sensors FL, FR, RL, RR at rest. *)
Definition initial_wheel_speed_sensors : list SensorData :=
  map (fun i => {| id := i; value := 0; unit := "km/h"; timestamp_ms := 0 |})
    [0; 1; 2; 3]%Z.

(** The loop of [updateVehicleStateInputs], lines 124-127: each sensor reads
    the vehicle speed plus noise, floored at 0 by [std::max], and is stamped
    with the clock.  [i] is the index of the head of [sensors]. *)
Fixpoint simulate_wheel_speeds (vehicle_speed_kmh : float) (speed_noise : nat -> float)
  (now : nat -> Z) (i : nat) (sensors : list SensorData) : list SensorData :=
  match sensors with
  | [] => []
  | s :: rest =>
      {| id := id s;
         value := std_max 0 (vehicle_speed_kmh + speed_noise i)%float;
         unit := unit s;
         timestamp_ms := now i |}
      :: simulate_wheel_speeds vehicle_speed_kmh speed_noise now (S i) rest
  end.

End main_application.

(** ** The life of a controller *)

(** The calls a scheduler makes on a constructed controller. *)
Inductive call :=
  | ProcessBraking (i : cycle_input)
  | RunDiagnostics.

Definition perform (c : call) (self : ABSControl) : entropy.Rand ABSControl :=
  match c with
  | ProcessBraking i => entropy.ret (cycle self i)
  | RunDiagnostics => runDiagnostics self
  end.

Fixpoint perform_all (calls : list call) (self : ABSControl)
  : entropy.Rand ABSControl :=
  match calls with
  | [] => entropy.ret self
  | c :: rest => self' <- perform c self ;; perform_all rest self'
  end.

(** Construction followed by a sequence of calls. *)
Definition lifetime (calls : list call) : entropy.Rand ABSControl :=
  self <- construct ;; perform_all calls self.

(** What holds of a controller at every point of its life. *)
Definition well_formed (self : ABSControl) : Prop :=
  current_abs_state_ self <> INITIALIZING
  /\ map wheel_id (wheel_data_ self) = [0; 1; 2; 3]%Z
  /\ (0 <= cycles_since_last_intervention_ self <= 10)%Z
  /\ (fault_code_ self = 0%Z <-> current_abs_state_ self <> FAULT_DETECTED)
  /\ (0 <=? vehicle_reference_speed_kmh_ self)%float = true
  /\ (vehicle_reference_speed_kmh_ self <=? 300)%float = true.

(** ** Sensor batches *)

(** The range check of the fault monitor. *)
Definition grossly_out_of_range (v : float) : bool :=
  (v <? -10)%float || (350 <? v)%float.

(** Every sensor of the batch sits at its index, counted from [i], and passes
    the range check. *)
Fixpoint batch_accepted (i : Z) (sensors : list SensorData) : bool :=
  match sensors with
  | [] => true
  | s :: rest =>
      (id s =? i)%Z && negb (grossly_out_of_range (value s))
      && batch_accepted (i + 1) rest
  end.

(** The pressure a recovery step leaves on a channel holding [p]. *)
Definition recovered_pressure (pedal p : float) : float :=
  if (p <? pedal)%float then std_min (p + 20)%float pedal else pedal.

(** The accumulators of [updateVehicleReferenceSpeed] before its loop. *)
Definition empty_scan : speed_scan :=
  {| sum_speeds := 0; valid_sensors := 0; max_wheel_speed := 0 |}.


(* ------------------------------------------------------------------ *)
(** * Facts on binary64 comparison and rounding *)

Section float_order.

Lemma SFcompare_antisym (x y : spec_float) :
  SFcompare y x = option_map CompOpp (SFcompare x y).
Proof.
  destruct x as [sx|sx| |sx mx ex], y as [sy|sy| |sy my ey];
    try destruct sx; try destruct sy; simpl; try reflexivity.
  - rewrite (Z.compare_antisym ex ey).
    destruct (ex ?= ey)%Z; simpl; try reflexivity.
    pose proof (Pos.compare_cont_antisym mx my Eq) as H; simpl in H.
    now rewrite H.
  - rewrite (Z.compare_antisym ex ey).
    destruct (ex ?= ey)%Z; simpl; try reflexivity.
    pose proof (Pos.compare_cont_antisym mx my Eq) as H; simpl in H.
    now rewrite H.
Qed.

Lemma SFcompare_None (x y : spec_float) :
  SFcompare x y = None -> x = S754_nan \/ y = S754_nan.
Proof.
  destruct x as [sx|sx| |sx mx ex], y as [sy|sy| |sy my ey]; simpl; auto; discriminate.
Qed.

Lemma ltb_leb (x y : float) : (x <? y)%float = true -> (x <=? y)%float = true.
Proof.
  rewrite ltb_spec, leb_spec. unfold SFltb, SFleb.
  destruct (SFcompare (Prim2SF x) (Prim2SF y)) as [[ | | ]|]; congruence.
Qed.

Lemma ltb_asym (x y : float) : (x <? y)%float = true -> (y <? x)%float = false.
Proof.
  rewrite !ltb_spec. unfold SFltb.
  rewrite (SFcompare_antisym (Prim2SF x) (Prim2SF y)).
  destruct (SFcompare (Prim2SF x) (Prim2SF y)) as [[ | | ]|]; simpl; congruence.
Qed.

Lemma leb_number_l (x y : float) : (x <=? y)%float = true -> Prim2SF x <> S754_nan.
Proof.
  rewrite leb_spec. unfold SFleb. intros H E. rewrite E in H. discriminate.
Qed.

Lemma leb_number_r (x y : float) : (x <=? y)%float = true -> Prim2SF y <> S754_nan.
Proof.
  rewrite leb_spec. unfold SFleb. intros H E. rewrite E in H.
  destruct (Prim2SF x); discriminate.
Qed.

Lemma not_ltb_leb (x y : float) :
  (y <? x)%float = false -> Prim2SF x <> S754_nan -> Prim2SF y <> S754_nan ->
  (x <=? y)%float = true.
Proof.
  rewrite ltb_spec, leb_spec. unfold SFltb, SFleb.
  rewrite (SFcompare_antisym (Prim2SF x) (Prim2SF y)).
  destruct (SFcompare (Prim2SF x) (Prim2SF y)) as [[ | | ]|] eqn:E;
    simpl; try congruence.
  intros _ Hx Hy. destruct (SFcompare_None _ _ E); contradiction.
Qed.

Lemma leb_0_nonneg (x : float) : (0 <=? x)%float = sf_nonneg (Prim2SF x).
Proof.
  rewrite leb_spec. change (Prim2SF 0) with (S754_zero false).
  destruct (Prim2SF x) as [s|s| |s m e]; try destruct s; reflexivity.
Qed.

(** A reading the estimator accepts is one the fault monitor counts. *)
Lemma nonneg_above_minus_one (x : float) :
  (0 <=? x)%float = true -> (-1 <=? x)%float = true.
Proof.
  rewrite leb_0_nonneg, leb_spec.
  destruct (Prim2SF x) as [s|s| |s m e]; try destruct s; simpl;
    try discriminate; intros _; vm_compute; reflexivity.
Qed.

End float_order.

Section float_rounding.

Variables prec emax : Z.

Lemma shr_1_nonneg mrs : (0 <= shr_m mrs)%Z -> (0 <= shr_m (shr_1 mrs))%Z.
Proof.
  destruct mrs as [m r s]; simpl.
  destruct m as [|[p|p|]|[p|p|]]; simpl; lia.
Qed.

Lemma iter_shr_1_nonneg p : forall mrs,
  (0 <= shr_m mrs)%Z -> (0 <= shr_m (iter_pos shr_1 p mrs))%Z.
Proof.
  induction p as [p IH|p IH|]; simpl; intros mrs H.
  - apply IH, IH, shr_1_nonneg, H.
  - apply IH, IH, H.
  - apply shr_1_nonneg, H.
Qed.

Lemma shr_fexp_nonneg m e l :
  (0 <= m)%Z -> (0 <= shr_m (fst (shr_fexp prec emax m e l)))%Z.
Proof.
  intros H. unfold shr_fexp, shr.
  assert (H0 : (0 <= shr_m (shr_record_of_loc m l))%Z)
    by (destruct l as [|[ | | ]]; exact H).
  destruct (fexp prec emax (Zdigits2 m + e) - e)%Z; simpl; trivial.
  now apply iter_shr_1_nonneg.
Qed.

Lemma round_nearest_even_nonneg m l :
  (0 <= m)%Z -> (0 <= round_nearest_even m l)%Z.
Proof.
  intros H. destruct l as [|[ | | ]]; simpl; try lia.
  destruct (Z.even m); lia.
Qed.

(** Rounding a non-negative mantissa with a positive sign never yields a
    negative number or NaN. *)
Lemma binary_round_aux_nonneg mx ex lx :
  (0 <= mx)%Z -> sf_nonneg (binary_round_aux prec emax false mx ex lx) = true.
Proof.
  intros H. unfold binary_round_aux.
  pose proof (shr_fexp_nonneg mx ex lx H) as H1.
  destruct (shr_fexp prec emax mx ex lx) as [mrs' e']; simpl in H1.
  pose proof (shr_fexp_nonneg
                (round_nearest_even (shr_m mrs') (loc_of_shr_record mrs')) e' loc_Exact
                (round_nearest_even_nonneg _ _ H1)) as H2.
  destruct (shr_fexp prec emax _ e' loc_Exact) as [mrs'' e'']; simpl in H2.
  destruct (shr_m mrs'') as [|m|m]; try reflexivity; try lia.
  now destruct (e'' <=? emax - prec)%Z.
Qed.

Lemma SFadd_nonneg x y :
  sf_nonneg x = true -> sf_nonneg y = true -> sf_nonneg (SFadd prec emax x y) = true.
Proof.
  destruct x as [sx|sx| |sx mx ex], y as [sy|sy| |sy my ey];
    try destruct sx; try destruct sy; simpl; try discriminate; try reflexivity.
  intros _ _. unfold binary_normalize, binary_round.
  destruct (shl_align _ _ _) as [mz ez].
  now apply binary_round_aux_nonneg.
Qed.

Lemma SFdiv_nonneg x my ey :
  sf_nonneg x = true ->
  sf_nonneg (SFdiv prec emax x (S754_finite false my ey)) = true.
Proof.
  destruct x as [sx|sx| |sx mx ex]; try destruct sx; simpl;
    try discriminate; try reflexivity.
  intros _. unfold SFdiv_core_binary.
  set (m' := match _ with Z0 => Zpos mx | Zpos _ => _ | Zneg _ => 0%Z end).
  assert (Hm : (0 <= m')%Z).
  { subst m'. destruct (_ - _ - _)%Z; try lia. apply Z.shiftl_nonneg. lia. }
  pose proof (Z.div_pos m' (Zpos my) Hm ltac:(lia)) as Hq.
  unfold Z.div in Hq.
  destruct (Z.div_eucl m' (Zpos my)) as [q r]. simpl in Hq.
  now apply binary_round_aux_nonneg.
Qed.

End float_rounding.

Section float_arithmetic.

Lemma add_nonneg (x y : float) :
  (0 <=? x)%float = true -> (0 <=? y)%float = true -> (0 <=? x + y)%float = true.
Proof.
  rewrite !leb_0_nonneg, add_spec. apply SFadd_nonneg.
Qed.

Lemma div_nonneg (x d : float) m e :
  Prim2SF d = S754_finite false m e ->
  (0 <=? x)%float = true -> (0 <=? x / d)%float = true.
Proof.
  intros Hd. rewrite !leb_0_nonneg, div_spec, Hd. apply SFdiv_nonneg.
Qed.

Lemma half_nonneg (x : float) : (0 <=? x)%float = true -> (0 <=? x / 2)%float = true.
Proof. now apply div_nonneg with (m := 4503599627370496%positive) (e := (-51)%Z). Qed.

(** Dividing by the number of valid sensors, 1 to 4. *)
Lemma div_count_nonneg (x : float) (n : Z) :
  (1 <= n <= 4)%Z ->
  (0 <=? x)%float = true -> (0 <=? x / double_of_int n)%float = true.
Proof.
  intros Hn.
  assert (E : n = 1%Z \/ n = 2%Z \/ n = 3%Z \/ n = 4%Z) by lia.
  destruct E as [->|[->|[->| ->]]].
  - now apply div_nonneg with (m := 4503599627370496%positive) (e := (-52)%Z).
  - now apply div_nonneg with (m := 4503599627370496%positive) (e := (-51)%Z).
  - now apply div_nonneg with (m := 6755399441055744%positive) (e := (-51)%Z).
  - now apply div_nonneg with (m := 4503599627370496%positive) (e := (-50)%Z).
Qed.

End float_arithmetic.

Section pressure_limits.

Lemma clamp_pressure_range (p : float) :
  (0 <=? clamp_pressure p)%float = true /\ (clamp_pressure p <=? 200)%float = true.
Proof.
  unfold clamp_pressure, std_max, std_min.
  destruct (200 <? p)%float eqn:Hhi.
  - split; reflexivity.
  - destruct (0 <? p)%float eqn:Hlo.
    + split.
      * now apply ltb_leb.
      * apply not_ltb_leb; trivial.
        -- apply ltb_leb in Hlo. now apply leb_number_r in Hlo.
        -- discriminate.
    + split; reflexivity.
Qed.

Lemma clamp_pressure_within_limits (p : float) :
  within_limits (clamp_pressure p) = true.
Proof.
  unfold within_limits. destruct (clamp_pressure_range p) as [-> ->]. reflexivity.
Qed.

(** Clamping twice is clamping once. *)
Lemma clamp_pressure_idempotent (p : float) :
  clamp_pressure (clamp_pressure p) = clamp_pressure p.
Proof.
  unfold clamp_pressure, std_max, std_min.
  destruct (200 <? p)%float eqn:Hhi.
  - reflexivity.
  - destruct (0 <? p)%float eqn:Hlo.
    + now rewrite Hhi, Hlo.
    + reflexivity.
Qed.

End pressure_limits.

(* ------------------------------------------------------------------ *)
(** * Frame properties of the steps of a cycle *)

Section frames.

Lemma ABSState_eqb_eq (a b : ABSState) : ABSState_eqb a b = true <-> a = b.
Proof. split; [destruct a, b; simpl; congruence | intros ->; now destruct b]. Qed.

Lemma ABSState_eqb_neq (a b : ABSState) : ABSState_eqb a b = false <-> a <> b.
Proof.
  split.
  - intros H E. apply ABSState_eqb_eq in E. congruence.
  - intros H. destruct (ABSState_eqb a b) eqn:E; trivial.
    apply ABSState_eqb_eq in E. contradiction.
Qed.

(** The update loop writes speeds only. *)
Lemma read_wheel_speeds_pressures sensors : forall wheels acc,
  map applied_brake_pressure_bar (fst (read_wheel_speeds sensors wheels acc))
  = map applied_brake_pressure_bar wheels.
Proof.
  induction sensors as [|s sensors IH]; intros [|w wheels] acc; simpl; trivial.
  specialize (IH wheels (scan_reading acc (value s))).
  destruct (read_wheel_speeds sensors wheels _) as [ws acc']. simpl in *.
  now rewrite IH.
Qed.

Lemma read_wheel_speeds_flags sensors : forall wheels acc,
  map is_locking (fst (read_wheel_speeds sensors wheels acc)) = map is_locking wheels.
Proof.
  induction sensors as [|s sensors IH]; intros [|w wheels] acc; simpl; trivial.
  specialize (IH wheels (scan_reading acc (value s))).
  destruct (read_wheel_speeds sensors wheels _) as [ws acc']. simpl in *.
  now rewrite IH.
Qed.

Lemma read_wheel_speeds_length sensors : forall wheels acc,
  List.length (fst (read_wheel_speeds sensors wheels acc)) = List.length wheels.
Proof.
  induction sensors as [|s sensors IH]; intros [|w wheels] acc; simpl; trivial.
  specialize (IH wheels (scan_reading acc (value s))).
  destruct (read_wheel_speeds sensors wheels _) as [ws acc']. simpl in *.
  now rewrite IH.
Qed.

Lemma updateVehicleReferenceSpeed_frame self sensors hint :
  let r := updateVehicleReferenceSpeed self sensors hint in
  current_abs_state_ r = current_abs_state_ self
  /\ cycles_since_last_intervention_ r = cycles_since_last_intervention_ self
  /\ fault_code_ r = fault_code_ self
  /\ pressures r = pressures self
  /\ lockup_flags r = lockup_flags self.
Proof.
  unfold updateVehicleReferenceSpeed, pressures, lockup_flags.
  pose proof (read_wheel_speeds_pressures sensors (wheel_data_ self)
                {| sum_speeds := 0; valid_sensors := 0; max_wheel_speed := 0 |}) as Hp.
  pose proof (read_wheel_speeds_flags sensors (wheel_data_ self)
                {| sum_speeds := 0; valid_sensors := 0; max_wheel_speed := 0 |}) as Hf.
  destruct (read_wheel_speeds _ _ _) as [ws acc]. simpl in *. auto.
Qed.

(** The fault monitor writes the state and the fault code only. *)
Lemma checkForSystemFaults_frame self sensors :
  let r := checkForSystemFaults self sensors in
  wheel_data_ r = wheel_data_ self
  /\ vehicle_reference_speed_kmh_ r = vehicle_reference_speed_kmh_ self
  /\ cycles_since_last_intervention_ r = cycles_since_last_intervention_ self.
Proof.
  unfold checkForSystemFaults.
  destruct (scan_sensors 0 sensors 0); simpl; auto.
  destruct (_ && _); simpl; auto. destruct (_ && _); simpl; auto.
Qed.

(** It leaves the controller alone, or raises a fault. *)
Lemma checkForSystemFaults_cases self sensors :
  checkForSystemFaults self sensors = self
  \/ exists code, checkForSystemFaults self sensors = raise_fault self code.
Proof.
  unfold checkForSystemFaults.
  destruct (scan_sensors 0 sensors 0); eauto.
  destruct (_ && _); auto. destruct (_ && _); eauto.
Qed.

Lemma sensed_frame self i :
  cycles_since_last_intervention_ (sensed self i) = cycles_since_last_intervention_ self
  /\ pressures (sensed self i) = pressures self
  /\ lockup_flags (sensed self i) = lockup_flags self.
Proof.
  unfold sensed.
  set (u := updateVehicleReferenceSpeed _ _ _).
  destruct (checkForSystemFaults_frame u (wheel_speed_sensors i)) as (Hw & _ & Hc).
  destruct (updateVehicleReferenceSpeed_frame self (wheel_speed_sensors i)
              (datatypes.speed_kmh (vehicle_state i))) as (_ & Hc' & _ & Hp & Hf).
  fold u in Hc', Hp, Hf.
  unfold pressures, lockup_flags in *. rewrite Hw, Hc. auto.
Qed.

(** When no fault is raised the state is the one the call was entered in. *)
Lemma sensed_state self i :
  current_abs_state_ (sensed self i) <> FAULT_DETECTED ->
  current_abs_state_ (sensed self i) = current_abs_state_ self
  /\ fault_code_ (sensed self i) = fault_code_ self.
Proof.
  unfold sensed.
  set (u := updateVehicleReferenceSpeed _ _ _).
  destruct (updateVehicleReferenceSpeed_frame self (wheel_speed_sensors i)
              (datatypes.speed_kmh (vehicle_state i))) as (Hs & _ & Hf & _).
  fold u in Hs, Hf.
  destruct (checkForSystemFaults_cases u (wheel_speed_sensors i)) as [-> | [code ->]].
  - auto.
  - simpl. congruence.
Qed.

(** The shape of a call: the two early returns, the abort on a fault, and
    the full cycle ending in the limiter. *)
Lemma cycle_unfold self i :
  cycle self i =
    if ABSState_eqb (current_abs_state_ self) FAULT_DETECTED then
      set_wheel_data self (pass_through (brake_pedal_pressure_input i) (wheel_data_ self))
    else if ABSState_eqb (current_abs_state_ self) INITIALIZING then self
    else if ABSState_eqb (current_abs_state_ (sensed self i)) FAULT_DETECTED
         then sensed self i
         else
           let m :=
             main_abs_logic (armed self i)
               (potential_intervention_needed (sensed self i)
                  (brake_pedal_pressure_input i))
               (brake_pedal_pressure_input i) in
           set_wheel_data m (map limit_pressure (wheel_data_ m)).
Proof. reflexivity. Qed.

Lemma pressures_pass_through self pedal :
  pressures (set_wheel_data self (pass_through pedal (wheel_data_ self)))
  = map (fun _ => pedal) (wheel_data_ self).
Proof.
  unfold pressures, pass_through. simpl. rewrite map_map. reflexivity.
Qed.

End frames.

(* ------------------------------------------------------------------ *)
(** * The pressure limits (C1) *)

Section limits.

Lemma Forall_map_const {A} (l : list A) (p : float) (P : float -> Prop) :
  P p -> Forall P (map (fun _ => p) l).
Proof. intros H. induction l; simpl; constructor; auto. Qed.

(** A call that reaches the limiter leaves every channel within limits,
    whatever the channels held and whatever the pedal input is. *)
Lemma full_cycle_pressure_limits self i :
  operational self ->
  current_abs_state_ (sensed self i) <> FAULT_DETECTED ->
  Forall (fun p => within_limits p = true) (pressures (cycle self i)).
Proof.
  intros [Hf Hi] Hs. rewrite cycle_unfold.
  apply ABSState_eqb_neq in Hf, Hi, Hs. rewrite Hf, Hi, Hs.
  cbv zeta. unfold pressures. simpl wheel_data_.
  rewrite map_map. apply Forall_forall. intros p Hp.
  apply in_map_iff in Hp. destruct Hp as (w & <- & _).
  apply clamp_pressure_within_limits.
Qed.

(** C1, at concrete inputs.  Entered in FAULT_DETECTED with a pedal input of
    250 bar, the call leaves 250 bar on every channel, above the 200 bar limit.
    The channels keep it when the diagnostics then pass and the next call is
    aborted by a fault (sensor 2 at 400 km/h): the early returns write
    nothing. *)
Lemma fault_path_exceeds_limits :
  let faulted := processBraking (fixtures.controller FAULT_DETECTED 0 0 22)
                   (fixtures.vehicle 50) (fixtures.batch 50 50 50 50) 250 in
  let cleared := fst (runDiagnostics faulted (fixtures.constant_tape 50)) in
  let aborted := processBraking cleared (fixtures.vehicle 50)
                   (fixtures.batch 50 50 400 50) 60 in
  current_abs_state_ (fixtures.controller FAULT_DETECTED 0 0 22) = FAULT_DETECTED
  /\ pressures faulted = [250; 250; 250; 250]%float
  /\ within_limits 250 = false
  /\ current_abs_state_ cleared = INACTIVE
  /\ current_abs_state_ aborted = FAULT_DETECTED
  /\ pressures aborted = [250; 250; 250; 250]%float.
Proof. repeat split. Qed.

(** C1, amended, path by path.  A call that runs to the final limiter leaves
    every channel within [[0, 200]], whatever the channels held and whatever
    the pedal input is.  A call entered in INITIALIZING, or aborted by a fault
    it raises, leaves the pressures as they were.  A call entered in
    FAULT_DETECTED stores the raw pedal input.  Hence every channel is within
    [[0, 200]] on return as soon as the pedal input is when the call is
    entered in FAULT_DETECTED, and the entry pressures are when the call
    returns early without writing; in particular [[0, 200]] is preserved by
    every call whose pedal input is within [[0, 200]] when it is entered in
    FAULT_DETECTED. *)
Theorem processBraking_keeps_pressure_limits self vs sensors pedal :
  let i := {| vehicle_state := vs; wheel_speed_sensors := sensors;
              brake_pedal_pressure_input := pedal |} in
  let r := processBraking self vs sensors pedal in
  let limited := Forall (fun p => within_limits p = true) in
  let returns_early :=
    current_abs_state_ self = INITIALIZING
    \/ (operational self /\ current_abs_state_ (sensed self i) = FAULT_DETECTED) in
  (operational self -> current_abs_state_ (sensed self i) <> FAULT_DETECTED ->
   limited (pressures r))
  /\ (returns_early -> pressures r = pressures self)
  /\ (current_abs_state_ self = FAULT_DETECTED ->
      pressures r = map (fun _ => pedal) (wheel_data_ self))
  /\ ((current_abs_state_ self = FAULT_DETECTED -> within_limits pedal = true) ->
      (returns_early -> limited (pressures self)) ->
      limited (pressures r))
  /\ (limited (pressures self) ->
      (current_abs_state_ self = FAULT_DETECTED -> within_limits pedal = true) ->
      limited (pressures r)).
Proof.
  intros i r limited returns_early.
  change (processBraking self vs sensors pedal) with (cycle self i) in r.
  assert (Hfull : operational self ->
                  current_abs_state_ (sensed self i) <> FAULT_DETECTED ->
                  limited (pressures r))
    by (intros Hop Hs; now apply full_cycle_pressure_limits).
  assert (Hearly : returns_early -> pressures r = pressures self).
  { intros [Hi | [[Hf Hi] Hs]]; subst r; rewrite cycle_unfold.
    - rewrite Hi. reflexivity.
    - apply ABSState_eqb_neq in Hf, Hi. rewrite Hf, Hi, Hs.
      cbn [ABSState_eqb]. now destruct (sensed_frame self i) as (_ & -> & _). }
  assert (Hfault : current_abs_state_ self = FAULT_DETECTED ->
                   pressures r = map (fun _ => pedal) (wheel_data_ self)).
  { intros Hf. subst r. rewrite cycle_unfold, Hf. cbn [ABSState_eqb].
    apply pressures_pass_through. }
  assert (Htight : (current_abs_state_ self = FAULT_DETECTED -> within_limits pedal = true) ->
                   (returns_early -> limited (pressures self)) ->
                   limited (pressures r)).
  { intros Hpedal Hentry.
    destruct (ABSState_eqb (current_abs_state_ self) FAULT_DETECTED) eqn:Hf.
    - apply ABSState_eqb_eq in Hf. rewrite (Hfault Hf).
      apply Forall_map_const, Hpedal, Hf.
    - apply ABSState_eqb_neq in Hf.
      destruct (ABSState_eqb (current_abs_state_ self) INITIALIZING) eqn:Hi.
      + apply ABSState_eqb_eq in Hi.
        rewrite (Hearly (or_introl Hi)). exact (Hentry (or_introl Hi)).
      + apply ABSState_eqb_neq in Hi.
        destruct (ABSState_eqb (current_abs_state_ (sensed self i)) FAULT_DETECTED) eqn:Hs.
        * apply ABSState_eqb_eq in Hs.
          assert (He : returns_early) by (right; repeat split; assumption).
          rewrite (Hearly He). exact (Hentry He).
        * apply ABSState_eqb_neq in Hs. apply Hfull; [split|]; assumption. }
  repeat split; trivial.
  intros Hentry Hpedal. apply Htight; trivial.
Qed.

(** The limiter path entered with 250 bar on every channel (left there by a
    fault pass-through), and the fault path with a pedal input of 150 bar. *)
Lemma processBraking_keeps_pressure_limits_witness :
  Forall (fun p => within_limits p = true)
    (pressures (processBraking (fixtures.controller MONITORING 50 250 0)
                  (fixtures.vehicle 50) (fixtures.batch 50 50 50 50) 60))
  /\ Forall (fun p => within_limits p = true)
       (pressures (processBraking (fixtures.controller FAULT_DETECTED 0 0 22)
                     (fixtures.vehicle 50) (fixtures.batch 50 50 50 50) 150)).
Proof.
  split.
  - apply (proj1 (processBraking_keeps_pressure_limits
                    (fixtures.controller MONITORING 50 250 0)
                    (fixtures.vehicle 50) (fixtures.batch 50 50 50 50) 60)).
    + split; discriminate.
    + intros H; vm_compute in H; discriminate H.
  - apply (proj1 (proj2 (proj2 (proj2 (processBraking_keeps_pressure_limits
                    (fixtures.controller FAULT_DETECTED 0 0 22)
                    (fixtures.vehicle 50) (fixtures.batch 50 50 50 50) 150))))).
    + intros _. reflexivity.
    + intros [H | [[H _] _]]; [discriminate H | now elim H].
Defined.

End limits.

(* ------------------------------------------------------------------ *)
(** * The two early returns (C5, C10) *)

Section early_returns.

Lemma cycle_in_fault self i :
  current_abs_state_ self = FAULT_DETECTED ->
  cycle self i
  = set_wheel_data self (pass_through (brake_pedal_pressure_input i) (wheel_data_ self)).
Proof. intros H. rewrite cycle_unfold, H. reflexivity. Qed.

(** No sequence of calls leaves FAULT_DETECTED or touches the fault code. *)
Lemma run_cycles_in_fault inputs : forall self,
  current_abs_state_ self = FAULT_DETECTED ->
  current_abs_state_ (run_cycles self inputs) = FAULT_DETECTED
  /\ fault_code_ (run_cycles self inputs) = fault_code_ self.
Proof.
  induction inputs as [|i inputs IH]; intros self H; simpl; auto.
  destruct (IH (cycle self i)) as [Hs Hc].
  - rewrite (cycle_in_fault self i H). exact H.
  - split; trivial. rewrite Hc, (cycle_in_fault self i H). reflexivity.
Qed.

(** Diagnostics on a tape whose draws all pass both checks. *)
Lemma runDiagnostics_passes self :
  fst (runDiagnostics self (fixtures.constant_tape 50))
  = set_state (set_fault_code (set_state self INITIALIZING) 0) INACTIVE.
Proof. reflexivity. Qed.

(** C5: entered in FAULT_DETECTED, [processBraking] stores the raw pedal input
    on every channel and changes nothing else: the state stays FAULT_DETECTED
    and the fault code is kept, over any number of calls.  [runDiagnostics],
    when its checks pass, is what clears the fault. *)
Theorem fault_state_is_sticky self vs sensors pedal :
  current_abs_state_ self = FAULT_DETECTED ->
  let r := processBraking self vs sensors pedal in
  Forall (fun p => p = pedal) (pressures r)
  /\ List.length (pressures r) = List.length (pressures self)
  /\ current_abs_state_ r = FAULT_DETECTED
  /\ fault_code_ r = fault_code_ self
  /\ vehicle_reference_speed_kmh_ r = vehicle_reference_speed_kmh_ self
  /\ cycles_since_last_intervention_ r = cycles_since_last_intervention_ self
  /\ lockup_flags r = lockup_flags self
  /\ map speed_kmh (wheel_data_ r) = map speed_kmh (wheel_data_ self)
  /\ (forall inputs,
        current_abs_state_ (run_cycles r inputs) = FAULT_DETECTED
        /\ fault_code_ (run_cycles r inputs) = fault_code_ self)
  /\ (exists tape,
        current_abs_state_ (fst (runDiagnostics r tape)) = INACTIVE
        /\ fault_code_ (fst (runDiagnostics r tape)) = 0%Z).
Proof.
  intros H r.
  assert (E : r = set_wheel_data self (pass_through pedal (wheel_data_ self))).
  { subst r. unfold processBraking. rewrite H. reflexivity. }
  rewrite E. repeat split; simpl; trivial.
  - rewrite pressures_pass_through. now apply Forall_map_const.
  - rewrite pressures_pass_through. unfold pressures. now rewrite !length_map.
  - unfold lockup_flags, pass_through. simpl. now rewrite map_map.
  - unfold pass_through. now rewrite map_map.
  - now apply (run_cycles_in_fault inputs).
  - now destruct (run_cycles_in_fault inputs
                    (set_wheel_data self (pass_through pedal (wheel_data_ self))) H).
  - exists (fixtures.constant_tape 50). rewrite runDiagnostics_passes. auto.
Qed.

Lemma fault_state_is_sticky_witness :
  let r := processBraking (fixtures.controller FAULT_DETECTED 80 35 22)
             (fixtures.vehicle 80) (fixtures.batch 80 80 80 80) 250 in
  pressures r = [250; 250; 250; 250]%float
  /\ current_abs_state_ r = FAULT_DETECTED /\ fault_code_ r = 22%Z.
Proof.
  destruct (fault_state_is_sticky (fixtures.controller FAULT_DETECTED 80 35 22)
              (fixtures.vehicle 80) (fixtures.batch 80 80 80 80) 250 eq_refl)
    as (Hp & _ & Hs & Hc & _).
  repeat split; assumption.
Defined.

(** C10: entered in INITIALIZING, [processBraking] returns the controller as
    it received it: speeds, flags, pressures, reference speed, state, cycle
    counter and fault code. *)
Theorem initializing_ignores_braking self vs sensors pedal :
  current_abs_state_ self = INITIALIZING ->
  processBraking self vs sensors pedal = self.
Proof. intros H. unfold processBraking. rewrite H. reflexivity. Qed.

Lemma initializing_ignores_braking_witness :
  processBraking (fixtures.controller INITIALIZING 0 0 0)
    (fixtures.vehicle 80) (fixtures.batch 80 80 30 80) 120
  = fixtures.controller INITIALIZING 0 0 0.
Proof. apply initializing_ignores_braking. reflexivity. Defined.

End early_returns.

(* ------------------------------------------------------------------ *)
(** * Faults raised during a cycle (C2, C4) *)

Section fault_monitor.

(** C2, at a concrete input: MONITORING, channels at 0 bar, rear-left sensor at
    400 km/h, pedal input 60 bar.  The fault is raised with code 22, and the
    channels still hold 0 bar, not the 60 bar of the pedal. *)
Lemma fault_22_leaves_pressures_untouched :
  let r := processBraking (fixtures.controller MONITORING 50 0 0)
             (fixtures.vehicle 50) (fixtures.batch 50 50 400 50) 60 in
  current_abs_state_ r = FAULT_DETECTED
  /\ fault_code_ r = 22%Z
  /\ pressures r = [0; 0; 0; 0]%float
  /\ (0 =? 60)%float = false.
Proof. repeat split. Qed.

Lemma scan_sensors_fault_22 s0 s1 s2 rest :
  id s0 = 0%Z -> id s1 = 1%Z -> id s2 = 2%Z ->
  (value s0 <? -10)%float || (350 <? value s0)%float = false ->
  (value s1 <? -10)%float || (350 <? value s1)%float = false ->
  value s2 = 400%float ->
  scan_sensors 0 (s0 :: s1 :: s2 :: rest) 0 = Fault 22.
Proof.
  intros E0 E1 E2 R0 R1 V2. simpl.
  rewrite E0, R0. simpl. rewrite E1, R1. simpl. rewrite E2, V2. reflexivity.
Qed.

(** C2, amended: entered in INACTIVE, MONITORING or INTERVENING with a batch
    whose sensors 0 and 1 are in place and in range and whose sensor 2 is in
    place and reads 400 km/h, the call ends in FAULT_DETECTED with fault code
    22 and aborts: every channel keeps the pressure it had on entry.  The pedal
    input reaches the channels on the next call. *)
Theorem out_of_range_sensor_2_aborts_cycle self vs s0 s1 s2 rest pedal :
  operational self ->
  id s0 = 0%Z -> id s1 = 1%Z -> id s2 = 2%Z ->
  (value s0 <? -10)%float || (350 <? value s0)%float = false ->
  (value s1 <? -10)%float || (350 <? value s1)%float = false ->
  value s2 = 400%float ->
  let r := processBraking self vs (s0 :: s1 :: s2 :: rest) pedal in
  current_abs_state_ r = FAULT_DETECTED
  /\ fault_code_ r = 22%Z
  /\ pressures r = pressures self
  /\ (forall vs' sensors' pedal',
        Forall (fun p => p = pedal') (pressures (processBraking r vs' sensors' pedal'))).
Proof.
  intros [Hf Hi] E0 E1 E2 R0 R1 V2 r.
  set (i := {| vehicle_state := vs; wheel_speed_sensors := s0 :: s1 :: s2 :: rest;
               brake_pedal_pressure_input := pedal |}).
  assert (Hs : sensed self i
               = raise_fault (updateVehicleReferenceSpeed self (s0 :: s1 :: s2 :: rest)
                                (datatypes.speed_kmh vs)) 22).
  { unfold sensed, checkForSystemFaults. simpl wheel_speed_sensors.
    rewrite (scan_sensors_fault_22 s0 s1 s2 rest E0 E1 E2 R0 R1 V2). reflexivity. }
  assert (Hr : r = sensed self i).
  { subst r. change (processBraking self vs (s0 :: s1 :: s2 :: rest) pedal)
      with (cycle self i).
    rewrite cycle_unfold. apply ABSState_eqb_neq in Hf, Hi. rewrite Hf, Hi.
    rewrite Hs. reflexivity. }
  assert (Hstate : current_abs_state_ r = FAULT_DETECTED) by (rewrite Hr, Hs; reflexivity).
  repeat split.
  - exact Hstate.
  - rewrite Hr, Hs. reflexivity.
  - rewrite Hr. now destruct (sensed_frame self i) as (_ & -> & _).
  - intros vs' sensors' pedal'. unfold processBraking. rewrite Hstate. simpl.
    rewrite pressures_pass_through. now apply Forall_map_const.
Qed.

Lemma out_of_range_sensor_2_aborts_cycle_witness :
  let r := processBraking (fixtures.controller INTERVENING 90 35 0)
             (fixtures.vehicle 90) (fixtures.batch 90 88 400 91) 60 in
  current_abs_state_ r = FAULT_DETECTED
  /\ fault_code_ r = 22%Z
  /\ pressures r = [35; 35; 35; 35]%float.
Proof.
  destruct (out_of_range_sensor_2_aborts_cycle
              (fixtures.controller INTERVENING 90 35 0) (fixtures.vehicle 90)
              (fixtures.sensor 0 90) (fixtures.sensor 1 88) (fixtures.sensor 2 400)
              [fixtures.sensor 3 91] 60)
    as (Hs & Hc & Hp & _); try reflexivity.
  - split; discriminate.
  - repeat split; assumption.
Defined.

(** The first violation found decides the fault code: with sensor 0 out of
    range as well, the code is 20, not 22. *)
Lemma first_violation_wins :
  let r := processBraking (fixtures.controller MONITORING 50 0 0)
             (fixtures.vehicle 50) (fixtures.batch 400 50 400 50) 60 in
  current_abs_state_ r = FAULT_DETECTED /\ fault_code_ r = 20%Z.
Proof. repeat split. Qed.

(** The count of the fault monitor's loop only grows, and stays where it
    started only if no sensor of the batch reads -1 km/h or more. *)
Lemma scan_sensors_count sensors : forall i c n,
  scan_sensors i sensors c = Scanned n ->
  (c <= n)%Z
  /\ (n = c -> Forall (fun s => (-1 <=? value s)%float = false) sensors).
Proof.
  induction sensors as [|s sensors IH]; intros i c n; simpl.
  - intros [= <-]. split; [lia | constructor].
  - destruct (negb (id s =? i)%Z); [discriminate|].
    destruct (_ || _); [discriminate|].
    intros H. apply IH in H. destruct H as [Hle Hall].
    destruct (-1 <=? value s)%float eqn:Hv.
    + split; [lia|]. intros ->. lia.
    + split; [lia|]. intros ->. constructor; auto.
Qed.

(** Readings the fault monitor does not count are not counted by the
    estimator either, which then leaves its accumulators as they were. *)
Lemma read_wheel_speeds_no_valid sensors : forall wheels acc,
  Forall (fun s => (-1 <=? value s)%float = false) sensors ->
  snd (read_wheel_speeds sensors wheels acc) = acc.
Proof.
  induction sensors as [|s sensors IH]; intros [|w wheels] acc H; simpl; trivial.
  inversion H as [|? ? Hs Hrest]; subst.
  assert (E : scan_reading acc (value s) = acc).
  { unfold scan_reading. destruct (0 <=? value s)%float eqn:Hv; trivial.
    apply nonneg_above_minus_one in Hv. congruence. }
  rewrite E. specialize (IH wheels acc Hrest).
  destruct (read_wheel_speeds sensors wheels acc) as [ws acc']. exact IH.
Qed.

(** The check for the loss of all sensors (fault code 30) is dead in a
    cycle: it asks for a reference speed above 10 km/h, and the update that
    runs just before has set the reference speed to 0 for such a batch. *)
Lemma total_sensor_loss_never_detected self sensors hint n :
  scan_sensors 0 sensors 0 = Scanned n ->
  checkForSystemFaults (updateVehicleReferenceSpeed self sensors hint) sensors
  = updateVehicleReferenceSpeed self sensors hint.
Proof.
  intros Hscan. unfold checkForSystemFaults. rewrite Hscan.
  destruct (_ && _) eqn:Hgate; trivial.
  destruct ((n =? 0)%Z && _) eqn:Hnone; trivial.
  exfalso.
  apply andb_true_iff in Hnone. destruct Hnone as [Hn _].
  apply Z.eqb_eq in Hn. subst n.
  destruct (scan_sensors_count sensors 0 0 0 Hscan) as [_ Hall].
  specialize (Hall eq_refl).
  apply andb_true_iff in Hgate. destruct Hgate as [_ Href].
  unfold updateVehicleReferenceSpeed in Href.
  pose proof (read_wheel_speeds_no_valid sensors (wheel_data_ self)
                {| sum_speeds := 0; valid_sensors := 0; max_wheel_speed := 0 |} Hall) as E.
  destruct (read_wheel_speeds _ _ _) as [ws acc]. simpl in E. subst acc.
  simpl in Href. vm_compute in Href. discriminate.
Qed.

(** C4, at a concrete input: MONITORING at 50 km/h, all four sensors reading
    -5 km/h, pedal input 30 bar.  The reference speed falls back to 0, and no
    fault is raised: the controller goes to INACTIVE with fault code 0. *)
Theorem all_sensors_invalid_raises_no_fault :
  let sensors := fixtures.batch (-5) (-5) (-5) (-5) in
  let r := processBraking (fixtures.controller MONITORING 50 30 0)
             (fixtures.vehicle 50) sensors 30 in
  forallb (fun s => negb (-1 <=? value s)%float) sensors = true
  /\ vehicle_reference_speed_kmh_ r = 0%float
  /\ current_abs_state_ r = INACTIVE
  /\ fault_code_ r = 0%Z.
Proof. repeat split. Qed.

End fault_monitor.

(* ------------------------------------------------------------------ *)
(** * The lockup detector below 5 km/h (C7) *)

Section low_speed_floor.

Lemma detectWheelLockup_floor self wheel threshold :
  (vehicle_reference_speed_kmh_ self <? 5)%float = true ->
  detectWheelLockup self wheel threshold = false.
Proof. intros H. unfold detectWheelLockup. now rewrite H. Qed.

Lemma analyze_wheel_floor self pedal w :
  (vehicle_reference_speed_kmh_ self <? 5)%float = true ->
  is_locking (analyze_wheel self pedal w) = false.
Proof. intros H. unfold analyze_wheel. simpl. now apply detectWheelLockup_floor. Qed.

(** Below the floor the analysis clears every flag and reports no lockup. *)
Lemma analyze_wheels_floor self pedal wheels : forall any,
  (vehicle_reference_speed_kmh_ self <? 5)%float = true ->
  map is_locking (fst (analyze_wheels self pedal wheels any))
  = map (fun _ => false) wheels
  /\ snd (analyze_wheels self pedal wheels any) = any.
Proof.
  induction wheels as [|w wheels IH]; intros any H; cbn [analyze_wheels]; auto.
  cbv zeta. rewrite (analyze_wheel_floor self pedal w H).
  specialize (IH any H).
  destruct (analyze_wheels self pedal wheels any) as [ws any'].
  cbn [fst snd map] in *. destruct IH as [-> ->].
  now rewrite (analyze_wheel_floor self pedal w H).
Qed.

Lemma evaluate_entry_condition_frame self potential :
  wheel_data_ (evaluate_entry_condition self potential) = wheel_data_ self
  /\ vehicle_reference_speed_kmh_ (evaluate_entry_condition self potential)
     = vehicle_reference_speed_kmh_ self
  /\ fault_code_ (evaluate_entry_condition self potential) = fault_code_ self.
Proof.
  unfold evaluate_entry_condition.
  destruct (_ && _); simpl; auto. destruct (_ && _); simpl; auto.
Qed.

Lemma flags_limit_pressure ws :
  map is_locking (map limit_pressure ws) = map is_locking ws.
Proof. rewrite map_map. reflexivity. Qed.

Lemma flags_pass_through pedal ws :
  map is_locking (pass_through pedal ws) = map is_locking ws.
Proof. unfold pass_through. rewrite map_map. reflexivity. Qed.

Lemma flags_recover pedal ws :
  map is_locking (map (recover_wheel pedal) ws) = map is_locking ws.
Proof.
  rewrite map_map. apply map_ext. intros w. unfold recover_wheel.
  now destruct (_ <? _)%float.
Qed.

Lemma main_abs_logic_reference self potential pedal :
  vehicle_reference_speed_kmh_ (main_abs_logic self potential pedal)
  = vehicle_reference_speed_kmh_ self.
Proof.
  unfold main_abs_logic.
  destruct (_ || _); simpl; trivial.
  destruct (analyze_wheels _ _ _ _) as [ws any]. simpl.
  destruct any; simpl.
  - now destruct (negb _).
  - destruct (ABSState_eqb _ _); simpl; trivial.
    now destruct (_ <? _)%Z.
Qed.

(** The flags after step 4, when the reference speed is below the floor:
    all cleared if the wheels were analysed, left alone otherwise. *)
Lemma main_abs_logic_floor self potential pedal :
  (vehicle_reference_speed_kmh_ self <? 5)%float = true ->
  map is_locking (wheel_data_ (main_abs_logic self potential pedal))
  = if ABSState_eqb (current_abs_state_ self) MONITORING
       || ABSState_eqb (current_abs_state_ self) INTERVENING
    then map (fun _ => false) (wheel_data_ self)
    else map is_locking (wheel_data_ self).
Proof.
  intros H. unfold main_abs_logic.
  destruct (_ || _); simpl.
  - destruct (analyze_wheels_floor self pedal (wheel_data_ self) false H) as [Hf Ha].
    destruct (analyze_wheels _ _ _ _) as [ws any]. simpl in *. subst any. simpl.
    destruct (ABSState_eqb _ INTERVENING); simpl.
    + destruct (_ <? _)%Z; simpl; now rewrite flags_recover.
    + now rewrite flags_pass_through.
  - apply flags_pass_through.
Qed.

Lemma Forall2_flags_cleared (before : list bool) :
  Forall2 (fun b a => a = true -> b = true) before (map (fun _ => false) before).
Proof. induction before; simpl; constructor; auto. discriminate. Qed.

Lemma Forall2_flags_kept (before : list bool) :
  Forall2 (fun b a => a = true -> b = true) before before.
Proof. induction before; constructor; auto. Qed.

(** C7: with a reference speed below 5 km/h the lockup detector returns false
    for every wheel, whatever its speed; and a [processBraking] cycle whose
    reference speed is below 5 km/h flags no wheel: no flag goes from clear to
    set, and when the cycle analyses the wheels every flag is clear on return
    (a cycle that does not analyse them leaves the stored flags alone). *)
Theorem no_lockup_below_5_kmh self wheel threshold vs sensors pedal :
  ((vehicle_reference_speed_kmh_ self <? 5)%float = true ->
   detectWheelLockup self wheel threshold = false)
  /\ (let i := {| vehicle_state := vs; wheel_speed_sensors := sensors;
                  brake_pedal_pressure_input := pedal |} in
      let r := processBraking self vs sensors pedal in
      (vehicle_reference_speed_kmh_ r <? 5)%float = true ->
      Forall2 (fun before after => after = true -> before = true)
        (lockup_flags self) (lockup_flags r)
      /\ (analysis_runs self i = true -> Forall (fun b => b = false) (lockup_flags r))).
Proof.
  split; [apply detectWheelLockup_floor|].
  intros i r. change (processBraking self vs sensors pedal) with (cycle self i) in r.
  subst r. rewrite cycle_unfold. unfold analysis_runs.
  destruct (ABSState_eqb (current_abs_state_ self) FAULT_DETECTED) eqn:Hf.
  { intros _. split; [|discriminate].
    unfold lockup_flags. simpl. rewrite flags_pass_through. apply Forall2_flags_kept. }
  destruct (ABSState_eqb (current_abs_state_ self) INITIALIZING) eqn:Hi.
  { intros _. split; [|discriminate]. apply Forall2_flags_kept. }
  destruct (ABSState_eqb (current_abs_state_ (sensed self i)) FAULT_DETECTED) eqn:Hs.
  { intros _. split; [|discriminate].
    pose proof (sensed_frame self i) as (_ & _ & E). rewrite E.
    apply Forall2_flags_kept. }
  cbv zeta. simpl negb. simpl andb.
  set (potential := potential_intervention_needed _ _).
  unfold lockup_flags. simpl wheel_data_. simpl vehicle_reference_speed_kmh_.
  rewrite main_abs_logic_reference. intros Href.
  rewrite flags_limit_pressure, (main_abs_logic_floor _ _ _ Href).
  assert (Hw : map is_locking (wheel_data_ (armed self i)) = lockup_flags self).
  { unfold armed. destruct (evaluate_entry_condition_frame (sensed self i)
                              (potential_intervention_needed (sensed self i)
                                 (brake_pedal_pressure_input i))) as (-> & _).
    pose proof (sensed_frame self i) as (_ & _ & E). exact E. }
  destruct (_ || _).
  - assert (E : map (fun _ : WheelSensorData => false) (wheel_data_ (armed self i))
                = map (fun _ => false) (lockup_flags self)).
    { rewrite <- Hw, map_map. reflexivity. }
    rewrite E. split; [apply Forall2_flags_cleared|].
    intros _. apply Forall_forall. intros b Hb. apply in_map_iff in Hb.
    now destruct Hb as (_ & <- & _).
  - rewrite Hw. split; [apply Forall2_flags_kept | discriminate].
Qed.

End low_speed_floor.

(* ------------------------------------------------------------------ *)
(** * Diagnostics (C9) *)

Section diagnostics.

(** C9: whatever the entropy tape yields, [runDiagnostics] leaves the
    controller INACTIVE with fault code 0 when both checks pass, and
    FAULT_DETECTED with a fault code other than 0 when one fails; it touches
    neither the wheels, nor the reference speed, nor the cycle counter. *)
Theorem runDiagnostics_outcome self tape :
  let r := fst (runDiagnostics self tape) in
  (if sensor_conn_ok tape && actuator_ok tape
   then current_abs_state_ r = INACTIVE /\ fault_code_ r = 0%Z
   else current_abs_state_ r = FAULT_DETECTED /\ fault_code_ r <> 0%Z)
  /\ ((current_abs_state_ r = INACTIVE /\ fault_code_ r = 0%Z)
      \/ (current_abs_state_ r = FAULT_DETECTED /\ fault_code_ r <> 0%Z))
  /\ wheel_data_ r = wheel_data_ self
  /\ vehicle_reference_speed_kmh_ r = vehicle_reference_speed_kmh_ self
  /\ cycles_since_last_intervention_ r = cycles_since_last_intervention_ self.
Proof.
  unfold runDiagnostics, check_sensor_connectivity, check_actuators,
    actuator_ok, sensor_conn_ok, entropy.bind, entropy.rand, entropy.ret.
  destruct tape as [draws cursor]. cbn [entropy.draws entropy.cursor].
  destruct (2 <? int_mod (draws cursor) 100)%Z; cbn [negb fst].
  all: replace (cursor + 1)%nat with (S cursor) by lia.
  all: replace (cursor + 3)%nat with (S (S (S cursor))) by lia.
  - cbn [entropy.draws entropy.cursor current_abs_state_ set_fault_code set_state
         ABSState_eqb andb negb].
    destruct (3 <? int_mod (draws (S cursor)) 100)%Z; cbn;
      (split; [|split; [|auto]]); first [ now auto | split; [reflexivity | discriminate]
                                        | right; split; [reflexivity | discriminate] ].
  - assert (Hcode : (50 + int_mod (draws (S (S cursor))) 4 <> 0)%Z).
    { unfold int_mod.
      pose proof (Z.rem_bound_abs (draws (S (S cursor))) 4 ltac:(lia)). lia. }
    cbn [entropy.draws entropy.cursor current_abs_state_ set_fault_code set_state
         ABSState_eqb andb negb].
    destruct (3 <? int_mod (draws (S (S (S cursor)))) 100)%Z; cbn;
      (split; [|split; [|auto]]); first [ now auto | right; now auto ].
Qed.

End diagnostics.

(* ------------------------------------------------------------------ *)
(** * Leaving INTERVENING (C6) *)

Section hysteresis.

(** Step 4 when the controller is intervening and no wheel is locking: the
    counter is incremented, and the state is left once it exceeds 10. *)
Lemma main_abs_logic_recovering a potential pedal :
  current_abs_state_ a = INTERVENING ->
  snd (analyze_wheels a pedal (wheel_data_ a) false) = false ->
  let c := (cycles_since_last_intervention_ a + 1)%Z in
  current_abs_state_ (main_abs_logic a potential pedal)
  = (if (10 <? c)%Z then settled_state potential else INTERVENING)
  /\ cycles_since_last_intervention_ (main_abs_logic a potential pedal)
     = (if (10 <? c)%Z then 0%Z else c).
Proof.
  intros Hs Hany c. unfold main_abs_logic. rewrite Hs. cbn [ABSState_eqb orb].
  destruct (analyze_wheels a pedal (wheel_data_ a) false) as [ws any].
  simpl in Hany. subst any. cbn [current_abs_state_ set_wheel_data]. rewrite Hs.
  cbn [ABSState_eqb cycles_since_last_intervention_ set_wheel_data set_cycles].
  fold c. destruct (10 <? c)%Z; auto.
Qed.

(** One clean cycle of an intervening controller. *)
Lemma intervening_clean_cycle self i :
  current_abs_state_ self = INTERVENING ->
  clean_cycle self i = true ->
  let c := (cycles_since_last_intervention_ self + 1)%Z in
  current_abs_state_ (cycle self i) = (if (10 <? c)%Z then MONITORING else INTERVENING)
  /\ cycles_since_last_intervention_ (cycle self i) = (if (10 <? c)%Z then 0%Z else c).
Proof.
  intros Hstate Hclean c. unfold clean_cycle in Hclean.
  apply andb_true_iff in Hclean. destruct Hclean as [Hclean Hany].
  apply andb_true_iff in Hclean. destruct Hclean as [Hnofault Hpot].
  apply negb_true_iff in Hnofault, Hany.
  assert (Hsensed : current_abs_state_ (sensed self i) = INTERVENING).
  { apply ABSState_eqb_neq in Hnofault. destruct (sensed_state self i Hnofault) as [-> _].
    exact Hstate. }
  assert (Harmed : armed self i = sensed self i).
  { unfold armed, evaluate_entry_condition. rewrite Hpot, Hsensed. reflexivity. }
  unfold analyzed in Hany. rewrite Harmed in Hany.
  rewrite cycle_unfold, Hstate. cbn [ABSState_eqb]. rewrite Hnofault. cbv zeta.
  cbn [current_abs_state_ cycles_since_last_intervention_ set_wheel_data].
  rewrite Harmed, Hpot.
  destruct (main_abs_logic_recovering (sensed self i) true
              (brake_pedal_pressure_input i) Hsensed Hany) as [Hs Hc].
  destruct (sensed_frame self i) as (Hcycles & _).
  rewrite Hcycles in Hs, Hc. fold c in Hs, Hc. auto.
Qed.

Lemma clean_run_app a : forall self b,
  clean_run self (a ++ b) <-> clean_run self a /\ clean_run (run_cycles self a) b.
Proof.
  induction a as [|i a IH]; intros self b; simpl.
  - tauto.
  - rewrite IH. tauto.
Qed.

Lemma clean_run_firstn k inputs self :
  clean_run self inputs -> clean_run self (firstn k inputs).
Proof.
  intros H. rewrite <- (firstn_skipn k inputs) in H.
  now apply clean_run_app in H.
Qed.

(** As long as the counter stays at 10 or below, clean cycles keep the
    controller intervening and count up. *)
Lemma clean_run_counts inputs : forall self,
  current_abs_state_ self = INTERVENING ->
  clean_run self inputs ->
  (cycles_since_last_intervention_ self + Z.of_nat (List.length inputs) <= 10)%Z ->
  current_abs_state_ (run_cycles self inputs) = INTERVENING
  /\ cycles_since_last_intervention_ (run_cycles self inputs)
     = (cycles_since_last_intervention_ self + Z.of_nat (List.length inputs))%Z.
Proof.
  induction inputs as [|i inputs IH]; intros self Hs Hrun Hle.
  - simpl. split; [exact Hs | lia].
  - destruct Hrun as [Hclean Hrest].
    destruct (intervening_clean_cycle self i Hs Hclean) as [Hs' Hc'].
    cbn [List.length] in Hle. rewrite Nat2Z.inj_succ in Hle.
    destruct (10 <? cycles_since_last_intervention_ self + 1)%Z eqn:Hcmp;
      [apply Z.ltb_lt in Hcmp; lia|].
    destruct (IH (cycle self i) Hs' Hrest) as [Hs'' Hc'']; [rewrite Hc'; lia|].
    change (run_cycles self (i :: inputs)) with (run_cycles (cycle self i) inputs).
    split; [exact Hs''|].
    rewrite Hc'', Hc'. cbn [List.length]. lia.
Qed.

(** C6, at a concrete input: the count does not start where the observation
    starts.  One cycle in which wheel 3 locks and five clean cycles take a
    fresh controller to INTERVENING with the counter at 5; from that state the
    controller is still INTERVENING after five more clean cycles and leaves on
    the 6th, not the 11th. *)
Lemma intervening_at_5_leaves_on_6th_clean_cycle :
  let locking := fixtures.input 50 (fixtures.batch 50 50 50 10) 30 in
  let clean := fixtures.input 50 (fixtures.batch 50 50 50 50) 30 in
  let self := run_cycles (fixtures.controller INACTIVE 0 0 0)
                (locking :: repeat clean 5) in
  current_abs_state_ self = INTERVENING
  /\ cycles_since_last_intervention_ self = 5%Z
  /\ clean_run self (repeat clean 6)
  /\ current_abs_state_ (run_cycles self (repeat clean 5)) = INTERVENING
  /\ current_abs_state_ (run_cycles self (repeat clean 6)) = MONITORING
  /\ cycles_since_last_intervention_ (run_cycles self (repeat clean 6)) = 0%Z.
Proof. vm_compute. repeat split. Qed.

(** C6, amended: from INTERVENING with the counter at c, c at most 10, over
    11 - c consecutive cycles that raise no fault, meet the entry condition
    and flag no wheel: after each of the first 10 - c the controller is still
    INTERVENING and the counter has gone up by the number of clean cycles; the
    last, which is the (11 - c)th, takes it to MONITORING with the counter
    back at 0.  With the counter at 0 that is the 11th clean cycle. *)
Theorem hysteresis_exit self inputs :
  current_abs_state_ self = INTERVENING ->
  let c := cycles_since_last_intervention_ self in
  (c <= 10)%Z ->
  clean_run self inputs ->
  Z.of_nat (List.length inputs) = (11 - c)%Z ->
  (forall k, (Z.of_nat k <= 10 - c)%Z ->
     current_abs_state_ (run_cycles self (firstn k inputs)) = INTERVENING
     /\ cycles_since_last_intervention_ (run_cycles self (firstn k inputs))
        = (c + Z.of_nat k)%Z)
  /\ current_abs_state_ (run_cycles self inputs) = MONITORING
  /\ cycles_since_last_intervention_ (run_cycles self inputs) = 0%Z.
Proof.
  intros Hs c Hc Hrun Hlen.
  assert (Hprefix : forall k, (Z.of_nat k <= 10 - c)%Z ->
     current_abs_state_ (run_cycles self (firstn k inputs)) = INTERVENING
     /\ cycles_since_last_intervention_ (run_cycles self (firstn k inputs))
        = (c + Z.of_nat k)%Z).
  { intros k Hk.
    assert (Hl : List.length (firstn k inputs) = k) by (rewrite length_firstn; lia).
    destruct (clean_run_counts (firstn k inputs) self Hs (clean_run_firstn k inputs self Hrun))
      as [H1 H2]; [rewrite Hl; fold c; lia|].
    split; [exact H1|]. rewrite H2, Hl. reflexivity. }
  split; [exact Hprefix|].
  set (n := Z.to_nat (10 - c)).
  assert (Hn : Z.of_nat n = (10 - c)%Z) by (subst n; lia).
  destruct (Hprefix n) as [Hsn Hcn]; [lia|].
  rewrite <- (firstn_skipn n inputs) in Hrun |- *.
  apply clean_run_app in Hrun. destruct Hrun as [_ Hlast].
  assert (Hskip : List.length (skipn n inputs) = 1%nat) by (rewrite length_skipn; lia).
  destruct (skipn n inputs) as [|i [|j rest]]; try discriminate.
  destruct Hlast as [Hclean _].
  destruct (intervening_clean_cycle _ i Hsn Hclean) as [H1 H2].
  rewrite Hcn in H1, H2.
  replace (10 <? c + Z.of_nat n + 1)%Z with true in H1, H2
    by (symmetry; apply Z.ltb_lt; lia).
  unfold run_cycles in *. rewrite fold_left_app. exact (conj H1 H2).
Qed.

(** With the counter at 0, as the spec's scenario has it (reference speed 50
    km/h, pedal input 30 bar): INTERVENING with the counter at 10 after 10
    clean cycles, MONITORING with the counter at 0 after the 11th.  With the
    counter at 5: INTERVENING with the counter at 10 after 5 clean cycles,
    MONITORING after the 6th. *)
Lemma hysteresis_exit_witness :
  let clean := fixtures.input 50 (fixtures.batch 50 50 50 50) 30 in
  let self := fixtures.controller INTERVENING 50 10 0 in
  let at_5 := run_cycles (fixtures.controller INACTIVE 0 0 0)
                (fixtures.input 50 (fixtures.batch 50 50 50 10) 30 :: repeat clean 5) in
  (current_abs_state_ (run_cycles self (repeat clean 10)) = INTERVENING
   /\ cycles_since_last_intervention_ (run_cycles self (repeat clean 10)) = 10%Z
   /\ current_abs_state_ (run_cycles self (repeat clean 11)) = MONITORING
   /\ cycles_since_last_intervention_ (run_cycles self (repeat clean 11)) = 0%Z)
  /\ (cycles_since_last_intervention_ at_5 = 5%Z
      /\ current_abs_state_ (run_cycles at_5 (repeat clean 5)) = INTERVENING
      /\ cycles_since_last_intervention_ (run_cycles at_5 (repeat clean 5)) = 10%Z
      /\ current_abs_state_ (run_cycles at_5 (repeat clean 6)) = MONITORING
      /\ cycles_since_last_intervention_ (run_cycles at_5 (repeat clean 6)) = 0%Z).
Proof.
  intros clean self at_5. split.
  - assert (Hrun : clean_run self (repeat clean 11)) by (vm_compute; repeat split).
    assert (Hc : (cycles_since_last_intervention_ self <= 10)%Z)
      by (vm_compute; discriminate).
    destruct (hysteresis_exit self (repeat clean 11) eq_refl Hc Hrun eq_refl)
      as [Hprefix Hexit].
    destruct (Hprefix 10%nat) as [H1 H2]; [vm_compute; discriminate|].
    exact (conj H1 (conj H2 Hexit)).
  - assert (Hs : current_abs_state_ at_5 = INTERVENING) by (vm_compute; reflexivity).
    assert (Hrun : clean_run at_5 (repeat clean 6)) by (vm_compute; repeat split).
    assert (Hc : (cycles_since_last_intervention_ at_5 <= 10)%Z)
      by (vm_compute; discriminate).
    assert (Hlen : Z.of_nat (List.length (repeat clean 6))
                   = (11 - cycles_since_last_intervention_ at_5)%Z)
      by (vm_compute; reflexivity).
    destruct (hysteresis_exit at_5 (repeat clean 6) Hs Hc Hrun Hlen) as [Hprefix Hexit].
    destruct (Hprefix 5%nat) as [H1 H2]; [vm_compute; discriminate|].
    split; [vm_compute; reflexivity|].
    split; [exact H1|]. split; [|exact Hexit].
    change (repeat clean 5) with (firstn 5 (repeat clean 6)).
    rewrite H2. vm_compute. reflexivity.
Defined.

End hysteresis.

(* ------------------------------------------------------------------ *)
(** * A cycle with a locking wheel (C3) *)

Section intervention.

(** The first loop of step 4 is a map; the flag it returns tells whether it
    flagged a wheel. *)
Lemma analyze_wheels_map a pedal wheels : forall any,
  analyze_wheels a pedal wheels any
  = (map (analyze_wheel a pedal) wheels,
     existsb is_locking (map (analyze_wheel a pedal) wheels) || any).
Proof.
  induction wheels as [|w wheels IH]; intros any; cbn [analyze_wheels map existsb].
  - reflexivity.
  - cbv zeta. rewrite IH.
    destruct (is_locking (analyze_wheel a pedal w)); cbn [orb].
    + now rewrite orb_true_r.
    + reflexivity.
Qed.

Lemma std_max_0_not_negative (x : float) : (std_max 0 x <? 0)%float = false.
Proof.
  unfold std_max. destruct (0 <? x)%float eqn:H.
  - now apply ltb_asym.
  - reflexivity.
Qed.

(** [releasePressure]: 50 bar less, floored at 0. *)
Lemma releasePressure_applied w :
  applied_brake_pressure_bar (releasePressure w)
  = std_max 0 (applied_brake_pressure_bar w - 50)%float.
Proof. unfold releasePressure. simpl. now rewrite std_max_0_not_negative. Qed.

Lemma intervene_on_wheel_reference a b pedal w :
  vehicle_reference_speed_kmh_ a = vehicle_reference_speed_kmh_ b ->
  intervene_on_wheel a pedal w = intervene_on_wheel b pedal w.
Proof.
  intros H. unfold intervene_on_wheel, modulateBrakePressure. now rewrite H.
Qed.

(** What the second loop of step 4 and the limiter leave on one channel. *)
Lemma limited_intervention a pedal w :
  let w' := limit_pressure (intervene_on_wheel a pedal w) in
  applied_brake_pressure_bar w'
  = intervention_pressure (vehicle_reference_speed_kmh_ a) pedal w
  /\ is_locking w' = is_locking w
  /\ speed_kmh w' = speed_kmh w
  /\ wheel_id w' = wheel_id w.
Proof.
  unfold intervene_on_wheel, intervention_pressure, significant_slip,
    modulateBrakePressure.
  destruct (is_locking w) eqn:Hlock; cbn [orb].
  - cbn. rewrite clamp_pressure_idempotent, std_max_0_not_negative. auto.
  - destruct (_ <? _ - _)%float.
    + destruct (speed_kmh w <? _)%float; cbn; rewrite clamp_pressure_idempotent; auto.
    + cbn. auto.
Qed.

(** Step 4 when the analysis has flagged a wheel. *)
Lemma main_abs_logic_intervening a potential pedal :
  ABSState_eqb (current_abs_state_ a) MONITORING
  || ABSState_eqb (current_abs_state_ a) INTERVENING = true ->
  snd (analyze_wheels a pedal (wheel_data_ a) false) = true ->
  let m := main_abs_logic a potential pedal in
  current_abs_state_ m = INTERVENING
  /\ cycles_since_last_intervention_ m = 0%Z
  /\ wheel_data_ m
     = map (intervene_on_wheel a pedal)
         (fst (analyze_wheels a pedal (wheel_data_ a) false)).
Proof.
  intros Hstate Hany. unfold main_abs_logic. rewrite Hstate.
  destruct (analyze_wheels a pedal (wheel_data_ a) false) as [ws any].
  cbn [fst snd] in *. subst any. cbv zeta.
  cbn [current_abs_state_ set_wheel_data].
  split; [|split].
  - destruct (ABSState_eqb (current_abs_state_ a) INTERVENING) eqn:E; cbn.
    + now apply ABSState_eqb_eq.
    + reflexivity.
  - reflexivity.
  - destruct (negb _); cbn; apply map_ext; intros w;
      now apply intervene_on_wheel_reference.
Qed.

Lemma base_pressure_ext state pedal : forall l1 l2,
  map is_locking l1 = map is_locking l2 ->
  map applied_brake_pressure_bar l1 = map applied_brake_pressure_bar l2 ->
  map (base_pressure state pedal) l1 = map (base_pressure state pedal) l2.
Proof.
  induction l1 as [|w1 l1 IH]; intros [|w2 l2]; simpl; try discriminate; trivial.
  intros [= Hl Hls] [= Hp Hps]. unfold base_pressure at 1 3.
  rewrite Hl, Hp. f_equal. now apply IH.
Qed.

(** C3, at a concrete input: MONITORING, every channel at the pedal input of
    60 bar, wheel speeds 100, 100, 50 and 75 km/h, no speed hint.  The
    reference speed is 90.625 km/h; wheel 2 is flagged; wheel 3 is not flagged
    and slips by more than 15%.  Released by 50 bar its channel would hold
    10 bar; it holds 60 bar. *)
Lemma slipping_wheel_is_held :
  let r := processBraking (fixtures.controller MONITORING 100 60 0)
             (fixtures.vehicle 0) (fixtures.batch 100 100 50 75) 60 in
  vehicle_reference_speed_kmh_ r = 90.625%float
  /\ lockup_flags r = [false; false; true; false]
  /\ map (significant_slip (vehicle_reference_speed_kmh_ r)) (wheel_data_ r)
     = [false; false; true; true]
  /\ pressures r = [60; 60; 10; 60]%float
  /\ std_max 0 (60 - 50)%float = 10%float.
Proof. repeat split. Qed.

(** C3, amended: in a cycle whose analysis flags at least one wheel the
    controller ends INTERVENING with the counter at 0, and each channel ends
    at its [intervention_pressure]: a flagged wheel at its pressure less
    50 bar, floored at 0 and capped at 200; a wheel not flagged that slips by
    more than 15% at its pressure held (raised by 20 bar were its speed not
    below 95% of the reference speed), clamped to [[0, 200]]; every other wheel
    at the pedal input clamped to [[0, 200]].  The pressure released or held is
    the pedal input, or what the channel held on entry when the controller was
    already intervening on that wheel. *)
Theorem locking_cycle_pressures self vs sensors pedal :
  let i := {| vehicle_state := vs; wheel_speed_sensors := sensors;
              brake_pedal_pressure_input := pedal |} in
  let r := processBraking self vs sensors pedal in
  let ws := fst (analyzed self i) in
  analysis_runs self i = true ->
  snd (analyzed self i) = true ->
  current_abs_state_ r = INTERVENING
  /\ cycles_since_last_intervention_ r = 0%Z
  /\ existsb is_locking ws = true
  /\ pressures r = map (intervention_pressure (vehicle_reference_speed_kmh_ r) pedal) ws
  /\ lockup_flags r = map is_locking ws
  /\ map speed_kmh (wheel_data_ r) = map speed_kmh ws
  /\ map applied_brake_pressure_bar ws
     = map (base_pressure (current_abs_state_ (armed self i)) pedal) (wheel_data_ self).
Proof.
  intros i r ws Hruns Hany.
  change (processBraking self vs sensors pedal) with (cycle self i) in r.
  unfold analysis_runs in Hruns.
  repeat (apply andb_true_iff in Hruns; destruct Hruns as [Hruns ?]).
  match goal with H : _ || _ = true |- _ => rename H into Hstate end.
  match goal with H : negb (ABSState_eqb (current_abs_state_ (sensed _ _)) _) = true |- _ =>
    apply negb_true_iff in H; rename H into Hs end.
  match goal with H : negb (ABSState_eqb _ INITIALIZING) = true |- _ =>
    apply negb_true_iff in H; rename H into Hi end.
  apply negb_true_iff in Hruns. rename Hruns into Hf.
  assert (Hr : r = let m := main_abs_logic (armed self i)
                              (potential_intervention_needed (sensed self i) pedal) pedal in
                   set_wheel_data m (map limit_pressure (wheel_data_ m))).
  { subst r. rewrite cycle_unfold, Hf, Hi, Hs. reflexivity. }
  cbv zeta in Hr.
  destruct (main_abs_logic_intervening (armed self i)
              (potential_intervention_needed (sensed self i) pedal) pedal Hstate Hany)
    as (Hm1 & Hm2 & Hm3).
  assert (Hws : ws = map (analyze_wheel (armed self i) pedal) (wheel_data_ (armed self i))).
  { subst ws. unfold analyzed. cbn [brake_pedal_pressure_input i].
    now rewrite analyze_wheels_map. }
  assert (Hflag : existsb is_locking ws = true).
  { unfold analyzed in Hany. cbn [brake_pedal_pressure_input i] in Hany.
    rewrite analyze_wheels_map in Hany. cbn [snd] in Hany.
    rewrite orb_false_r in Hany. now rewrite Hws. }
  assert (Hwheels : wheel_data_ r
                    = map (fun w => limit_pressure (intervene_on_wheel (armed self i) pedal w)) ws).
  { rewrite Hr. cbn [wheel_data_ set_wheel_data]. rewrite Hm3, map_map. reflexivity. }
  assert (Href : vehicle_reference_speed_kmh_ r = vehicle_reference_speed_kmh_ (armed self i)).
  { rewrite Hr. cbn. apply main_abs_logic_reference. }
  assert (Hstate' : current_abs_state_ r = INTERVENING) by (rewrite Hr; exact Hm1).
  assert (Hcycles : cycles_since_last_intervention_ r = 0%Z) by (rewrite Hr; exact Hm2).
  clearbody r ws. clear Hr Hm1 Hm2 Hm3.
  unfold pressures, lockup_flags. rewrite Hwheels, Href, !map_map.
  repeat split; trivial.
  - apply map_ext. intros w. apply (limited_intervention (armed self i) pedal w).
  - apply map_ext. intros w. apply (limited_intervention (armed self i) pedal w).
  - apply map_ext. intros w. apply (limited_intervention (armed self i) pedal w).
  - rewrite Hws, map_map.
    transitivity (map (base_pressure (current_abs_state_ (armed self i)) pedal)
                    (wheel_data_ (armed self i))).
    { apply map_ext. intros w. unfold analyze_wheel, base_pressure. cbn.
      match goal with |- context [if ?c then _ else _] => destruct c end; reflexivity. }
    apply base_pressure_ext.
    + unfold armed.
      destruct (evaluate_entry_condition_frame (sensed self i)
                  (potential_intervention_needed (sensed self i)
                     (brake_pedal_pressure_input i))) as (-> & _).
      pose proof (sensed_frame self i) as (_ & _ & E). exact E.
    + unfold armed.
      destruct (evaluate_entry_condition_frame (sensed self i)
                  (potential_intervention_needed (sensed self i)
                     (brake_pedal_pressure_input i))) as (-> & _).
      pose proof (sensed_frame self i) as (_ & E & _). exact E.
Qed.

Lemma locking_cycle_pressures_witness :
  let r := processBraking (fixtures.controller MONITORING 100 60 0)
             (fixtures.vehicle 0) (fixtures.batch 100 100 50 75) 60 in
  current_abs_state_ r = INTERVENING
  /\ cycles_since_last_intervention_ r = 0%Z
  /\ pressures r = [60; 60; 10; 60]%float.
Proof.
  destruct (locking_cycle_pressures (fixtures.controller MONITORING 100 60 0)
              (fixtures.vehicle 0) (fixtures.batch 100 100 50 75) 60 eq_refl eq_refl)
    as (Hs & Hc & _).
  repeat split; assumption.
Defined.

End intervention.

(* ------------------------------------------------------------------ *)
(** * The reference speed estimator (C8) *)

Section estimator.

Import estimator_spec.

(** The loop accumulates over the valid readings, in order. *)
Lemma fold_scan_reading vs : forall acc,
  fold_left scan_reading vs acc
  = {| sum_speeds := fold_left PrimFloat.add (filter valid_reading vs) (sum_speeds acc);
       valid_sensors :=
         valid_sensors acc + Z.of_nat (List.length (filter valid_reading vs));
       max_wheel_speed := fold_left std_max (filter valid_reading vs) (max_wheel_speed acc) |}.
Proof.
  induction vs as [|v vs IH]; intros acc; cbn [fold_left filter].
  - destruct acc. cbn. f_equal. lia.
  - rewrite IH. unfold scan_reading, valid_reading.
    destruct (0 <=? v)%float; cbn [fold_left List.length sum_speeds valid_sensors
                                    max_wheel_speed].
    + f_equal. lia.
    + reflexivity.
Qed.

(** The loop visits one reading per wheel channel. *)
Lemma read_wheel_speeds_scan sensors : forall wheels acc,
  snd (read_wheel_speeds sensors wheels acc)
  = fold_left scan_reading (map value (firstn (List.length wheels) sensors)) acc.
Proof.
  induction sensors as [|s sensors IH]; intros [|w wheels] acc; cbn; trivial.
  specialize (IH wheels (scan_reading acc (value s))).
  destruct (read_wheel_speeds sensors wheels _) as [ws acc']. exact IH.
Qed.

Lemma updateVehicleReferenceSpeed_scan self sensors hint :
  vehicle_reference_speed_kmh_ (updateVehicleReferenceSpeed self sensors hint)
  = std_min
      (estimate_reference_speed
         (fold_left scan_reading (readings_used self sensors)
            {| sum_speeds := 0; valid_sensors := 0; max_wheel_speed := 0 |})
         hint) 300.
Proof.
  unfold updateVehicleReferenceSpeed, readings_used.
  rewrite <- read_wheel_speeds_scan.
  now destruct (read_wheel_speeds _ _ _) as [ws acc].
Qed.

Lemma filter_nonempty {A} (f : A -> bool) l :
  existsb f l = true -> (0 < List.length (filter f l))%nat.
Proof.
  induction l as [|x l IH]; cbn; [discriminate|].
  destruct (f x); cbn; [lia | exact IH].
Qed.

(** The code computes the estimate of section 4.1. *)
Lemma updateVehicleReferenceSpeed_refines self sensors hint :
  existsb valid_reading (readings_used self sensors) = true ->
  vehicle_reference_speed_kmh_ (updateVehicleReferenceSpeed self sensors hint)
  = reference_speed (readings_used self sensors) hint.
Proof.
  intros Hvalid. rewrite updateVehicleReferenceSpeed_scan, fold_scan_reading.
  apply filter_nonempty in Hvalid.
  unfold estimate_reference_speed, reference_speed, arithmetic_mean, maximum,
    hint_usable.
  cbn [sum_speeds valid_sensors max_wheel_speed]. rewrite Z.add_0_l.
  destruct (0 <? Z.of_nat _)%Z eqn:Hpos; [reflexivity|].
  apply Z.ltb_ge in Hpos. lia.
Qed.

Lemma sum_nonneg vs : forall s,
  (0 <=? s)%float = true ->
  Forall (fun v => (0 <=? v)%float = true) vs ->
  (0 <=? fold_left PrimFloat.add vs s)%float = true.
Proof.
  induction vs as [|v vs IH]; intros s Hs Hvs; cbn; trivial.
  inversion Hvs; subst. apply IH; trivial. now apply add_nonneg.
Qed.

Lemma maximum_nonneg vs : forall m,
  (0 <=? m)%float = true ->
  Forall (fun v => (0 <=? v)%float = true) vs ->
  (0 <=? fold_left std_max vs m)%float = true.
Proof.
  induction vs as [|v vs IH]; intros m Hm Hvs; cbn; trivial.
  inversion Hvs; subst. apply IH; trivial.
  unfold std_max. now destruct (m <? v)%float.
Qed.

Lemma valid_readings_nonneg vs :
  Forall (fun v => (0 <=? v)%float = true) (filter valid_reading vs).
Proof. apply Forall_forall. intros v Hv. now apply filter_In in Hv. Qed.

(** Capping a number that is not negative leaves it within [[0, 300]]. *)
Lemma std_min_300_range (e : float) :
  (0 <=? e)%float = true ->
  (0 <=? std_min e 300)%float = true /\ (std_min e 300 <=? 300)%float = true.
Proof.
  intros He. unfold std_min. destruct (300 <? e)%float eqn:Hcap.
  - split; reflexivity.
  - split; trivial. apply not_ltb_leb; trivial.
    + now apply leb_number_r in He.
    + discriminate.
Qed.

(** The estimate of section 4.1 over at most four readings, one of them
    valid, lies within [[0, 300]] km/h. *)
Lemma reference_speed_range readings hint :
  (List.length readings <= 4)%nat ->
  existsb valid_reading readings = true ->
  (0 <=? reference_speed readings hint)%float = true
  /\ (reference_speed readings hint <=? 300)%float = true.
Proof.
  intros Hlen Hvalid. unfold reference_speed.
  set (valid := filter valid_reading readings).
  assert (Hn : (1 <= Z.of_nat (List.length valid) <= 4)%Z).
  { pose proof (filter_nonempty _ _ Hvalid). pose proof (filter_length_le valid_reading readings).
    fold valid in H, H0. lia. }
  assert (Hmean : (0 <=? arithmetic_mean valid)%float = true).
  { unfold arithmetic_mean. apply div_count_nonneg; trivial.
    apply sum_nonneg; [reflexivity | apply valid_readings_nonneg]. }
  assert (Hmax : (0 <=? maximum valid)%float = true).
  { apply maximum_nonneg; [reflexivity | apply valid_readings_nonneg]. }
  apply std_min_300_range.
  set (blended := if hint_usable hint (arithmetic_mean valid) then _ else _).
  assert (Hblend : (0 <=? blended)%float = true).
  { subst blended. unfold hint_usable.
    destruct (0 <? hint)%float eqn:Hhint; cbn [andb]; trivial.
    destruct (fabs _ <? 20)%float; trivial.
    apply half_nonneg, add_nonneg; trivial. now apply ltb_leb. }
  destruct (_ && _); trivial.
  now apply half_nonneg, add_nonneg.
Qed.

(** C8: with at least one valid reading among those of the four wheel
    channels, the stored reference speed is the mean of the valid readings,
    blended half and half with the vehicle speed hint when the hint is
    positive and within 20 km/h of the mean, then replaced by its midpoint
    with the largest valid reading when that reading exceeds it and it
    exceeds 5 km/h, and capped at 300; it lies within [[0, 300]] km/h. *)
Theorem reference_speed_estimate self sensors hint :
  List.length (wheel_data_ self) = 4%nat ->
  existsb estimator_spec.valid_reading (readings_used self sensors) = true ->
  let ref := vehicle_reference_speed_kmh_ (updateVehicleReferenceSpeed self sensors hint) in
  ref = estimator_spec.reference_speed (readings_used self sensors) hint
  /\ (0 <=? ref)%float = true
  /\ (ref <=? 300)%float = true.
Proof.
  intros Hwheels Hvalid ref. subst ref.
  rewrite (updateVehicleReferenceSpeed_refines self sensors hint Hvalid).
  split; trivial. apply reference_speed_range; trivial.
  unfold readings_used. rewrite length_map, length_firstn, Hwheels. lia.
Qed.

Lemma reference_speed_estimate_witness :
  let ref := vehicle_reference_speed_kmh_
               (updateVehicleReferenceSpeed (fixtures.controller MONITORING 80 40 0)
                  (fixtures.batch 100 (-3) 50 75) 80) in
  ref = 88.75%float /\ (0 <=? ref)%float = true /\ (ref <=? 300)%float = true.
Proof.
  destruct (reference_speed_estimate (fixtures.controller MONITORING 80 40 0)
              (fixtures.batch 100 (-3) 50 75) 80 eq_refl eq_refl) as (H & H0 & H1).
  split; [exact H | split; [exact H0 | exact H1]].
Defined.

End estimator.

(* ------------------------------------------------------------------ *)
(** * The four wheel channels *)

Section channels.

Lemma main_abs_logic_channels a potential pedal :
  List.length (wheel_data_ (main_abs_logic a potential pedal))
  = List.length (wheel_data_ a).
Proof.
  unfold main_abs_logic.
  destruct (_ || _); cbn; [|unfold pass_through; now rewrite length_map].
  rewrite analyze_wheels_map. cbn.
  destruct (existsb _ _ || false); cbn.
  - destruct (negb _); cbn; now rewrite !length_map.
  - destruct (ABSState_eqb _ _); cbn.
    + destruct (_ <? _)%Z; cbn; now rewrite !length_map.
    + unfold pass_through. now rewrite !length_map.
Qed.

(** [processBraking] neither adds nor removes a channel. *)
Lemma processBraking_channels self vs sensors pedal :
  List.length (wheel_data_ (processBraking self vs sensors pedal))
  = List.length (wheel_data_ self).
Proof.
  set (i := {| vehicle_state := vs; wheel_speed_sensors := sensors;
               brake_pedal_pressure_input := pedal |}).
  change (processBraking self vs sensors pedal) with (cycle self i).
  assert (Hsensed : List.length (wheel_data_ (sensed self i)) = List.length (wheel_data_ self)).
  { pose proof (sensed_frame self i) as (_ & E & _). unfold pressures in E.
    apply (f_equal (@List.length float)) in E. now rewrite !length_map in E. }
  rewrite cycle_unfold.
  destruct (ABSState_eqb _ FAULT_DETECTED).
  { cbn. unfold pass_through. now rewrite length_map. }
  destruct (ABSState_eqb _ INITIALIZING); trivial.
  destruct (ABSState_eqb _ FAULT_DETECTED); trivial.
  cbn. rewrite length_map, main_abs_logic_channels. unfold armed.
  now destruct (evaluate_entry_condition_frame (sensed self i)
                  (potential_intervention_needed (sensed self i)
                     (brake_pedal_pressure_input i))) as (-> & _).
Qed.

(** Diagnostics do not touch the channels. *)
Lemma runDiagnostics_channels self tape :
  wheel_data_ (fst (runDiagnostics self tape)) = wheel_data_ self.
Proof.
  unfold runDiagnostics, check_sensor_connectivity, check_actuators,
    entropy.bind, entropy.rand, entropy.ret.
  destruct (2 <? _)%Z; cbn [negb fst].
  - destruct (negb _ && _); cbn; reflexivity.
  - cbn. destruct (3 <? _)%Z; cbn; reflexivity.
Qed.

(** The constructor creates the four channels FL, FR, RL, RR, at rest. *)
Lemma construct_channels tape :
  wheel_data_ (fst (construct tape))
  = [fixtures.wheel 0 0 false 0; fixtures.wheel 1 0 false 0;
     fixtures.wheel 2 0 false 0; fixtures.wheel 3 0 false 0].
Proof.
  unfold construct, initialize, entropy.bind.
  set (c := set_wheel_data _ _).
  pose proof (runDiagnostics_channels c tape) as Hw.
  destruct (runDiagnostics c tape) as [r tape']. cbn [fst] in *.
  destruct (negb _); cbn; rewrite Hw; reflexivity.
Qed.

End channels.

(* ------------------------------------------------------------------ *)
(** * The controller over its life, and further facts on single calls *)

Section lifecycle.

(** The object [runDiagnostics] returns, read off the tape. *)
Lemma runDiagnostics_result self tape :
  fst (runDiagnostics self tape)
  = if sensor_conn_ok tape then
      if actuator_ok tape
      then set_state (set_fault_code (set_state self INITIALIZING) 0) INACTIVE
      else set_fault_code (set_state (set_fault_code (set_state self INITIALIZING) 0)
                             FAULT_DETECTED) 70
    else set_fault_code (set_state (set_fault_code (set_state self INITIALIZING) 0)
                           FAULT_DETECTED)
           (50 + int_mod (entropy.draws tape (entropy.cursor tape + 2)%nat) 4).
Proof.
  unfold runDiagnostics, check_sensor_connectivity, check_actuators,
    actuator_ok, sensor_conn_ok, entropy.bind, entropy.rand, entropy.ret.
  destruct tape as [draws cursor]. cbn [entropy.draws entropy.cursor].
  destruct (2 <? int_mod (draws cursor) 100)%Z; cbn [negb fst].
  all: replace (cursor + 1)%nat with (S cursor) by lia.
  all: replace (cursor + 2)%nat with (S (S cursor)) by lia.
  all: replace (cursor + 3)%nat with (S (S (S cursor))) by lia.
  - cbn [entropy.draws entropy.cursor current_abs_state_ set_fault_code set_state
         ABSState_eqb andb negb].
    destruct (3 <? int_mod (draws (S cursor)) 100)%Z; reflexivity.
  - cbn [entropy.draws entropy.cursor current_abs_state_ set_fault_code set_state
         ABSState_eqb andb negb].
    destruct (3 <? int_mod (draws (S (S (S cursor)))) 100)%Z; reflexivity.
Qed.

Lemma diagnostic_code_nonzero (r : Z) : (50 + int_mod r 4 <> 0)%Z.
Proof. unfold int_mod. pose proof (Z.rem_bound_abs r 4 ltac:(lia)). lia. Qed.

Lemma runDiagnostics_well_formed self tape :
  map wheel_id (wheel_data_ self) = [0; 1; 2; 3]%Z ->
  (0 <= cycles_since_last_intervention_ self <= 10)%Z ->
  (0 <=? vehicle_reference_speed_kmh_ self)%float = true ->
  (vehicle_reference_speed_kmh_ self <=? 300)%float = true ->
  well_formed (fst (runDiagnostics self tape)).
Proof.
  intros Hw Hc Hr0 Hr1. rewrite runDiagnostics_result. unfold well_formed.
  pose proof (diagnostic_code_nonzero (entropy.draws tape (entropy.cursor tape + 2)%nat)).
  destruct (sensor_conn_ok tape); [destruct (actuator_ok tape)|]; cbn;
    repeat split; trivial; try lia; try discriminate; try congruence;
    intros; exfalso; auto.
Qed.


Lemma scan_sensors_fault_code sensors : forall i c code,
  (0 <= i)%Z -> scan_sensors i sensors c = Fault code -> (10 <= code)%Z.
Proof.
  induction sensors as [|s sensors IH]; intros i c code Hi; cbn [scan_sensors];
    [discriminate|].
  destruct (negb (id s =? i)%Z).
  { intros H. assert (code = 10 + i)%Z by congruence. lia. }
  destruct (_ || _).
  { intros H. assert (code = 20 + i)%Z by congruence. lia. }
  apply IH. lia.
Qed.

(** The fault monitor leaves the controller as it is, or raises a fault with
    a code of 10 or more. *)
Lemma checkForSystemFaults_raises self sensors :
  checkForSystemFaults self sensors = self
  \/ exists code, (10 <= code)%Z /\ checkForSystemFaults self sensors = raise_fault self code.
Proof.
  unfold checkForSystemFaults.
  destruct (scan_sensors 0 sensors 0) eqn:E.
  - right. exists code. split; trivial. now apply (scan_sensors_fault_code sensors 0 0).
  - destruct (_ && _); auto. destruct (_ && _); auto.
    right. exists 30%Z. split; [lia | reflexivity].
Qed.

Lemma read_wheel_speeds_ids sensors : forall wheels acc,
  map wheel_id (fst (read_wheel_speeds sensors wheels acc)) = map wheel_id wheels.
Proof.
  induction sensors as [|s sensors IH]; intros [|w wheels] acc; simpl; trivial.
  specialize (IH wheels (scan_reading acc (value s))).
  destruct (read_wheel_speeds sensors wheels _) as [ws acc']. simpl in *.
  now rewrite IH.
Qed.

Lemma sensed_ids self i :
  map wheel_id (wheel_data_ (sensed self i)) = map wheel_id (wheel_data_ self).
Proof.
  unfold sensed.
  set (u := updateVehicleReferenceSpeed _ _ _).
  destruct (checkForSystemFaults_frame u (wheel_speed_sensors i)) as (-> & _).
  subst u. unfold updateVehicleReferenceSpeed.
  pose proof (read_wheel_speeds_ids (wheel_speed_sensors i) (wheel_data_ self)
                {| sum_speeds := 0; valid_sensors := 0; max_wheel_speed := 0 |}) as H.
  destruct (read_wheel_speeds _ _ _) as [ws acc]. exact H.
Qed.

Lemma analyze_wheel_identity a pedal w :
  wheel_id (analyze_wheel a pedal w) = wheel_id w
  /\ speed_kmh (analyze_wheel a pedal w) = speed_kmh w.
Proof. unfold analyze_wheel. cbn. now destruct (_ || _). Qed.

Lemma recover_wheel_identity pedal w :
  wheel_id (recover_wheel pedal w) = wheel_id w
  /\ speed_kmh (recover_wheel pedal w) = speed_kmh w.
Proof. unfold recover_wheel. now destruct (_ <? _)%float. Qed.

Lemma intervene_on_wheel_identity a pedal w :
  wheel_id (intervene_on_wheel a pedal w) = wheel_id w
  /\ speed_kmh (intervene_on_wheel a pedal w) = speed_kmh w.
Proof.
  unfold intervene_on_wheel, modulateBrakePressure.
  destruct (_ || _); cbn; [|auto].
  destruct (is_locking w); cbn; [auto|]. now destruct (_ <? _)%float.
Qed.

(** The wheel steps of a cycle keep a wheel's identity and speed. *)
Ltac preserved_by_wheel_steps :=
  unfold pass_through; repeat rewrite map_map; apply map_ext; intros ?w;
  cbn [wheel_id speed_kmh set_applied_brake_pressure_bar];
  repeat first
    [ rewrite (proj1 (intervene_on_wheel_identity _ _ _))
    | rewrite (proj2 (intervene_on_wheel_identity _ _ _))
    | rewrite (proj1 (recover_wheel_identity _ _))
    | rewrite (proj2 (recover_wheel_identity _ _))
    | rewrite (proj1 (analyze_wheel_identity _ _ _))
    | rewrite (proj2 (analyze_wheel_identity _ _ _)) ];
  reflexivity.

(** What step 4 does to the state, the counter and the fault code, where
    [any] tells whether the analysis flags a wheel. *)
Lemma main_abs_logic_summary a potential pedal :
  let runs := ABSState_eqb (current_abs_state_ a) MONITORING
              || ABSState_eqb (current_abs_state_ a) INTERVENING in
  let any := existsb is_locking (map (analyze_wheel a pedal) (wheel_data_ a)) in
  let c := (cycles_since_last_intervention_ a + 1)%Z in
  let m := main_abs_logic a potential pedal in
  current_abs_state_ m
    = (if runs then
         if any then INTERVENING
         else if ABSState_eqb (current_abs_state_ a) INTERVENING
              then if (10 <? c)%Z then settled_state potential else INTERVENING
              else settled_state potential
       else current_abs_state_ a)
  /\ cycles_since_last_intervention_ m
    = (if runs then
         if any then 0%Z
         else if ABSState_eqb (current_abs_state_ a) INTERVENING
              then if (10 <? c)%Z then 0%Z else c
              else cycles_since_last_intervention_ a
       else cycles_since_last_intervention_ a)
  /\ fault_code_ m = fault_code_ a
  /\ map wheel_id (wheel_data_ m) = map wheel_id (wheel_data_ a)
  /\ map speed_kmh (wheel_data_ m) = map speed_kmh (wheel_data_ a).
Proof.
  intros runs any c m. subst m. unfold main_abs_logic. fold runs.
  destruct runs.
  - rewrite analyze_wheels_map. rewrite orb_false_r. fold any.
    cbn [fst snd current_abs_state_ set_wheel_data wheel_data_].
    destruct any.
    + cbv zeta.
      destruct (ABSState_eqb (current_abs_state_ a) INTERVENING) eqn:E;
        cbn; repeat split; try reflexivity;
        first [ apply (proj1 (ABSState_eqb_eq _ _)); exact E | preserved_by_wheel_steps ].
    + destruct (ABSState_eqb (current_abs_state_ a) INTERVENING) eqn:E; cbn.
      * fold c. destruct (10 <? c)%Z; cbn; repeat split; try reflexivity;
          first [ apply (proj1 (ABSState_eqb_eq _ _)); exact E | preserved_by_wheel_steps ].
      * repeat split; try reflexivity; preserved_by_wheel_steps.
  - cbn. repeat split; try reflexivity; preserved_by_wheel_steps.
Qed.

Lemma armed_summary self i :
  let s := sensed self i in
  let potential := potential_intervention_needed s (brake_pedal_pressure_input i) in
  current_abs_state_ (armed self i)
    = match current_abs_state_ s with
      | INTERVENING => if potential then INTERVENING else INACTIVE
      | INACTIVE => if potential then MONITORING else INACTIVE
      | st => st
      end
  /\ cycles_since_last_intervention_ (armed self i)
    = (if negb potential && ABSState_eqb (current_abs_state_ s) INTERVENING
       then 0%Z else cycles_since_last_intervention_ s).
Proof.
  intros s potential. unfold armed, evaluate_entry_condition. fold s. fold potential.
  destruct potential, (current_abs_state_ s) eqn:E; cbn; rewrite ?E; auto.
Qed.

Lemma existsb_false_filter {A} (f : A -> bool) l :
  existsb f l = false -> filter f l = [].
Proof.
  induction l as [|x l IH]; cbn; trivial.
  destruct (f x); cbn; [discriminate | exact IH].
Qed.

(** With four channels the update leaves the reference speed within
    [[0, 300]], whatever the batch and the hint. *)
Lemma updateVehicleReferenceSpeed_range self sensors hint :
  List.length (wheel_data_ self) = 4%nat ->
  let ref := vehicle_reference_speed_kmh_ (updateVehicleReferenceSpeed self sensors hint) in
  (0 <=? ref)%float = true /\ (ref <=? 300)%float = true.
Proof.
  intros Hlen ref. subst ref.
  destruct (existsb estimator_spec.valid_reading (readings_used self sensors)) eqn:Hvalid.
  - rewrite (updateVehicleReferenceSpeed_refines self sensors hint Hvalid).
    apply reference_speed_range; trivial.
    unfold readings_used. rewrite length_map, length_firstn, Hlen. lia.
  - rewrite updateVehicleReferenceSpeed_scan, fold_scan_reading.
    rewrite (existsb_false_filter _ _ Hvalid). cbn. split; reflexivity.
Qed.

Lemma sensed_reference self i :
  vehicle_reference_speed_kmh_ (sensed self i)
  = vehicle_reference_speed_kmh_
      (updateVehicleReferenceSpeed self (wheel_speed_sensors i)
         (datatypes.speed_kmh (vehicle_state i))).
Proof.
  unfold sensed.
  now destruct (checkForSystemFaults_frame
                  (updateVehicleReferenceSpeed self (wheel_speed_sensors i)
                     (datatypes.speed_kmh (vehicle_state i)))
                  (wheel_speed_sensors i)) as (_ & -> & _).
Qed.

(** A fault raised during a cycle carries a code of 10 or more. *)
Lemma sensed_fault_code self i :
  current_abs_state_ self <> FAULT_DETECTED ->
  current_abs_state_ (sensed self i) = FAULT_DETECTED ->
  (10 <= fault_code_ (sensed self i))%Z.
Proof.
  intros Hf Hs. unfold sensed in *.
  set (u := updateVehicleReferenceSpeed _ _ _) in *.
  assert (Hu : current_abs_state_ u = current_abs_state_ self)
    by apply (updateVehicleReferenceSpeed_frame self).
  destruct (checkForSystemFaults_raises u (wheel_speed_sensors i)) as [E | (code & Hcode & E)];
    rewrite E in *.
  - congruence.
  - exact Hcode.
Qed.

Lemma ids_length self :
  map wheel_id (wheel_data_ self) = [0; 1; 2; 3]%Z ->
  List.length (wheel_data_ self) = 4%nat.
Proof. intros H. apply (f_equal (@List.length Z)) in H. now rewrite length_map in H. Qed.

(** [processBraking] keeps a controller well formed. *)
Lemma cycle_well_formed self i : well_formed self -> well_formed (cycle self i).
Proof.
  intros (Hinit & Hids & Hc & Hcode & Hr0 & Hr1).
  rewrite cycle_unfold.
  destruct (ABSState_eqb (current_abs_state_ self) FAULT_DETECTED) eqn:Hf.
  { unfold well_formed. cbn. repeat split; trivial; try lia; try apply Hcode.
    unfold pass_through. rewrite map_map. exact Hids. }
  destruct (ABSState_eqb (current_abs_state_ self) INITIALIZING) eqn:Hi.
  { apply ABSState_eqb_eq in Hi. contradiction. }
  apply ABSState_eqb_neq in Hf.
  pose proof (updateVehicleReferenceSpeed_range self (wheel_speed_sensors i)
                (datatypes.speed_kmh (vehicle_state i)) (ids_length self Hids)) as [Hu0 Hu1].
  cbv zeta in Hu0, Hu1. rewrite <- sensed_reference in Hu0, Hu1.
  pose proof (sensed_frame self i) as (Hcycles & _).
  destruct (ABSState_eqb (current_abs_state_ (sensed self i)) FAULT_DETECTED) eqn:Hs.
  { apply ABSState_eqb_eq in Hs.
    pose proof (sensed_fault_code self i Hf Hs).
    unfold well_formed. rewrite Hs, sensed_ids, Hcycles.
    repeat split; trivial; try lia; try discriminate; try congruence. }
  apply ABSState_eqb_neq in Hs.
  destruct (sensed_state self i Hs) as [Hstate Hfc].
  cbv zeta.
  set (potential := potential_intervention_needed _ _).
  destruct (main_abs_logic_summary (armed self i) potential (brake_pedal_pressure_input i))
    as (Hm1 & Hm2 & Hm3 & Hm4 & _).
  destruct (armed_summary self i) as [Ha1 Ha2]. fold potential in Ha1, Ha2.
  destruct (evaluate_entry_condition_frame (sensed self i) potential) as (Hw & Href & Hfc').
  change (evaluate_entry_condition (sensed self i) potential)
    with (armed self i) in Hw, Href, Hfc'.
  assert (Hzero : fault_code_ self = 0%Z) by (apply Hcode; exact Hf).
  unfold well_formed.
  cbn [current_abs_state_ wheel_data_ cycles_since_last_intervention_ fault_code_
       vehicle_reference_speed_kmh_ set_wheel_data].
  rewrite main_abs_logic_reference, Href, Hm3, Hfc', Hfc, Hzero, map_map.
  assert (Hids' : map (fun x => wheel_id (limit_pressure x))
                    (wheel_data_ (main_abs_logic (armed self i) potential
                                    (brake_pedal_pressure_input i)))
                  = [0; 1; 2; 3]%Z).
  { change (fun x => wheel_id (limit_pressure x)) with wheel_id.
    rewrite Hm4, Hw, sensed_ids. exact Hids. }
  rewrite Hm1, Hm2, Ha1, Ha2, Hstate, Hcycles, Hids'.
  clear Hm1 Hm2 Hm3 Hm4 Ha1 Ha2 Hids' Hw Href Hfc' Hfc Hstate Hcycles Hs.
  destruct (current_abs_state_ self) eqn:Est; try contradiction; try (now elim Hf);
    destruct potential; cbn;
    try destruct (existsb _ _); cbn;
    try destruct (10 <? _)%Z eqn:Hten; cbn;
    repeat split; trivial; try discriminate; try lia;
    try (apply Z.ltb_ge in Hten; lia).
Qed.

Lemma perform_well_formed c self tape :
  well_formed self -> well_formed (fst (perform c self tape)).
Proof.
  intros H. destruct c as [i|]; cbn.
  - now apply cycle_well_formed.
  - destruct H as (_ & Hids & Hc & _ & Hr0 & Hr1).
    now apply runDiagnostics_well_formed.
Qed.

Lemma perform_all_well_formed calls : forall self tape,
  well_formed self -> well_formed (fst (perform_all calls self tape)).
Proof.
  induction calls as [|c calls IH]; intros self tape H; cbn; trivial.
  unfold entropy.bind.
  pose proof (perform_well_formed c self tape H) as H'.
  destruct (perform c self tape) as [self' tape']. now apply IH.
Qed.

(** The object the constructor returns, read off the tape. *)
Lemma construct_result tape :
  fst (construct tape)
  = {| current_abs_state_ :=
         if sensor_conn_ok tape && actuator_ok tape then INACTIVE else FAULT_DETECTED;
       wheel_data_ := map fresh_wheel [0; 1; 2; 3]%Z;
       vehicle_reference_speed_kmh_ := 0;
       cycles_since_last_intervention_ := 0;
       fault_code_ :=
         if sensor_conn_ok tape then if actuator_ok tape then 0%Z else 70%Z
         else (50 + int_mod (entropy.draws tape (entropy.cursor tape + 2)%nat) 4)%Z |}.
Proof.
  unfold construct, initialize, entropy.bind, entropy.ret.
  set (c := set_wheel_data _ _).
  pose proof (runDiagnostics_result c tape) as H.
  destruct (runDiagnostics c tape) as [r tape']. cbn [fst] in H. subst r.
  destruct (sensor_conn_ok tape); [destruct (actuator_ok tape)|]; reflexivity.
Qed.

(** X1: the constructor returns a controller with the four channels FL, FR,
    RL, RR at rest, the reference speed and the cycle counter at 0, and either
    INACTIVE with fault code 0 (both start-up checks passed) or FAULT_DETECTED
    with a fault code other than 0; never INITIALIZING. *)
Theorem construct_outcome tape :
  let self := fst (construct tape) in
  (if sensor_conn_ok tape && actuator_ok tape
   then current_abs_state_ self = INACTIVE /\ fault_code_ self = 0%Z
   else current_abs_state_ self = FAULT_DETECTED /\ fault_code_ self <> 0%Z)
  /\ wheel_data_ self
     = [fixtures.wheel 0 0 false 0; fixtures.wheel 1 0 false 0;
        fixtures.wheel 2 0 false 0; fixtures.wheel 3 0 false 0]
  /\ vehicle_reference_speed_kmh_ self = 0%float
  /\ cycles_since_last_intervention_ self = 0%Z.
Proof.
  cbv zeta. rewrite construct_result. cbn.
  pose proof (diagnostic_code_nonzero (entropy.draws tape (entropy.cursor tape + 2)%nat)).
  destruct (sensor_conn_ok tape); [destruct (actuator_ok tape)|]; cbn;
    repeat split; trivial; discriminate.
Qed.

(** X2: at every point of a controller's life, after the constructor and any
    sequence of [processBraking] and [runDiagnostics] calls, whatever the
    inputs and the entropy: the state is not INITIALIZING, the channels are
    the four wheels 0 to 3, the cycle counter lies in 0..10, the fault code is
    0 exactly when the state is not FAULT_DETECTED, and the reference speed
    lies within [[0, 300]] km/h. *)
Theorem lifetime_well_formed calls tape :
  well_formed (fst (lifetime calls tape)).
Proof.
  unfold lifetime, entropy.bind.
  assert (H : well_formed (fst (construct tape))).
  { rewrite construct_result. unfold well_formed. cbn.
    pose proof (diagnostic_code_nonzero (entropy.draws tape (entropy.cursor tape + 2)%nat)).
    destruct (sensor_conn_ok tape); [destruct (actuator_ok tape)|]; cbn;
      repeat split; trivial; try lia; try discriminate; try congruence;
      intros; exfalso; auto. }
  destruct (construct tape) as [self tape']. now apply perform_all_well_formed.
Qed.
End lifecycle.

Section fault_codes.

(** The loop walks over an accepted prefix without raising a fault. *)
Lemma scan_sensors_accepted_prefix good : forall i rest c,
  batch_accepted i good = true ->
  exists c', scan_sensors i (good ++ rest) c
             = scan_sensors (i + Z.of_nat (List.length good)) rest c'.
Proof.
  induction good as [|s good IH]; intros i rest c H.
  - exists c. cbn. now rewrite Z.add_0_r.
  - cbn [batch_accepted] in H.
    apply andb_true_iff in H. destruct H as [H Hrest].
    apply andb_true_iff in H. destruct H as [Hid Hrange].
    apply negb_true_iff in Hrange. unfold grossly_out_of_range in Hrange.
    cbn [app scan_sensors]. rewrite Hid, Hrange. cbn [negb].
    destruct (IH (i + 1)%Z rest
                 (if (-1 <=? value s)%float then (c + 1)%Z else c) Hrest) as [c' E].
    exists c'. rewrite E. f_equal. cbn [List.length]. lia.
Qed.

Lemma scan_sensors_accepted sensors i c :
  batch_accepted i sensors = true -> exists n, scan_sensors i sensors c = Scanned n.
Proof.
  intros H. destruct (scan_sensors_accepted_prefix sensors i [] c H) as [c' E].
  rewrite app_nil_r in E. exists c'. exact E.
Qed.

Lemma scan_sensors_rejected sensors : forall i c,
  batch_accepted i sensors = false -> exists code, scan_sensors i sensors c = Fault code.
Proof.
  induction sensors as [|s sensors IH]; intros i c H; cbn [batch_accepted scan_sensors] in *.
  - discriminate.
  - destruct (id s =? i)%Z; cbn [negb andb] in *; [|eauto].
    unfold grossly_out_of_range in H.
    destruct (_ || _); cbn [negb andb] in *; [eauto|].
    now apply IH.
Qed.

(** With an accepted batch the fault monitor, run after the update, leaves
    the controller as it is. *)
Lemma sensed_accepted self i :
  batch_accepted 0 (wheel_speed_sensors i) = true ->
  sensed self i
  = updateVehicleReferenceSpeed self (wheel_speed_sensors i)
      (datatypes.speed_kmh (vehicle_state i)).
Proof.
  intros H. destruct (scan_sensors_accepted _ 0 0 H) as [n Hn].
  unfold sensed. now apply total_sensor_loss_never_detected with (n := n).
Qed.

Lemma sensed_rejected self i :
  batch_accepted 0 (wheel_speed_sensors i) = false ->
  current_abs_state_ (sensed self i) = FAULT_DETECTED.
Proof.
  intros H. destruct (scan_sensors_rejected _ 0 0 H) as [code Hcode].
  unfold sensed, checkForSystemFaults. now rewrite Hcode.
Qed.

(** The state a call ends in, when entered in a processing state and no
    fault is raised, is a processing state. *)
Lemma completed_cycle_state self i :
  operational self ->
  current_abs_state_ (sensed self i) <> FAULT_DETECTED ->
  current_abs_state_ (cycle self i) <> FAULT_DETECTED
  /\ fault_code_ (cycle self i) = fault_code_ self.
Proof.
  intros [Hf Hi] Hs.
  destruct (sensed_state self i Hs) as [Hstate Hfc].
  rewrite cycle_unfold.
  apply ABSState_eqb_neq in Hf, Hi. rewrite Hf, Hi.
  pose proof Hs as Hs'. apply ABSState_eqb_neq in Hs'. rewrite Hs'. cbv zeta.
  set (potential := potential_intervention_needed _ _).
  destruct (main_abs_logic_summary (armed self i) potential (brake_pedal_pressure_input i))
    as (Hm1 & _ & Hm3 & _).
  destruct (armed_summary self i) as [Ha1 _]. fold potential in Ha1.
  destruct (evaluate_entry_condition_frame (sensed self i) potential) as (_ & _ & Hfc').
  change (evaluate_entry_condition (sensed self i) potential) with (armed self i) in Hfc'.
  cbn [current_abs_state_ fault_code_ set_wheel_data].
  rewrite Hm3, Hfc', Hfc, Hm1, Ha1. split; trivial.
  clear Hm1 Hm3 Ha1 Hfc' Hfc.
  apply ABSState_eqb_neq in Hf, Hi.
  destruct (current_abs_state_ (sensed self i)); try congruence;
    destruct potential; cbn; try destruct (existsb _ _); cbn;
    try destruct (10 <? _)%Z; cbn; discriminate.
Qed.

(** X3: a call entered in INACTIVE, MONITORING or INTERVENING ends in
    FAULT_DETECTED exactly when the batch holds a sensor that is out of place
    or grossly out of range; with an accepted batch the fault code is left as
    it was. *)
Theorem fault_exactly_on_rejected_batch self vs sensors pedal :
  operational self ->
  let r := processBraking self vs sensors pedal in
  (current_abs_state_ r = FAULT_DETECTED <-> batch_accepted 0 sensors = false)
  /\ (batch_accepted 0 sensors = true -> fault_code_ r = fault_code_ self).
Proof.
  intros Hop r.
  set (i := {| vehicle_state := vs; wheel_speed_sensors := sensors;
               brake_pedal_pressure_input := pedal |}).
  change (processBraking self vs sensors pedal) with (cycle self i) in r.
  assert (Hacc : batch_accepted 0 sensors = true ->
                 current_abs_state_ r <> FAULT_DETECTED /\ fault_code_ r = fault_code_ self).
  { intros H. apply completed_cycle_state; trivial.
    rewrite (sensed_accepted self i H).
    destruct (updateVehicleReferenceSpeed_frame self sensors (datatypes.speed_kmh vs))
      as (Hs & _).
    cbn [wheel_speed_sensors vehicle_state i]. rewrite Hs. apply Hop. }
  split; [split|].
  - intros Hr. destruct (batch_accepted 0 sensors) eqn:E; trivial.
    now destruct (Hacc eq_refl).
  - intros H. subst r. rewrite cycle_unfold.
    destruct Hop as [Hf Hi]. apply ABSState_eqb_neq in Hf, Hi. rewrite Hf, Hi.
    pose proof (sensed_rejected self i H) as Hs. rewrite Hs. exact Hs.
  - intros H. now destruct (Hacc H).
Qed.

Lemma fault_exactly_on_rejected_batch_witness :
  let r := processBraking (fixtures.controller MONITORING 60 40 0) (fixtures.vehicle 60)
             [fixtures.sensor 0 60; fixtures.sensor 2 60] 40 in
  current_abs_state_ r = FAULT_DETECTED.
Proof.
  apply (fault_exactly_on_rejected_batch (fixtures.controller MONITORING 60 40 0)
           (fixtures.vehicle 60) [fixtures.sensor 0 60; fixtures.sensor 2 60] 40).
  - split; discriminate.
  - reflexivity.
Defined.

(** X4: the fault code names the first offending sensor.  When the sensors
    before index k are accepted and sensor k is out of place, the call ends in
    FAULT_DETECTED with code 10 + k; when sensor k is in place and grossly out
    of range, with code 20 + k.  The cycle is aborted: pressures, flags and
    counter are as on entry. *)
Theorem fault_code_names_first_offender self vs good s rest pedal :
  operational self ->
  batch_accepted 0 good = true ->
  let k := Z.of_nat (List.length good) in
  (id s =? k)%Z && negb (grossly_out_of_range (value s)) = false ->
  let r := processBraking self vs (good ++ s :: rest) pedal in
  current_abs_state_ r = FAULT_DETECTED
  /\ fault_code_ r = (if (id s =? k)%Z then 20 + k else 10 + k)%Z
  /\ pressures r = pressures self
  /\ lockup_flags r = lockup_flags self
  /\ cycles_since_last_intervention_ r = cycles_since_last_intervention_ self.
Proof.
  intros [Hf Hi] Hgood k Hbad r.
  set (i := {| vehicle_state := vs; wheel_speed_sensors := good ++ s :: rest;
               brake_pedal_pressure_input := pedal |}).
  change (processBraking self vs (good ++ s :: rest) pedal) with (cycle self i) in r.
  destruct (scan_sensors_accepted_prefix good 0 (s :: rest) 0 Hgood) as [c Hscan].
  rewrite Z.add_0_l in Hscan. fold k in Hscan.
  assert (Hs : sensed self i
               = raise_fault (updateVehicleReferenceSpeed self (good ++ s :: rest)
                                (datatypes.speed_kmh vs))
                   (if (id s =? k)%Z then 20 + k else 10 + k)).
  { unfold sensed, checkForSystemFaults. cbn [wheel_speed_sensors vehicle_state i].
    rewrite Hscan. cbn [scan_sensors].
    destruct (id s =? k)%Z; cbn [negb andb] in *; trivial.
    apply negb_false_iff in Hbad. unfold grossly_out_of_range in Hbad.
    now rewrite Hbad. }
  assert (Hr : r = sensed self i).
  { subst r. rewrite cycle_unfold. apply ABSState_eqb_neq in Hf, Hi.
    rewrite Hf, Hi, Hs. reflexivity. }
  pose proof (sensed_frame self i) as (Hc & Hp & Hl).
  rewrite Hr. repeat split; trivial; rewrite Hs; reflexivity.
Qed.

Lemma fault_code_names_first_offender_witness :
  let r := processBraking (fixtures.controller INTERVENING 90 35 0) (fixtures.vehicle 90)
             (fixtures.batch 90 88 91 (-40)) 60 in
  current_abs_state_ r = FAULT_DETECTED /\ fault_code_ r = 23%Z.
Proof.
  destruct (fault_code_names_first_offender (fixtures.controller INTERVENING 90 35 0)
              (fixtures.vehicle 90)
              [fixtures.sensor 0 90; fixtures.sensor 1 88; fixtures.sensor 2 91]
              (fixtures.sensor 3 (-40)) [] 60) as (Hs & Hc & _).
  - split; discriminate.
  - reflexivity.
  - reflexivity.
  - split; [exact Hs | exact Hc].
Defined.

End fault_codes.

Section transitions.

Lemma analyzed_flag self i :
  snd (analyzed self i)
  = existsb is_locking
      (map (analyze_wheel (armed self i) (brake_pedal_pressure_input i))
         (wheel_data_ (armed self i))).
Proof. unfold analyzed. rewrite analyze_wheels_map. cbn. apply orb_false_r. Qed.

Lemma analyzed_wheels self i :
  fst (analyzed self i)
  = map (analyze_wheel (armed self i) (brake_pedal_pressure_input i))
      (wheel_data_ (armed self i)).
Proof. unfold analyzed. now rewrite analyze_wheels_map. Qed.

(** A call that takes neither early return and raises no fault runs steps 3
    and 4 and the limiter. *)
Lemma cycle_completed self i :
  operational self ->
  current_abs_state_ (sensed self i) <> FAULT_DETECTED ->
  cycle self i
  = let m := main_abs_logic (armed self i)
               (potential_intervention_needed (sensed self i)
                  (brake_pedal_pressure_input i))
               (brake_pedal_pressure_input i) in
    set_wheel_data m (map limit_pressure (wheel_data_ m)).
Proof.
  intros [Hf Hi] Hs. rewrite cycle_unfold.
  apply ABSState_eqb_neq in Hf, Hi, Hs. now rewrite Hf, Hi, Hs.
Qed.

(** X5: after any call of [processBraking], [isABSInterventionActive] holds
    exactly when the call analysed the wheels and either flagged one, or was
    entered in INTERVENING with the cycle counter below 10. *)
Theorem intervention_active_after_call self vs sensors pedal :
  let i := {| vehicle_state := vs; wheel_speed_sensors := sensors;
              brake_pedal_pressure_input := pedal |} in
  isABSInterventionActive (processBraking self vs sensors pedal)
  = analysis_runs self i
    && (snd (analyzed self i)
        || (ABSState_eqb (current_abs_state_ self) INTERVENING
            && (cycles_since_last_intervention_ self + 1 <=? 10)%Z)).
Proof.
  intros i. change (processBraking self vs sensors pedal) with (cycle self i).
  unfold isABSInterventionActive, analysis_runs. rewrite cycle_unfold.
  destruct (ABSState_eqb (current_abs_state_ self) FAULT_DETECTED) eqn:Hf.
  { cbn. apply ABSState_eqb_eq in Hf. now rewrite Hf. }
  destruct (ABSState_eqb (current_abs_state_ self) INITIALIZING) eqn:Hi.
  { cbn. apply ABSState_eqb_eq in Hi. now rewrite Hi. }
  destruct (ABSState_eqb (current_abs_state_ (sensed self i)) FAULT_DETECTED) eqn:Hs.
  { cbn. apply ABSState_eqb_eq in Hs. now rewrite Hs. }
  apply ABSState_eqb_neq in Hs.
  destruct (sensed_state self i Hs) as [Hstate _].
  pose proof (sensed_frame self i) as (Hcycles & _).
  cbv zeta. cbn [negb andb current_abs_state_ set_wheel_data].
  set (potential := potential_intervention_needed _ _).
  destruct (main_abs_logic_summary (armed self i) potential (brake_pedal_pressure_input i))
    as (Hm1 & _).
  destruct (armed_summary self i) as [Ha1 Ha2]. fold potential in Ha1, Ha2.
  rewrite analyzed_flag, Hm1, Ha1, Ha2, Hstate, Hcycles, Z.leb_antisym.
  clear Hm1 Ha1 Ha2 Hstate Hcycles Hs.
  apply ABSState_eqb_neq in Hf, Hi.
  destruct (current_abs_state_ self); try congruence;
    destruct potential; cbn; try destruct (existsb _ _); cbn;
    try destruct (10 <? _)%Z; reflexivity.
Qed.

End transitions.

Section float_order_more.
Lemma finite_order_trans c (e1 e2 e3 : Z) (m1 m2 m3 : positive) :
  c <> Eq ->
  match (e1 ?= e2)%Z with Lt => Lt | Gt => Gt | Eq => Pos.compare_cont Eq m1 m2 end = c ->
  match (e2 ?= e3)%Z with Lt => Lt | Gt => Gt | Eq => Pos.compare_cont Eq m2 m3 end = c ->
  match (e1 ?= e3)%Z with Lt => Lt | Gt => Gt | Eq => Pos.compare_cont Eq m1 m3 end = c.
Proof.
  intros Hc.
  change (Pos.compare_cont Eq m1 m2) with (Pos.compare m1 m2).
  change (Pos.compare_cont Eq m2 m3) with (Pos.compare m2 m3).
  change (Pos.compare_cont Eq m1 m3) with (Pos.compare m1 m3).
  destruct (Z.compare_spec e1 e2), (Z.compare_spec e2 e3), (Z.compare_spec e1 e3);
    destruct (Pos.compare_spec m1 m2), (Pos.compare_spec m2 m3), (Pos.compare_spec m1 m3);
    intros; subst; try congruence; lia.
Qed.

Lemma SFltb_trans (x y z : spec_float) :
  SFltb x y = true -> SFltb y z = true -> SFltb x z = true.
Proof.
  unfold SFltb.
  destruct x as [sx|sx| |sx mx ex], y as [sy|sy| |sy my ey], z as [sz|sz| |sz mz ez];
    try destruct sx; try destruct sy; try destruct sz; simpl;
    try discriminate; try reflexivity.
  - intros H1 H2.
    destruct (match (ex ?= ey)%Z with Lt => Gt | Gt => Lt | Eq => _ end) eqn:E1; try discriminate.
    destruct (match (ey ?= ez)%Z with Lt => Gt | Gt => Lt | Eq => _ end) eqn:E2; try discriminate.
    assert (G : match (ex ?= ez)%Z with Lt => Lt | Gt => Gt | Eq => Pos.compare_cont Eq mx mz end = Gt).
    { apply (finite_order_trans Gt ex ey ez mx my mz); try discriminate.
      - destruct (ex ?= ey)%Z; try discriminate; trivial.
        destruct (Pos.compare_cont Eq mx my); simpl in E1; congruence.
      - destruct (ey ?= ez)%Z; try discriminate; trivial.
        destruct (Pos.compare_cont Eq my mz); simpl in E2; congruence. }
    destruct (ex ?= ez)%Z; try discriminate; trivial. now rewrite G.
  - intros H1 H2.
    destruct (match (ex ?= ey)%Z with Lt => Lt | Gt => Gt | Eq => _ end) eqn:E1; try discriminate.
    destruct (match (ey ?= ez)%Z with Lt => Lt | Gt => Gt | Eq => _ end) eqn:E2; try discriminate.
    now rewrite (finite_order_trans Lt ex ey ez mx my mz ltac:(discriminate) E1 E2).
Qed.

Lemma ltb_trans (x y z : float) :
  (x <? y)%float = true -> (y <? z)%float = true -> (x <? z)%float = true.
Proof. rewrite !ltb_spec. apply SFltb_trans. Qed.

Lemma ltb_irrefl (x : float) : (x <? x)%float = false.
Proof.
  destruct (x <? x)%float eqn:H; trivial. pose proof (ltb_asym x x H). congruence.
Qed.

Lemma leb_not_ltb (x y : float) : (x <=? y)%float = true -> (y <? x)%float = false.
Proof.
  rewrite ltb_spec, leb_spec. unfold SFltb, SFleb.
  rewrite (SFcompare_antisym (Prim2SF x) (Prim2SF y)).
  destruct (SFcompare (Prim2SF x) (Prim2SF y)) as [[ | | ]|]; simpl; congruence.
Qed.
End float_order_more.

Section quiet_cycles.

(** Step 4 when the controller is not intervening and the analysis, if it
    runs, flags no wheel: every channel receives the pedal input. *)
Lemma main_abs_logic_pass_through a potential pedal :
  current_abs_state_ a <> INTERVENING ->
  (current_abs_state_ a = MONITORING ->
   existsb is_locking (map (analyze_wheel a pedal) (wheel_data_ a)) = false) ->
  pressures (main_abs_logic a potential pedal) = map (fun _ => pedal) (wheel_data_ a)
  /\ lockup_flags (main_abs_logic a potential pedal)
     = (if ABSState_eqb (current_abs_state_ a) MONITORING
        then map is_locking (map (analyze_wheel a pedal) (wheel_data_ a))
        else lockup_flags a).
Proof.
  intros Hint Hquiet. apply ABSState_eqb_neq in Hint.
  unfold main_abs_logic, pressures, lockup_flags. rewrite Hint, orb_false_r.
  destruct (ABSState_eqb (current_abs_state_ a) MONITORING) eqn:Hmon.
  - apply ABSState_eqb_eq in Hmon. specialize (Hquiet Hmon).
    rewrite analyze_wheels_map, Hquiet. cbn. rewrite Hint. cbn.
    unfold pass_through. rewrite !map_map. split; reflexivity.
  - cbn. unfold pass_through. rewrite !map_map. split; reflexivity.
Qed.

Lemma pressures_limited m :
  pressures (set_wheel_data m (map limit_pressure (wheel_data_ m)))
  = map clamp_pressure (pressures m).
Proof. unfold pressures. cbn. now rewrite !map_map. Qed.

Lemma armed_wheels self i : wheel_data_ (armed self i) = wheel_data_ (sensed self i).
Proof. unfold armed. apply evaluate_entry_condition_frame. Qed.

Lemma sensed_length self i :
  List.length (wheel_data_ (sensed self i)) = List.length (wheel_data_ self).
Proof.
  pose proof (sensed_frame self i) as (_ & E & _). unfold pressures in E.
  apply (f_equal (@List.length float)) in E. now rewrite !length_map in E.
Qed.

Lemma map_const_clamp {A} (l : list A) (pedal : float) :
  map clamp_pressure (map (fun _ => pedal) l) = map (fun _ => clamp_pressure pedal) l.
Proof. now rewrite map_map. Qed.

Lemma Forall_const {A} (l : list A) (p : float) :
  Forall (fun q => q = p) (map (fun _ => p) l).
Proof. induction l; cbn; constructor; auto. Qed.

(** X6: a call entered in INACTIVE or MONITORING that ends neither in
    INTERVENING nor in FAULT_DETECTED passes the pedal input through: every
    channel ends at the pedal input clamped to [[0, 200]], the state is
    MONITORING when the entry condition holds for the updated reference speed
    and INACTIVE otherwise, and counter and fault code are untouched. *)
Theorem quiet_cycle_passes_pedal_through self vs sensors pedal :
  operational self ->
  current_abs_state_ self <> INTERVENING ->
  let i := {| vehicle_state := vs; wheel_speed_sensors := sensors;
              brake_pedal_pressure_input := pedal |} in
  let r := processBraking self vs sensors pedal in
  current_abs_state_ r <> INTERVENING ->
  current_abs_state_ r <> FAULT_DETECTED ->
  Forall (fun p => p = clamp_pressure pedal) (pressures r)
  /\ List.length (pressures r) = List.length (pressures self)
  /\ current_abs_state_ r
     = settled_state (potential_intervention_needed (sensed self i) pedal)
  /\ cycles_since_last_intervention_ r = cycles_since_last_intervention_ self
  /\ fault_code_ r = fault_code_ self.
Proof.
  intros Hop Hentry i r.
  change (processBraking self vs sensors pedal) with (cycle self i) in r.
  intros Hr1 Hr2.
  assert (Hs : current_abs_state_ (sensed self i) <> FAULT_DETECTED).
  { intros Hs. apply Hr2. subst r. rewrite cycle_unfold.
    destruct Hop as [Hf Hi]. apply ABSState_eqb_neq in Hf, Hi. rewrite Hf, Hi.
    now rewrite Hs. }
  destruct (sensed_state self i Hs) as [Hstate Hfc].
  pose proof (sensed_frame self i) as (Hcycles & _).
  pose proof (cycle_completed self i Hop Hs) as Hc. cbv zeta in Hc. fold r in Hc.
  cbn [brake_pedal_pressure_input i] in Hc.
  set (potential := potential_intervention_needed (sensed self i) pedal) in *.
  destruct (main_abs_logic_summary (armed self i) potential pedal)
    as (Hm1 & Hm2 & Hm3 & _).
  destruct (armed_summary self i) as [Ha1 Ha2].
  cbn [brake_pedal_pressure_input i] in Ha1, Ha2. fold potential in Ha1, Ha2.
  destruct (evaluate_entry_condition_frame (sensed self i) potential) as (_ & _ & Hfc').
  change (evaluate_entry_condition (sensed self i) potential) with (armed self i) in Hfc'.
  assert (Hstate_r : current_abs_state_ r
                     = current_abs_state_ (main_abs_logic (armed self i) potential pedal))
    by (rewrite Hc; reflexivity).
  assert (Harmed : current_abs_state_ (armed self i) <> INTERVENING).
  { rewrite Ha1, Hstate. destruct Hop as [Hf Hi].
    destruct (current_abs_state_ self); try congruence; destruct potential; discriminate. }
  assert (Hquiet : current_abs_state_ (armed self i) = MONITORING ->
                   existsb is_locking
                     (map (analyze_wheel (armed self i) pedal) (wheel_data_ (armed self i)))
                   = false).
  { intros Hmon. destruct (existsb _ _) eqn:E; trivial.
    exfalso. apply Hr1. rewrite Hstate_r, Hm1, Hmon. try rewrite E. reflexivity. }
  destruct (main_abs_logic_pass_through (armed self i) potential pedal Harmed Hquiet)
    as [Hp _].
  assert (Hpress : pressures r
                   = map (fun _ => clamp_pressure pedal) (wheel_data_ (armed self i))).
  { rewrite Hc, pressures_limited, Hp. apply map_const_clamp. }
  rewrite Hpress.
  split; [apply Forall_const|].
  split; [unfold pressures; now rewrite !length_map, armed_wheels, sensed_length|].
  rewrite Hstate_r, Hc. cbn [cycles_since_last_intervention_ fault_code_ set_wheel_data].
  rewrite Hm1, Hm2, Hm3, Hfc', Hfc, Ha2, Hcycles.
  apply ABSState_eqb_neq in Harmed. rewrite Harmed, orb_false_r.
  destruct (ABSState_eqb (current_abs_state_ (armed self i)) MONITORING) eqn:Hmon.
  - apply ABSState_eqb_eq in Hmon. rewrite (Hquiet Hmon).
    rewrite Hstate. destruct Hop as [Hf Hi].
    assert (E : ABSState_eqb (current_abs_state_ self) INTERVENING = false)
      by now apply ABSState_eqb_neq.
    rewrite E, andb_false_r. auto.
  - rewrite Ha1, Hstate in Hmon |- *.
    assert (E : ABSState_eqb (current_abs_state_ self) INTERVENING = false)
      by now apply ABSState_eqb_neq.
    rewrite E, andb_false_r.
    destruct Hop as [Hf Hi].
    destruct (current_abs_state_ self); try congruence;
      destruct potential; cbn in *; auto; discriminate.
Qed.

Lemma quiet_cycle_passes_pedal_through_witness :
  let r := processBraking (fixtures.controller INACTIVE 0 0 0) (fixtures.vehicle 60)
             (fixtures.batch 60 61 59 60) 240 in
  pressures r = [200; 200; 200; 200]%float /\ current_abs_state_ r = MONITORING.
Proof.
  intros r.
  destruct (quiet_cycle_passes_pedal_through (fixtures.controller INACTIVE 0 0 0)
              (fixtures.vehicle 60) (fixtures.batch 60 61 59 60) 240)
    as (_ & _ & Hs & _).
  - split; discriminate.
  - discriminate.
  - intros H; vm_compute in H; discriminate H.
  - intros H; vm_compute in H; discriminate H.
  - split; [reflexivity | exact Hs].
Defined.

End quiet_cycles.

Section standing_down.

Lemma existsb_analyze_floor a pedal ws :
  (vehicle_reference_speed_kmh_ a <? 5)%float = true ->
  existsb is_locking (map (analyze_wheel a pedal) ws) = false.
Proof.
  intros H. induction ws as [|w ws IH]; cbn [map existsb]; trivial.
  now rewrite (analyze_wheel_floor a pedal w H), IH.
Qed.

Lemma map_const_length {A B} (c : B) (l l' : list A) :
  List.length l = List.length l' -> map (fun _ => c) l = map (fun _ => c) l'.
Proof.
  revert l'. induction l as [|x l IH]; intros [|y l'] H; cbn in *;
    try discriminate; trivial.
  f_equal. apply IH. now injection H.
Qed.

(** A completed call whose entry condition fails and which flags no wheel
    leaves the controller INACTIVE with the pedal input on every channel. *)
Lemma cycle_stands_down self i :
  operational self ->
  current_abs_state_ (sensed self i) <> FAULT_DETECTED ->
  potential_intervention_needed (sensed self i) (brake_pedal_pressure_input i) = false ->
  (current_abs_state_ self = MONITORING -> snd (analyzed self i) = false) ->
  current_abs_state_ (cycle self i) = INACTIVE
  /\ pressures (cycle self i)
     = map (fun _ => clamp_pressure (brake_pedal_pressure_input i)) (wheel_data_ self)
  /\ cycles_since_last_intervention_ (cycle self i)
     = (if ABSState_eqb (current_abs_state_ self) INTERVENING then 0%Z
        else cycles_since_last_intervention_ self)
  /\ fault_code_ (cycle self i) = fault_code_ self
  /\ (current_abs_state_ self <> MONITORING ->
      lockup_flags (cycle self i) = lockup_flags self).
Proof.
  intros Hop Hs Hpot Hquiet.
  destruct (sensed_state self i Hs) as [Hstate Hfc].
  pose proof (sensed_frame self i) as (Hcycles & _ & Hflags).
  rewrite (cycle_completed self i Hop Hs). cbv zeta. rewrite Hpot.
  set (pedal := brake_pedal_pressure_input i) in *.
  destruct (main_abs_logic_summary (armed self i) false pedal) as (Hm1 & Hm2 & Hm3 & _).
  destruct (armed_summary self i) as [Ha1 Ha2]. fold pedal in Ha1, Ha2.
  rewrite Hpot, Hstate in Ha1. rewrite Hpot, Hstate, Hcycles in Ha2.
  destruct (evaluate_entry_condition_frame (sensed self i) false) as (_ & _ & Hfc').
  assert (Earmed : armed self i = evaluate_entry_condition (sensed self i) false)
    by (unfold armed; fold pedal; now rewrite Hpot).
  rewrite <- Earmed in Hfc'.
  assert (Harmed : current_abs_state_ (armed self i) <> INTERVENING).
  { rewrite Ha1. destruct Hop as [Hf Hi].
    destruct (current_abs_state_ self); try congruence; discriminate. }
  assert (Hmon : current_abs_state_ (armed self i) = MONITORING ->
                 current_abs_state_ self = MONITORING).
  { rewrite Ha1. destruct (current_abs_state_ self); try discriminate; trivial. }
  assert (Hnone : current_abs_state_ (armed self i) = MONITORING ->
                  existsb is_locking
                    (map (analyze_wheel (armed self i) pedal) (wheel_data_ (armed self i)))
                  = false).
  { intros H. rewrite <- analyzed_flag. apply Hquiet, Hmon, H. }
  destruct (main_abs_logic_pass_through (armed self i) false pedal Harmed Hnone)
    as [Hp Hl].
  rewrite pressures_limited, Hp, map_const_clamp.
  cbn [current_abs_state_ cycles_since_last_intervention_ fault_code_ set_wheel_data].
  unfold lockup_flags at 1. cbn [wheel_data_ set_wheel_data]. rewrite flags_limit_pressure.
  fold (lockup_flags (main_abs_logic (armed self i) false pedal)).
  rewrite Hl, Hm1, Hm2, Hm3, Hfc', Hfc, Ha2.
  pose proof Harmed as Harmed'. apply ABSState_eqb_neq in Harmed'.
  rewrite Harmed', orb_false_r.
  split; [|split; [|split; [|split]]].
  - destruct (ABSState_eqb (current_abs_state_ (armed self i)) MONITORING) eqn:E.
    + apply ABSState_eqb_eq in E. now rewrite (Hnone E).
    + rewrite Ha1 in E |- *. destruct Hop as [Hf Hi].
      destruct (current_abs_state_ self); try congruence; try discriminate; reflexivity.
  - rewrite armed_wheels. apply map_const_length, sensed_length.
  - destruct (ABSState_eqb (current_abs_state_ (armed self i)) MONITORING) eqn:E.
    + apply ABSState_eqb_eq in E. rewrite (Hnone E). cbn.
      rewrite (Hmon E). reflexivity.
    + cbn. destruct (current_abs_state_ self); reflexivity.
  - reflexivity.
  - intros Hnot.
    destruct (ABSState_eqb (current_abs_state_ (armed self i)) MONITORING) eqn:E.
    + apply ABSState_eqb_eq in E. elim Hnot. now apply Hmon.
    + unfold lockup_flags. now rewrite armed_wheels.
Qed.

(** X7: a call entered in INTERVENING whose batch is accepted and whose entry
    condition fails (updated reference speed not above 10 km/h, or pedal input
    not above 20 bar) drops to INACTIVE at once: the counter is reset, every
    channel takes the pedal input clamped to [[0, 200]], and the lockup flags
    are left as the last intervention set them. *)
Theorem intervention_ends_without_entry_condition self vs sensors pedal :
  current_abs_state_ self = INTERVENING ->
  batch_accepted 0 sensors = true ->
  let i := {| vehicle_state := vs; wheel_speed_sensors := sensors;
              brake_pedal_pressure_input := pedal |} in
  potential_intervention_needed (sensed self i) pedal = false ->
  let r := processBraking self vs sensors pedal in
  current_abs_state_ r = INACTIVE
  /\ cycles_since_last_intervention_ r = 0%Z
  /\ Forall (fun p => p = clamp_pressure pedal) (pressures r)
  /\ List.length (pressures r) = List.length (pressures self)
  /\ lockup_flags r = lockup_flags self
  /\ fault_code_ r = fault_code_ self.
Proof.
  intros Hstate Hacc i Hpot r.
  change (processBraking self vs sensors pedal) with (cycle self i) in r.
  assert (Hop : operational self) by (split; rewrite Hstate; discriminate).
  assert (Hs : current_abs_state_ (sensed self i) <> FAULT_DETECTED).
  { rewrite (sensed_accepted self i Hacc).
    destruct (updateVehicleReferenceSpeed_frame self sensors (datatypes.speed_kmh vs))
      as (E & _).
    cbn [wheel_speed_sensors vehicle_state i]. rewrite E, Hstate. discriminate. }
  destruct (cycle_stands_down self i Hop Hs Hpot) as (H1 & H2 & H3 & H4 & H5).
  { rewrite Hstate. discriminate. }
  fold r in H1, H2, H3, H4, H5. cbn [brake_pedal_pressure_input i] in H2.
  rewrite Hstate in H3, H5. cbn in H3.
  repeat split; trivial.
  - rewrite H2. apply Forall_const.
  - rewrite H2. unfold pressures. now rewrite !length_map.
  - apply H5. discriminate.
Qed.

Lemma intervention_ends_without_entry_condition_witness :
  let r := processBraking (fixtures.controller INTERVENING 60 15 0) (fixtures.vehicle 60)
             (fixtures.batch 60 60 60 60) 10 in
  current_abs_state_ r = INACTIVE
  /\ cycles_since_last_intervention_ r = 0%Z
  /\ pressures r = [10; 10; 10; 10]%float.
Proof.
  destruct (intervention_ends_without_entry_condition
              (fixtures.controller INTERVENING 60 15 0) (fixtures.vehicle 60)
              (fixtures.batch 60 60 60 60) 10 eq_refl eq_refl eq_refl)
    as (H1 & H2 & _).
  repeat split; assumption.
Defined.

(** X8: a call entered in a processing state with an accepted batch in
    which no reading is usable (every reading visited is negative or NaN; the
    empty batch is one) stands the controller down: the reference speed is 0,
    the state INACTIVE, every channel takes the pedal input clamped to
    [[0, 200]], and no fault is raised. *)
Theorem no_usable_reading_stands_down self vs sensors pedal :
  operational self ->
  batch_accepted 0 sensors = true ->
  existsb estimator_spec.valid_reading (readings_used self sensors) = false ->
  let r := processBraking self vs sensors pedal in
  vehicle_reference_speed_kmh_ r = 0%float
  /\ current_abs_state_ r = INACTIVE
  /\ Forall (fun p => p = clamp_pressure pedal) (pressures r)
  /\ List.length (pressures r) = List.length (pressures self)
  /\ fault_code_ r = fault_code_ self.
Proof.
  intros Hop Hacc Hnone r.
  set (i := {| vehicle_state := vs; wheel_speed_sensors := sensors;
               brake_pedal_pressure_input := pedal |}).
  change (processBraking self vs sensors pedal) with (cycle self i) in r.
  assert (Href : vehicle_reference_speed_kmh_ (sensed self i) = 0%float).
  { rewrite sensed_reference. cbn [wheel_speed_sensors vehicle_state i].
    rewrite updateVehicleReferenceSpeed_scan, fold_scan_reading.
    now rewrite (existsb_false_filter _ _ Hnone). }
  assert (Hs : current_abs_state_ (sensed self i) <> FAULT_DETECTED).
  { rewrite (sensed_accepted self i Hacc).
    destruct (updateVehicleReferenceSpeed_frame self sensors (datatypes.speed_kmh vs))
      as (E & _).
    cbn [wheel_speed_sensors vehicle_state i]. rewrite E. apply Hop. }
  assert (Hpot : potential_intervention_needed (sensed self i)
                   (brake_pedal_pressure_input i) = false).
  { unfold potential_intervention_needed. now rewrite Href. }
  destruct (cycle_stands_down self i Hop Hs Hpot) as (H1 & H2 & _ & H4 & _).
  { intros _. rewrite analyzed_flag. apply existsb_analyze_floor.
    unfold armed.
    destruct (evaluate_entry_condition_frame (sensed self i)
                (potential_intervention_needed (sensed self i)
                   (brake_pedal_pressure_input i))) as (_ & -> & _).
    now rewrite Href. }
  fold r in H1, H2, H4. cbn [brake_pedal_pressure_input i] in H2.
  repeat split; trivial.
  - subst r. rewrite (cycle_completed self i Hop Hs). cbn.
    rewrite main_abs_logic_reference. unfold armed.
    destruct (evaluate_entry_condition_frame (sensed self i)
                (potential_intervention_needed (sensed self i)
                   (brake_pedal_pressure_input i))) as (_ & -> & _).
    exact Href.
  - rewrite H2. apply Forall_const.
  - rewrite H2. unfold pressures. now rewrite !length_map.
Qed.

Lemma no_usable_reading_stands_down_witness :
  let r := processBraking (fixtures.controller MONITORING 60 45 0) (fixtures.vehicle 60)
             (fixtures.batch (-5) (-5) (-5) (-5)) 45 in
  batch_accepted 0 (fixtures.batch (-5) (-5) (-5) (-5)) = true
  /\ vehicle_reference_speed_kmh_ r = 0%float
  /\ current_abs_state_ r = INACTIVE
  /\ fault_code_ r = 0%Z
  /\ pressures r = [45; 45; 45; 45]%float.
Proof.
  destruct (no_usable_reading_stands_down (fixtures.controller MONITORING 60 45 0)
              (fixtures.vehicle 60) (fixtures.batch (-5) (-5) (-5) (-5)) 45)
    as (H1 & H2 & _ & _ & H5).
  - split; discriminate.
  - reflexivity.
  - reflexivity.
  - repeat split; assumption.
Defined.

End standing_down.

Section recovery.

Lemma recover_wheel_applied pedal w :
  applied_brake_pressure_bar (recover_wheel pedal w)
  = recovered_pressure pedal (applied_brake_pressure_bar w).
Proof. unfold recover_wheel, recovered_pressure. now destruct (_ <? _)%float. Qed.

(** A recovery step never goes above the pedal input. *)
Lemma recovered_pressure_not_above pedal p :
  (pedal <? recovered_pressure pedal p)%float = false.
Proof.
  unfold recovered_pressure, std_min.
  destruct (p <? pedal)%float; [|apply ltb_irrefl].
  destruct (pedal <? p + 20)%float eqn:E; [apply ltb_irrefl | exact E].
Qed.

(** Neither does the limiter take a pressure above a pedal input that is
    not negative. *)
Lemma clamp_pressure_not_above pedal x :
  (0 <=? pedal)%float = true ->
  (pedal <? x)%float = false ->
  (pedal <? clamp_pressure x)%float = false.
Proof.
  intros Hpedal Hx. unfold clamp_pressure, std_max, std_min.
  destruct (200 <? x)%float eqn:Hhi.
  - cbn. destruct (pedal <? 200)%float eqn:E; trivial.
    rewrite (ltb_trans pedal 200 x E Hhi) in Hx. discriminate.
  - destruct (0 <? x)%float; trivial. now apply leb_not_ltb.
Qed.

(** Step 4 on the wheels when the controller is intervening and no wheel is
    locking. *)
Lemma main_abs_logic_recovering_wheels a potential pedal :
  current_abs_state_ a = INTERVENING ->
  existsb is_locking (map (analyze_wheel a pedal) (wheel_data_ a)) = false ->
  wheel_data_ (main_abs_logic a potential pedal)
  = map (recover_wheel pedal) (map (analyze_wheel a pedal) (wheel_data_ a)).
Proof.
  intros Hs Hany. unfold main_abs_logic. rewrite Hs. cbn [ABSState_eqb orb].
  rewrite analyze_wheels_map, Hany. cbn. rewrite Hs. cbn.
  now destruct (10 <? _)%Z.
Qed.

(** X9: in a clean cycle of an intervening controller, a channel whose wheel
    is still flagged from the previous evaluation is raised by one 20 bar step,
    up to the pedal input (or set to the pedal input when it is not below it);
    the other channels take the pedal input; all are then clamped to
    [[0, 200]].  No channel ends above the pedal input. *)
Theorem recovery_step self vs sensors pedal :
  current_abs_state_ self = INTERVENING ->
  let i := {| vehicle_state := vs; wheel_speed_sensors := sensors;
              brake_pedal_pressure_input := pedal |} in
  clean_cycle self i = true ->
  let r := processBraking self vs sensors pedal in
  pressures r
  = map (fun w => clamp_pressure
                    (recovered_pressure pedal (base_pressure INTERVENING pedal w)))
      (wheel_data_ self)
  /\ Forall (fun p => (pedal <? p)%float = false) (pressures r).
Proof.
  intros Hstate i Hclean r.
  change (processBraking self vs sensors pedal) with (cycle self i) in r.
  unfold clean_cycle in Hclean.
  apply andb_true_iff in Hclean. destruct Hclean as [Hclean Hany].
  apply andb_true_iff in Hclean. destruct Hclean as [Hnofault Hpot].
  apply negb_true_iff in Hnofault, Hany. apply ABSState_eqb_neq in Hnofault.
  cbn [brake_pedal_pressure_input i] in Hpot.
  assert (Hop : operational self) by (split; rewrite Hstate; discriminate).
  assert (Hsensed : current_abs_state_ (sensed self i) = INTERVENING).
  { destruct (sensed_state self i Hnofault) as [-> _]. exact Hstate. }
  assert (Harmed : armed self i = sensed self i).
  { unfold armed, evaluate_entry_condition. cbn [brake_pedal_pressure_input i].
    rewrite Hpot, Hsensed. reflexivity. }
  rewrite analyzed_flag in Hany. cbn [brake_pedal_pressure_input i] in Hany.
  assert (Hpress : pressures r
                   = map (fun w => clamp_pressure
                                     (recovered_pressure pedal
                                        (base_pressure INTERVENING pedal w)))
                       (wheel_data_ self)).
  { subst r. rewrite (cycle_completed self i Hop Hnofault). cbv zeta.
    rewrite pressures_limited. unfold pressures.
    cbn [brake_pedal_pressure_input i].
    rewrite main_abs_logic_recovering_wheels;
      [|rewrite Harmed; exact Hsensed | exact Hany].
    rewrite Harmed, !map_map.
    transitivity (map (fun p => clamp_pressure (recovered_pressure pedal p))
                    (map (base_pressure INTERVENING pedal) (wheel_data_ (sensed self i)))).
    { rewrite map_map. apply map_ext. intros w.
      rewrite recover_wheel_applied. unfold analyze_wheel, base_pressure.
      rewrite Hsensed. cbn.
      match goal with |- context [if ?c then _ else _] => destruct c end; reflexivity. }
    pose proof (sensed_frame self i) as (_ & Hp & Hl).
    rewrite (base_pressure_ext INTERVENING pedal _ _ Hl Hp). now rewrite map_map. }
  split; [exact Hpress|].
  rewrite Hpress. apply Forall_forall. intros p Hp.
  apply in_map_iff in Hp. destruct Hp as (w & <- & _).
  apply clamp_pressure_not_above; [|apply recovered_pressure_not_above].
  unfold potential_intervention_needed in Hpot.
  apply andb_true_iff in Hpot. destruct Hpot as [_ Hpedal].
  apply ltb_leb. now apply (ltb_trans 0 20 pedal).
Qed.

Lemma recovery_step_witness :
  let self :=
    {| current_abs_state_ := INTERVENING;
       wheel_data_ := [fixtures.wheel 0 80 false 60; fixtures.wheel 1 80 false 60;
                       fixtures.wheel 2 80 true 10; fixtures.wheel 3 80 true 50];
       vehicle_reference_speed_kmh_ := 80;
       cycles_since_last_intervention_ := 0;
       fault_code_ := 0 |} in
  let r := processBraking self (fixtures.vehicle 80) (fixtures.batch 80 80 79 80) 60 in
  pressures r = [60; 60; 30; 60]%float.
Proof.
  intros self.
  destruct (recovery_step self (fixtures.vehicle 80) (fixtures.batch 80 80 79 80) 60
              eq_refl eq_refl) as [H _].
  exact H.
Defined.

End recovery.

Section wheel_speeds.

(** The update loop overwrites the speed of the wheels that have a sensor
    and leaves the others. *)
Lemma read_wheel_speeds_speeds sensors : forall wheels acc,
  map speed_kmh (fst (read_wheel_speeds sensors wheels acc))
  = map value (firstn (List.length wheels) sensors)
    ++ map speed_kmh (skipn (List.length sensors) wheels).
Proof.
  induction sensors as [|s sensors IH]; intros [|w wheels] acc; cbn; trivial.
  specialize (IH wheels (scan_reading acc (value s))).
  destruct (read_wheel_speeds sensors wheels _) as [ws acc']. cbn in *.
  now rewrite IH.
Qed.

Lemma sensed_speeds self i :
  map speed_kmh (wheel_data_ (sensed self i))
  = readings_used self (wheel_speed_sensors i)
    ++ map speed_kmh (skipn (List.length (wheel_speed_sensors i)) (wheel_data_ self)).
Proof.
  unfold sensed, readings_used.
  set (u := updateVehicleReferenceSpeed _ _ _).
  destruct (checkForSystemFaults_frame u (wheel_speed_sensors i)) as (-> & _).
  subst u. unfold updateVehicleReferenceSpeed.
  pose proof (read_wheel_speeds_speeds (wheel_speed_sensors i) (wheel_data_ self)
                {| sum_speeds := 0; valid_sensors := 0; max_wheel_speed := 0 |}) as H.
  destruct (read_wheel_speeds _ _ _) as [ws acc]. exact H.
Qed.

(** X10: a call entered in a processing state stores the readings of the
    batch as the wheel speeds, in order, one per channel; channels beyond the
    end of a short batch keep their speed.  This holds also when the call
    raises a fault.  A call entered in FAULT_DETECTED or INITIALIZING leaves
    the stored speeds as they were. *)
Theorem wheel_speeds_follow_the_batch self vs sensors pedal :
  let r := processBraking self vs sensors pedal in
  (operational self ->
   map speed_kmh (wheel_data_ r)
   = readings_used self sensors
     ++ map speed_kmh (skipn (List.length sensors) (wheel_data_ self)))
  /\ (~ operational self ->
      map speed_kmh (wheel_data_ r) = map speed_kmh (wheel_data_ self)).
Proof.
  intros r.
  set (i := {| vehicle_state := vs; wheel_speed_sensors := sensors;
               brake_pedal_pressure_input := pedal |}).
  change (processBraking self vs sensors pedal) with (cycle self i) in r.
  subst r. split.
  - intros Hop. pose proof (sensed_speeds self i) as E.
    cbn [wheel_speed_sensors i] in E. rewrite <- E. clear E.
    destruct (ABSState_eqb (current_abs_state_ (sensed self i)) FAULT_DETECTED) eqn:Hs.
    + rewrite cycle_unfold. destruct Hop as [Hf Hi].
      apply ABSState_eqb_neq in Hf, Hi. now rewrite Hf, Hi, Hs.
    + apply ABSState_eqb_neq in Hs. rewrite (cycle_completed self i Hop Hs).
      cbv zeta. cbn [wheel_data_ set_wheel_data]. rewrite map_map.
      change (fun x => speed_kmh (limit_pressure x)) with speed_kmh.
      destruct (main_abs_logic_summary (armed self i)
                  (potential_intervention_needed (sensed self i)
                     (brake_pedal_pressure_input i))
                  (brake_pedal_pressure_input i)) as (_ & _ & _ & _ & Hm).
      now rewrite Hm, armed_wheels.
  - intros Hnot. rewrite cycle_unfold.
    destruct (ABSState_eqb (current_abs_state_ self) FAULT_DETECTED) eqn:Hf.
    { cbn. unfold pass_through. now rewrite map_map. }
    destruct (ABSState_eqb (current_abs_state_ self) INITIALIZING) eqn:Hi; trivial.
    elim Hnot. split; now apply ABSState_eqb_neq.
Qed.

Lemma wheel_speeds_follow_the_batch_witness :
  map speed_kmh
    (wheel_data_
       (processBraking (fixtures.controller MONITORING 60 0 0) (fixtures.vehicle 60)
          [fixtures.sensor 0 58; fixtures.sensor 1 61] 30))
  = [58; 61; 60; 60]%float.
Proof.
  apply (proj1 (wheel_speeds_follow_the_batch (fixtures.controller MONITORING 60 0 0)
                  (fixtures.vehicle 60) [fixtures.sensor 0 58; fixtures.sensor 1 61] 30)).
  split; discriminate.
Defined.

End wheel_speeds.

Section modulation.

(** X11: whatever a wheel holds (out of range, NaN) and whatever branch the
    modulator takes (release, hold, reapply), [modulateBrakePressure] leaves
    the wheel's pressure within [[0, 200]] and touches nothing but the
    pressure. *)
Theorem modulateBrakePressure_within_limits self w :
  let w' := modulateBrakePressure self w in
  within_limits (applied_brake_pressure_bar w') = true
  /\ wheel_id w' = wheel_id w
  /\ speed_kmh w' = speed_kmh w
  /\ is_locking w' = is_locking w.
Proof.
  unfold modulateBrakePressure. cbn.
  split; [apply clamp_pressure_within_limits|].
  destruct (is_locking w) eqn:E; cbn; [auto|].
  destruct (_ <? _)%float; cbn; auto.
Qed.

End modulation.

Section simulated_batches.

Import main_application.

Lemma simulate_wheel_speeds_ids v noise now sensors : forall k,
  map id (simulate_wheel_speeds v noise now k sensors) = map id sensors.
Proof.
  induction sensors as [|s sensors IH]; intros k; cbn; trivial. now rewrite IH.
Qed.

Lemma std_max_0_nonneg (x : float) : (0 <=? std_max 0 x)%float = true.
Proof.
  unfold std_max. destruct (0 <? x)%float eqn:E; [now apply ltb_leb | reflexivity].
Qed.

Lemma simulate_wheel_speeds_valid v noise now sensors : forall k,
  Forall (fun s => (0 <=? value s)%float = true)
    (simulate_wheel_speeds v noise now k sensors).
Proof.
  induction sensors as [|s sensors IH]; intros k; cbn; constructor; auto.
  apply std_max_0_nonneg.
Qed.

Lemma nonneg_not_below_minus_10 (x : float) :
  (0 <=? x)%float = true -> (x <? -10)%float = false.
Proof.
  intros H. apply leb_not_ltb. rewrite leb_0_nonneg in H. rewrite leb_spec.
  destruct (Prim2SF x) as [s|s| |s m e]; try destruct s; try discriminate;
    vm_compute; reflexivity.
Qed.

(** A batch whose sensors are in place and whose readings are not negative
    is accepted unless a reading exceeds 350 km/h. *)
Lemma batch_accepted_valid sensors : forall k,
  map id sensors = map Z.of_nat (seq k (List.length sensors)) ->
  Forall (fun s => (0 <=? value s)%float = true) sensors ->
  batch_accepted (Z.of_nat k) sensors
  = negb (existsb (fun s => (350 <? value s)%float) sensors).
Proof.
  induction sensors as [|s sensors IH]; intros k Hids Hvalid; cbn; trivial.
  cbn in Hids. injection Hids as Hid Hrest.
  inversion Hvalid as [|? ? Hs Hvs]; subst.
  rewrite Hid, Z.eqb_refl. unfold grossly_out_of_range.
  rewrite (nonneg_not_below_minus_10 _ Hs). cbn [orb andb].
  replace (Z.of_nat k + 1)%Z with (Z.of_nat (S k)) by lia.
  rewrite (IH (S k) Hrest Hvs). now rewrite negb_orb.
Qed.

(** X12: the batch the vehicle controller builds (its four sensors,
    refreshed with any vehicle speed, noise and clock) always has the sensors
    in place and usable readings, so a [processBraking] call entered in a
    processing state ends in FAULT_DETECTED exactly when one of its readings
    exceeds 350 km/h. *)
Theorem simulated_batch_faults_only_above_350 self vs pedal noise now :
  operational self ->
  let batch := simulate_wheel_speeds (datatypes.speed_kmh vs) noise now 0
                 initial_wheel_speed_sensors in
  let r := processBraking self vs batch pedal in
  map id batch = [0; 1; 2; 3]%Z
  /\ Forall (fun s => estimator_spec.valid_reading (value s) = true) batch
  /\ (current_abs_state_ r = FAULT_DETECTED
      <-> existsb (fun s => (350 <? value s)%float) batch = true).
Proof.
  intros Hop batch r.
  set (i := {| vehicle_state := vs; wheel_speed_sensors := batch;
               brake_pedal_pressure_input := pedal |}).
  change (processBraking self vs batch pedal) with (cycle self i) in r.
  assert (Hids : map id batch = [0; 1; 2; 3]%Z)
    by (subst batch; now rewrite simulate_wheel_speeds_ids).
  assert (Hvalid : Forall (fun s => (0 <=? value s)%float = true) batch)
    by apply simulate_wheel_speeds_valid.
  assert (Hacc : batch_accepted 0 batch
                 = negb (existsb (fun s => (350 <? value s)%float) batch)).
  { apply (batch_accepted_valid batch 0); trivial. }
  split; [exact Hids|]. split; [exact Hvalid|].
  destruct (existsb (fun s => (350 <? value s)%float) batch) eqn:E; cbn in Hacc.
  - split; trivial. intros _. subst r. rewrite cycle_unfold.
    destruct Hop as [Hf Hi]. apply ABSState_eqb_neq in Hf, Hi. rewrite Hf, Hi.
    pose proof (sensed_rejected self i Hacc) as Hs. rewrite Hs. exact Hs.
  - split; [|discriminate]. intros Hr. exfalso.
    assert (Hs : current_abs_state_ (sensed self i) <> FAULT_DETECTED).
    { rewrite (sensed_accepted self i Hacc).
      destruct (updateVehicleReferenceSpeed_frame self batch (datatypes.speed_kmh vs))
        as (Es & _).
      cbn [wheel_speed_sensors vehicle_state i]. rewrite Es. apply Hop. }
    now destruct (completed_cycle_state self i Hop Hs).
Qed.

Lemma simulated_batch_faults_only_above_350_witness :
  let batch := main_application.simulate_wheel_speeds 120 (fun _ => (-0.25)%float)
                 (fun k => Z.of_nat k) 0 main_application.initial_wheel_speed_sensors in
  map value batch = [119.75; 119.75; 119.75; 119.75]%float
  /\ current_abs_state_
       (processBraking (fixtures.controller MONITORING 120 0 0) (fixtures.vehicle 120)
          batch 80) <> FAULT_DETECTED.
Proof.
  intros batch. split; [reflexivity|].
  destruct (simulated_batch_faults_only_above_350 (fixtures.controller MONITORING 120 0 0)
              (fixtures.vehicle 120) 80 (fun _ => (-0.25)%float) (fun k => Z.of_nat k))
    as (_ & _ & H).
  - split; discriminate.
  - intros Hr. apply H in Hr. discriminate Hr.
Defined.

End simulated_batches.

Section steady_input.

(** The update loop changes nothing on wheels that already carry the
    readings of the batch. *)
Lemma read_wheel_speeds_fixed sensors : forall wheels acc L acc',
  map speed_kmh L = map speed_kmh (fst (read_wheel_speeds sensors wheels acc)) ->
  fst (read_wheel_speeds sensors L acc') = L.
Proof.
  induction sensors as [|s sensors IH]; intros [|w wheels] acc L acc' H;
    try (destruct L; reflexivity).
  - destruct L; [reflexivity | discriminate].
  - cbn in H.
    pose proof (IH wheels (scan_reading acc (value s))) as IH'.
    destruct (read_wheel_speeds sensors wheels _) as [ws a]. cbn in H, IH'.
    destruct L as [|l0 L]; [discriminate|]. cbn in H. injection H as H0 HL.
    cbn. specialize (IH' L (scan_reading acc' (value s)) HL).
    destruct (read_wheel_speeds sensors L _) as [ws' a']. cbn in *. subst ws'.
    f_equal. destruct l0. cbn in *. now subst.
Qed.

Lemma readings_used_length self self' sensors :
  List.length (wheel_data_ self) = List.length (wheel_data_ self') ->
  readings_used self sensors = readings_used self' sensors.
Proof. unfold readings_used. now intros ->. Qed.

(** The detector reads the reference speed and the wheel's speed only. *)
Lemma detectWheelLockup_ext a b w w' t t' :
  vehicle_reference_speed_kmh_ a = vehicle_reference_speed_kmh_ b ->
  speed_kmh w = speed_kmh w' ->
  detectWheelLockup a w t = detectWheelLockup b w' t'.
Proof. intros Hr Hs. unfold detectWheelLockup. now rewrite Hr, Hs. Qed.

Lemma existsb_false_Forall {A} (f : A -> bool) l :
  existsb f l = false -> Forall (fun x => f x = false) l.
Proof.
  induction l as [|x l IH]; cbn; intros H; constructor.
  - now destruct (f x).
  - apply IH. now destruct (f x).
Qed.

(** Step 4 of a call that neither intervenes nor was intervening, as a
    whole: the analysed (or, in INACTIVE, the stored) wheels with the pedal
    input written to each. *)
Lemma main_abs_logic_quiet a potential pedal :
  current_abs_state_ a <> INTERVENING ->
  (current_abs_state_ a = MONITORING ->
   existsb is_locking (map (analyze_wheel a pedal) (wheel_data_ a)) = false) ->
  main_abs_logic a potential pedal
  = {| current_abs_state_ :=
         if ABSState_eqb (current_abs_state_ a) MONITORING
         then settled_state potential else current_abs_state_ a;
       wheel_data_ :=
         pass_through pedal
           (if ABSState_eqb (current_abs_state_ a) MONITORING
            then map (analyze_wheel a pedal) (wheel_data_ a) else wheel_data_ a);
       vehicle_reference_speed_kmh_ := vehicle_reference_speed_kmh_ a;
       cycles_since_last_intervention_ := cycles_since_last_intervention_ a;
       fault_code_ := fault_code_ a |}.
Proof.
  intros Hint Hquiet. apply ABSState_eqb_neq in Hint.
  unfold main_abs_logic. rewrite Hint, orb_false_r.
  destruct (ABSState_eqb (current_abs_state_ a) MONITORING) eqn:Hmon.
  - apply ABSState_eqb_eq in Hmon. specialize (Hquiet Hmon).
    rewrite analyze_wheels_map, Hquiet. cbn. rewrite Hint. reflexivity.
  - reflexivity.
Qed.

(** A controller in the state a quiet cycle settles in, whose wheels carry
    the readings of the batch, the clamped pedal input and, when the entry
    condition holds, clear flags that the detector confirms, is left as it is
    by a call with that batch and pedal input. *)
Lemma settled_controller_is_fixed i L R c fc :
  let pedal := brake_pedal_pressure_input i in
  let potential := (10 <? R)%float && (20 <? pedal)%float in
  let r := {| current_abs_state_ := settled_state potential; wheel_data_ := L;
              vehicle_reference_speed_kmh_ := R;
              cycles_since_last_intervention_ := c; fault_code_ := fc |} in
  batch_accepted 0 (wheel_speed_sensors i) = true ->
  fst (read_wheel_speeds (wheel_speed_sensors i) L empty_scan) = L ->
  vehicle_reference_speed_kmh_
    (updateVehicleReferenceSpeed r (wheel_speed_sensors i)
       (datatypes.speed_kmh (vehicle_state i))) = R ->
  Forall (fun w => applied_brake_pressure_bar w = clamp_pressure pedal) L ->
  (potential = true ->
   Forall (fun w => is_locking w = false /\ detectWheelLockup r w 1 = false) L) ->
  cycle r i = r.
Proof.
  intros pedal potential r Hacc Hread Href Hpress Hflags.
  assert (Hupdate : updateVehicleReferenceSpeed r (wheel_speed_sensors i)
                      (datatypes.speed_kmh (vehicle_state i)) = r).
  { unfold updateVehicleReferenceSpeed in *. cbn [wheel_data_ r] in *.
    fold empty_scan in Href |- *.
    destruct (read_wheel_speeds (wheel_speed_sensors i) L empty_scan) as [ws acc].
    cbn in Hread, Href |- *. subst ws. unfold set_reference_speed. cbn.
    rewrite Href. reflexivity. }
  assert (Hsensed : sensed r i = r) by (rewrite (sensed_accepted r i Hacc); exact Hupdate).
  assert (Hop : operational r) by (split; cbn; destruct potential; discriminate).
  assert (Hs : current_abs_state_ (sensed r i) <> FAULT_DETECTED)
    by (rewrite Hsensed; apply Hop).
  assert (Hpot : potential_intervention_needed (sensed r i) pedal = potential)
    by (rewrite Hsensed; reflexivity).
  assert (Harmed : armed r i = r).
  { unfold armed. fold pedal. rewrite Hpot, Hsensed.
    unfold evaluate_entry_condition. cbn. now destruct potential. }
  assert (Hnone : current_abs_state_ r = MONITORING ->
                  existsb is_locking (map (analyze_wheel r pedal) (wheel_data_ r)) = false).
  { intros Hmon. assert (Hp : potential = true) by (destruct potential; [trivial | discriminate]).
    specialize (Hflags Hp). cbn [wheel_data_ r].
    destruct (existsb _ _) eqn:E; trivial.
    apply existsb_exists in E as (x & Hin & Hx).
    apply in_map_iff in Hin as (w & <- & Hin).
    rewrite Forall_forall in Hflags. destruct (Hflags w Hin) as [_ Hd].
    rewrite <- Hx, <- Hd. unfold analyze_wheel. cbn.
    apply detectWheelLockup_ext; trivial. now destruct (_ || _). }
  rewrite (cycle_completed r i Hop Hs). cbv zeta. fold pedal. rewrite Hpot, Harmed.
  rewrite (main_abs_logic_quiet r potential pedal);
    [| cbn; destruct potential; discriminate | exact Hnone].
  unfold set_wheel_data.
  cbn [current_abs_state_ wheel_data_ vehicle_reference_speed_kmh_
       cycles_since_last_intervention_ fault_code_ r].
  assert (Hst : (if ABSState_eqb (settled_state potential) MONITORING
                 then settled_state potential else settled_state potential)
                = settled_state potential) by now destruct (ABSState_eqb _ _).
  rewrite Hst.
  enough (Hw : map limit_pressure
                 (pass_through pedal
                    (if ABSState_eqb (settled_state potential) MONITORING
                     then map (analyze_wheel r pedal) L else L)) = L)
    by (rewrite Hw; reflexivity).
  unfold pass_through. rewrite map_map.
  rewrite Forall_forall in Hpress.
  destruct potential eqn:Epot; cbn [settled_state ABSState_eqb].
  - specialize (Hflags eq_refl). rewrite Forall_forall in Hflags.
    rewrite map_map. transitivity (map (fun w => w) L); [| apply map_id].
    apply map_ext_in. intros w Hw.
    specialize (Hpress w Hw). destruct (Hflags w Hw) as [Hl Hd].
    assert (E : is_locking (analyze_wheel r pedal w) = false).
    { rewrite <- Hd. unfold analyze_wheel. cbn. apply detectWheelLockup_ext; trivial. }
    unfold limit_pressure, analyze_wheel in *. cbn in E |- *. fold r. rewrite E.
    destruct w. unfold set_applied_brake_pressure_bar, set_is_locking.
    cbn in Hpress, Hl |- *. congruence.
  - transitivity (map (fun w => w) L); [| apply map_id].
    apply map_ext_in. intros w Hw. specialize (Hpress w Hw).
    unfold limit_pressure. destruct w. unfold set_applied_brake_pressure_bar.
    cbn in Hpress |- *. congruence.
Qed.

Lemma updateVehicleReferenceSpeed_wheels self sensors hint :
  wheel_data_ (updateVehicleReferenceSpeed self sensors hint)
  = fst (read_wheel_speeds sensors (wheel_data_ self) empty_scan).
Proof.
  unfold updateVehicleReferenceSpeed. fold empty_scan.
  now destruct (read_wheel_speeds _ _ _) as [ws acc].
Qed.

(** X13: a call entered in INACTIVE or MONITORING with an accepted batch that
    does not end in INTERVENING leaves a controller that the same inputs no
    longer change: calling processBraking again with the same vehicle state,
    batch and pedal input returns it field for field. *)
Theorem steady_input_is_a_fixed_point self vs sensors pedal :
  operational self ->
  current_abs_state_ self <> INTERVENING ->
  batch_accepted 0 sensors = true ->
  let r := processBraking self vs sensors pedal in
  current_abs_state_ r <> INTERVENING ->
  processBraking r vs sensors pedal = r.
Proof.
  intros Hop Hentry Hacc r.
  set (i := {| vehicle_state := vs; wheel_speed_sensors := sensors;
               brake_pedal_pressure_input := pedal |}).
  change (processBraking self vs sensors pedal) with (cycle self i) in r.
  change (processBraking r vs sensors pedal) with (cycle r i).
  intros Hr.
  pose proof (sensed_accepted self i Hacc) as Hsensed.
  assert (Hstate : current_abs_state_ (sensed self i) = current_abs_state_ self).
  { rewrite Hsensed. apply updateVehicleReferenceSpeed_frame. }
  assert (Hs : current_abs_state_ (sensed self i) <> FAULT_DETECTED)
    by (rewrite Hstate; apply Hop).
  pose proof (cycle_completed self i Hop Hs) as Hc. cbv zeta in Hc. fold r in Hc.
  cbn [brake_pedal_pressure_input i] in Hc.
  set (potential := potential_intervention_needed (sensed self i) pedal) in *.
  set (a := armed self i) in *.
  destruct (armed_summary self i) as [Ha1 _].
  cbn [brake_pedal_pressure_input i] in Ha1. fold potential a in Ha1.
  rewrite Hstate in Ha1.
  destruct (evaluate_entry_condition_frame (sensed self i) potential) as (Haw & Har & _).
  change (evaluate_entry_condition (sensed self i) potential) with a in Haw, Har.
  assert (Harmed : current_abs_state_ a <> INTERVENING).
  { rewrite Ha1. destruct Hop as [Hf Hi].
    destruct (current_abs_state_ self); try congruence; destruct potential; discriminate. }
  assert (Hquiet : current_abs_state_ a = MONITORING ->
                   existsb is_locking (map (analyze_wheel a pedal) (wheel_data_ a)) = false).
  { intros Hmon. destruct (existsb _ _) eqn:E; trivial.
    exfalso. apply Hr. rewrite Hc. cbn [current_abs_state_ set_wheel_data].
    destruct (main_abs_logic_summary a potential pedal) as (Hm1 & _).
    rewrite Hm1, Hmon. try rewrite E. reflexivity. }
  rewrite (main_abs_logic_quiet a potential pedal Harmed Hquiet) in Hc.
  unfold set_wheel_data in Hc.
  cbn [current_abs_state_ wheel_data_ vehicle_reference_speed_kmh_
       cycles_since_last_intervention_ fault_code_] in Hc.
  set (W := if ABSState_eqb (current_abs_state_ a) MONITORING
            then map (analyze_wheel a pedal) (wheel_data_ a) else wheel_data_ a) in Hc.
  set (L := map limit_pressure (pass_through pedal W)) in Hc.
  assert (Hpot : potential
                 = (10 <? vehicle_reference_speed_kmh_ a)%float && (20 <? pedal)%float)
    by (rewrite Har; reflexivity).
  assert (Hst : (if ABSState_eqb (current_abs_state_ a) MONITORING
                 then settled_state potential else current_abs_state_ a)
                = settled_state potential).
  { destruct (ABSState_eqb (current_abs_state_ a) MONITORING) eqn:Hmon; trivial.
    rewrite Ha1 in Hmon |- *. destruct Hop as [Hf Hi].
    destruct (current_abs_state_ self); try congruence;
      destruct potential; cbn in *; auto; discriminate. }
  rewrite Hst, Hpot in Hc.
  assert (HWspeed : map speed_kmh W = map speed_kmh (wheel_data_ a)).
  { subst W. destruct (ABSState_eqb _ _); trivial.
    rewrite map_map. apply map_ext. intros w. apply analyze_wheel_identity. }
  assert (HLspeed : map speed_kmh L = map speed_kmh (wheel_data_ a)).
  { rewrite <- HWspeed. subst L. unfold pass_through. now rewrite !map_map. }
  assert (HLlen : List.length L = List.length (wheel_data_ self)).
  { apply (f_equal (@List.length float)) in HLspeed. rewrite !length_map in HLspeed.
    rewrite HLspeed, Haw. apply sensed_length. }
  rewrite Hc.
  apply (settled_controller_is_fixed i L (vehicle_reference_speed_kmh_ a)
           (cycles_since_last_intervention_ a) (fault_code_ a)).
  - exact Hacc.
  - apply (read_wheel_speeds_fixed sensors (wheel_data_ self) empty_scan).
    rewrite HLspeed, Haw, Hsensed. now rewrite updateVehicleReferenceSpeed_wheels.
  - rewrite updateVehicleReferenceSpeed_scan, Har, sensed_reference,
      updateVehicleReferenceSpeed_scan.
    cbn [wheel_speed_sensors vehicle_state i].
    unfold readings_used. cbn [wheel_data_]. now rewrite HLlen.
  - apply Forall_forall. intros w Hw. subst L. unfold pass_through in Hw.
    rewrite map_map in Hw. apply in_map_iff in Hw as (w0 & <- & _). reflexivity.
  - cbn [brake_pedal_pressure_input i]. rewrite <- Hpot. intros Hp.
    assert (Hmon : current_abs_state_ a = MONITORING).
    { rewrite Ha1. destruct Hop as [Hf Hi]. rewrite Hp.
      destruct (current_abs_state_ self); congruence. }
    specialize (Hquiet Hmon).
    apply Forall_forall. intros w Hw. subst L W. unfold pass_through in Hw.
    rewrite (proj2 (ABSState_eqb_eq _ _) Hmon) in Hw.
    rewrite !map_map in Hw. apply in_map_iff in Hw as (w0 & <- & Hw0).
    assert (E : is_locking (analyze_wheel a pedal w0) = false).
    { destruct (is_locking (analyze_wheel a pedal w0)) eqn:E; trivial.
      rewrite <- Hquiet. symmetry. apply existsb_exists.
      exists (analyze_wheel a pedal w0). split; [now apply in_map | exact E]. }
    split; [exact E|]. rewrite <- E. unfold analyze_wheel.
    cbn [is_locking set_is_locking]. apply detectWheelLockup_ext; reflexivity.
Qed.

Lemma steady_input_is_a_fixed_point_witness :
  let r := processBraking (fixtures.controller INACTIVE 0 0 0) (fixtures.vehicle 60)
             (fixtures.batch 60 61 59 60) 40 in
  current_abs_state_ r = MONITORING
  /\ processBraking r (fixtures.vehicle 60) (fixtures.batch 60 61 59 60) 40 = r.
Proof.
  intros r. split; [reflexivity|].
  apply (steady_input_is_a_fixed_point (fixtures.controller INACTIVE 0 0 0)
           (fixtures.vehicle 60) (fixtures.batch 60 61 59 60) 40).
  - split; discriminate.
  - discriminate.
  - reflexivity.
  - intros H; vm_compute in H; discriminate H.
Defined.

End steady_input.
